(** * DNS-log activity classifiers: a shallow embedding

    This development embeds the detection core of the NextDNS report
    viewer (the CSV-parser utilities and the indicator tables of the
    [dns-log] type module) and states its specification as theorems.
    The per-window statistics that call the detectors, and the tag and
    severity helpers of the trend report that read their results, are
    embedded too.

    Conventions of the embedding:
    - a JavaScript string is a [string]; [String.prototype.includes] is
      [includes], an exact (code-unit) substring test;
    - a [Date] is its [getTime()] value, an integer number of
      milliseconds ([Z]);
    - what the JavaScript engine and the machine decide (the reading of
      a date text in the local time zone, the collation of
      [localeCompare]) is a parameter, the [Host];
    - a [number] holding a score or a count is a [Z] or a [nat];
    - [Array.prototype.sort] is stable, and is modelled by a stable
      insertion sort;
    - code that mutates local variables step by step is written as a
      chain of state transformers, one per numbered section of the
      source. *)

From Stdlib Require Import ZArith Bool Ascii String DecimalString List.
From Stdlib Require Import Permutation Sorted Lia.
Import ListNotations.

Open Scope string_scope.
Open Scope list_scope.
Open Scope Z_scope.

(** ** Strings *)

(** [s.startsWith(p)] *)
Fixpoint startsWith (s p : string) {struct p} : bool :=
  match p with
  | EmptyString => true
  | String c p' =>
      match s with
      | EmptyString => false
      | String d s' => Ascii.eqb c d && startsWith s' p'
      end
  end.

(** [s.includes(p)]: [p] occurs in [s] as a contiguous substring. *)
Fixpoint includes (s p : string) : bool :=
  startsWith s p ||
  match s with
  | EmptyString => false
  | String _ s' => includes s' p
  end.

(** ** Log entries *)

(** [ProcessedLogEntry]: the classifiers read the domain and the parsed
    timestamp only; the remaining columns of the CSV row are carried
    along untouched by the source and are not part of the model. *)
Record ProcessedLogEntry : Type := mkEntry {
  domain : string;
  parsedTimestamp : Z
}.

(** ** Sorting by timestamp

    [[...windowEntries].sort((a, b) => a.parsedTimestamp.getTime() -
    b.parsedTimestamp.getTime())]: ascending and stable. *)
Fixpoint insertByTime (x : ProcessedLogEntry) (l : list ProcessedLogEntry)
  : list ProcessedLogEntry :=
  match l with
  | [] => [x]
  | y :: l' =>
      if parsedTimestamp x <=? parsedTimestamp y then x :: y :: l'
      else y :: insertByTime x l'
  end.

Definition sortByTime (l : list ProcessedLogEntry) : list ProcessedLogEntry :=
  fold_right insertByTime [] l.

(** ** Helpers of the parser module *)

(** The source divides the millisecond difference by 1000 and compares
    it with the second offsets; on integers this is the comparison
    below, in milliseconds. *)
Definition findEntriesInWindow (entries : list ProcessedLogEntry)
  (targetTime : Z) (beforeSeconds afterSeconds : Z) : list ProcessedLogEntry :=
  filter (fun entry =>
    let timeDiffMs := parsedTimestamp entry - targetTime in
    (- (1000 * beforeSeconds) <=? timeDiffMs) && (timeDiffMs <=? 1000 * afterSeconds))
    entries.

Definition matchesAny (patterns : list string) (entry : ProcessedLogEntry) : bool :=
  existsb (fun pattern => includes (domain entry) pattern) patterns.

Definition hasDomainPattern (entries : list ProcessedLogEntry)
  (patterns : list string) : bool :=
  existsb (matchesAny patterns) entries.

Definition countDomainPattern (entries : list ProcessedLogEntry)
  (patterns : list string) : nat :=
  length (filter (matchesAny patterns) entries).

Definition isAPNs (entry : ProcessedLogEntry) : bool :=
  includes (domain entry) "courier" && includes (domain entry) "push.apple.com".

Definition detectAPNs (entries : list ProcessedLogEntry) : list ProcessedLogEntry :=
  filter isAPNs entries.

(** [entries.some(entry => entry.domain.includes(p))] *)
Definition someIncludes (entries : list ProcessedLogEntry) (p : string) : bool :=
  existsb (fun entry => includes (domain entry) p) entries.

Definition nonEmpty {A : Type} (l : list A) : bool :=
  negb (Nat.eqb (length l) 0).

(** ** Indicator tables *)

Module WHATSAPP_ACTIVITY_INDICATORS.
Definition signalling : list string :=
  ["g.whatsapp.net"; "graph.whatsapp.com"; "dit.whatsapp.net"].
Definition mediaUpload : list string := ["mmg.whatsapp.net"].
Definition mediaDownload : list string :=
  ["media-"; ".cdn.whatsapp.net"; "mmx-ds.cdn.whatsapp.net"].
Definition calls : list string :=
  ["dit.whatsapp.net"; "dyn.whatsapp.net"; "relay.whatsapp.net"].
Definition core : list string := ["whatsapp.net"; "whatsapp.com"].
Definition apns : list string := ["courier"; "push.apple.com"].
Definition background : list string :=
  ["static.whatsapp.net"; "edge-mqtt.whatsapp.net"; "edge-mqtt.facebook.com"].
End WHATSAPP_ACTIVITY_INDICATORS.

Module FACEBOOK_ACTIVITY_INDICATORS.
Definition calls : list string := ["external.xx.fbcdn.net"].
Definition textSend : list string := ["pm.facebook.com"; "web.facebook.com"].
Definition messaging : list string :=
  ["edge-mqtt.facebook.com"; "gateway.facebook.com"; "chat-e2ee.facebook.com"].
Definition mediaUpload : list string := ["rupload.facebook.com"].
Definition mediaDownload : list string :=
  ["scontent."; ".fbcdn.net"; ".fbsbx.com"].
Definition api : list string :=
  ["star.c10r.facebook.com"; "star.fallback.c10r.facebook.com";
   "graph.facebook.com"; "graph.instagram.com"].
Definition core : list string :=
  ["facebook.com"; "messenger.com"; "instagram.com"].
Definition background : list string :=
  ["www.facebook.com"; "static.xx.fbcdn.net"; "connect.facebook.net"].
Definition reelsVideo : list string :=
  ["static-"; ".xx.fbcdn.net"; "external-"; ".xx.fbcdn.net";
   "-netseer-ipaddr-assoc."; "oculuscdn.com"; "securecdn.oculus.com";
   "cdninstagram.com"].
End FACEBOOK_ACTIVITY_INDICATORS.

Module RELATIONSHIP_CONCERN_INDICATORS.
Definition datingApps : list string :=
  ["tinder.com"; "bumble.com"; "hinge.co"; "match.com"; "eharmony.com";
   "okcupid.com"; "pof.com"; "zoosk.com"; "badoo.com"; "happn.com";
   "grindr.com"; "scruff.com"; "jackd.com"; "hornet.com";
   "adultfriendfinder.com"; "ashley-madison.com"; "seeking.com";
   "raya.co"; "coffeemeetsbagel.com"; "theinner-circle.com";
   "elitesingles.com"; "silversingles.com"; "ourtime.com";
   "christianmingle.com"; "jdate.com"; "blackpeoplemeet.com";
   "loveandseek.com"; "farmersonly.com"; "militarycupid.com"].
Definition alternativeMessaging : list string :=
  ["telegram.org"; "signal.org"; "discord.com"; "slack.com";
   "snapchat.com"; "kik.com"; "viber.com"; "line.me";
   "wechat.com"; "qq.com"; "kakaotalk.com"; "threema.ch";
   "wickr.com"; "element.io"; "session.im"; "briar.app";
   "jami.net"; "riot.im"; "matrix.org"; "keybase.io";
   "dust.com"; "confide.com"; "coverme.ws"; "silent-phone.com"].
Definition videoCalling : list string :=
  ["zoom.us"; "skype.com"; "teams.microsoft.com"; "meet.google.com";
   "webex.com"; "gotomeeting.com"; "bluejeans.com"; "jitsi.org";
   "whereby.com"; "appear.in"; "bigbluebutton.org"; "jami.net";
   "facetime.apple.com"; "duo.google.com"; "allo.google.com"].
Definition socialMessaging : list string :=
  ["twitter.com"; "x.com"; "linkedin.com"; "reddit.com";
   "pinterest.com"; "tumblr.com"; "twitch.tv"; "onlyfans.com";
   "chaturbate.com"; "cam4.com"; "myfreecams.com"; "streamate.com";
   "flirt4free.com"; "camsoda.com"; "bongacams.com"; "stripchat.com"].
Definition anonymousPlatforms : list string :=
  ["yolo.live"; "sarahah.com"; "tellonym.me"; "curiouscat.me";
   "ask.fm"; "lipsi.co"; "sendit.gg"; "ngl.link";
   "whisper.sh"; "anonymous.com"; "confession.co"; "secrets.co"].
Definition excludePatterns : list string :=
  ["chat.google.com"; "hangouts.google.com"; "mail.google.com";
   "accounts.google.com"; "apis.google.com"; "fonts.google.com";
   "maps.google.com"].
End RELATIONSHIP_CONCERN_INDICATORS.

(** ** The WhatsApp activity classifier *)

Module WhatsApp.
Record Activity : Type := mkActivity {
  isTextMessage : bool;
  isMediaTransfer : bool;
  isVoiceCall : bool;
  isVideoCall : bool;
  activityScore : Z;
  callDirection : string
}.

(** The values of the local variables at their declaration. *)
Definition initial : Activity := mkActivity false false false false 0 "".
End WhatsApp.

Definition isSignalling (entry : ProcessedLogEntry) : bool :=
  matchesAny WHATSAPP_ACTIVITY_INDICATORS.signalling entry.

Definition isFacebookInterference (entry : ProcessedLogEntry) : bool :=
  includes (domain entry) "rupload.facebook.com" ||
  includes (domain entry) "edge-mqtt.facebook.com".

Definition isWhatsAppMediaCDN (entry : ProcessedLogEntry) : bool :=
  includes (domain entry) "media-" && includes (domain entry) "cdn.whatsapp.net".

Definition isAppleSystem (entry : ProcessedLogEntry) : bool :=
  includes (domain entry) "apple.com" || includes (domain entry) "icloud.com".

Section WhatsAppSteps.
Variable sortedEntries : list ProcessedLogEntry.

Definition waHasSignalling : bool :=
  hasDomainPattern sortedEntries WHATSAPP_ACTIVITY_INDICATORS.signalling.
Definition waHasMediaUpload : bool :=
  hasDomainPattern sortedEntries WHATSAPP_ACTIVITY_INDICATORS.mediaUpload.
Definition waHasMediaDownload : bool :=
  hasDomainPattern sortedEntries WHATSAPP_ACTIVITY_INDICATORS.mediaDownload.
Definition waHasCore : bool :=
  hasDomainPattern sortedEntries WHATSAPP_ACTIVITY_INDICATORS.core.
Definition waApnsEntries : list ProcessedLogEntry := detectAPNs sortedEntries.

(** Body of the loop of section 1 for one push entry: signalling in
    [-10s, +5s] and no Facebook interference in [-10s, +15s]. *)
Definition apnsStartsCall (apnsEntry : ProcessedLogEntry) : bool :=
  let signallingInWindow :=
    filter isSignalling
      (findEntriesInWindow sortedEntries (parsedTimestamp apnsEntry) 10 5) in
  nonEmpty signallingInWindow &&
  (let facebookInterference :=
     filter isFacebookInterference
       (findEntriesInWindow sortedEntries (parsedTimestamp apnsEntry) 10 15) in
   Nat.eqb (length facebookInterference) 0).

(** 1. Incoming call.  The loop sets the same three variables whichever
    push entry succeeds and then breaks, so it is an existence test. *)
Definition waIncomingCall (st : WhatsApp.Activity) : WhatsApp.Activity :=
  if existsb apnsStartsCall waApnsEntries then
    WhatsApp.mkActivity (WhatsApp.isTextMessage st) (WhatsApp.isMediaTransfer st)
      true (WhatsApp.isVideoCall st) (WhatsApp.activityScore st + 8) "incoming"
  else st.

Definition laterMediaCDN (signallingEntry : ProcessedLogEntry) : list ProcessedLogEntry :=
  filter (fun entry =>
            isWhatsAppMediaCDN entry &&
            (parsedTimestamp signallingEntry <? parsedTimestamp entry))
    (findEntriesInWindow sortedEntries (parsedTimestamp signallingEntry) 0 120).

Definition precedingAPNs (signallingEntry : ProcessedLogEntry) : list ProcessedLogEntry :=
  filter isAPNs
    (findEntriesInWindow sortedEntries (parsedTimestamp signallingEntry) 15 0).

(** 2. Voice note: the first signalling entry followed by a media CDN
    entry decides the direction, then the loop breaks. *)
Definition waVoiceNote (st : WhatsApp.Activity) : WhatsApp.Activity :=
  if negb (WhatsApp.isVoiceCall st) && waHasSignalling then
    match find (fun signallingEntry => nonEmpty (laterMediaCDN signallingEntry))
               (filter isSignalling sortedEntries) with
    | Some signallingEntry =>
        let incoming := nonEmpty (precedingAPNs signallingEntry) in
        WhatsApp.mkActivity (WhatsApp.isTextMessage st) true
          (WhatsApp.isVoiceCall st) (WhatsApp.isVideoCall st)
          (WhatsApp.activityScore st + (if incoming then 8 else 6))
          (if incoming then "incoming" else "outgoing")
    | None => st
    end
  else st.

Definition waSetText (st : WhatsApp.Activity) (score : Z) : WhatsApp.Activity :=
  WhatsApp.mkActivity true (WhatsApp.isMediaTransfer st)
    (WhatsApp.isVoiceCall st) (WhatsApp.isVideoCall st)
    (WhatsApp.activityScore st + score) (WhatsApp.callDirection st).

Definition waSetMedia (st : WhatsApp.Activity) (score : Z) : WhatsApp.Activity :=
  WhatsApp.mkActivity (WhatsApp.isTextMessage st) true
    (WhatsApp.isVoiceCall st) (WhatsApp.isVideoCall st)
    (WhatsApp.activityScore st + score) (WhatsApp.callDirection st).

Definition waSetScore (st : WhatsApp.Activity) (score : Z) : WhatsApp.Activity :=
  WhatsApp.mkActivity (WhatsApp.isTextMessage st) (WhatsApp.isMediaTransfer st)
    (WhatsApp.isVoiceCall st) (WhatsApp.isVideoCall st)
    score (WhatsApp.callDirection st).

(** 3. Text message and conversation. *)
Definition waTextMessage (st : WhatsApp.Activity) : WhatsApp.Activity :=
  if negb (WhatsApp.isVoiceCall st) && negb (WhatsApp.isMediaTransfer st) then
    let hasAPNsActivity := nonEmpty waApnsEntries in
    let hasDitActivity := hasDomainPattern sortedEntries ["dit.whatsapp.net"] in
    let hasGraphActivity := hasDomainPattern sortedEntries ["graph.whatsapp.com"] in
    if hasAPNsActivity && waHasSignalling then waSetText st 7
    else if hasDitActivity && hasGraphActivity && waHasSignalling then waSetText st 5
    else if hasGraphActivity && waHasSignalling then waSetText st 4
    else if waHasMediaUpload then waSetText st 4
    else st
  else st.

(** 4. Voice note or media sent. *)
Definition waMediaSent (st : WhatsApp.Activity) : WhatsApp.Activity :=
  if waHasMediaUpload then
    let st' := waSetMedia st 6 in
    let hasStaticActivity := hasDomainPattern sortedEntries ["static.whatsapp.net"] in
    let hasDitActivity := hasDomainPattern sortedEntries ["dit.whatsapp.net"] in
    if waHasMediaDownload && hasStaticActivity && hasDitActivity
    then waSetScore st' (WhatsApp.activityScore st' + 3)
    else st'
  else st.

Definition apnsVoiceNoteReceived (apnsEntry : ProcessedLogEntry) : bool :=
  let whatsappSignalling :=
    filter isSignalling
      (findEntriesInWindow sortedEntries (parsedTimestamp apnsEntry) 0 300) in
  nonEmpty whatsappSignalling &&
  (let voiceNoteMedia :=
     filter isWhatsAppMediaCDN
       (findEntriesInWindow sortedEntries (parsedTimestamp apnsEntry) 0 300) in
   let appleSystemActivity :=
     filter isAppleSystem
       (findEntriesInWindow sortedEntries (parsedTimestamp apnsEntry) 30 30) in
   nonEmpty voiceNoteMedia && Nat.ltb (length appleSystemActivity) 2).

(** 5. Voice note received. *)
Definition waVoiceNoteReceived (st : WhatsApp.Activity) : WhatsApp.Activity :=
  if negb (WhatsApp.isVoiceCall st) && negb (WhatsApp.isMediaTransfer st) then
    if existsb apnsVoiceNoteReceived waApnsEntries then waSetMedia st 6 else st
  else st.

(** 6. Media received. *)
Definition waMediaReceived (st : WhatsApp.Activity) : WhatsApp.Activity :=
  if waHasMediaDownload && negb waHasMediaUpload && negb (WhatsApp.isVoiceCall st)
  then waSetMedia st 4
  else st.

(** 7. Persistent connection. *)
Definition waPersistentConnection (st : WhatsApp.Activity) : WhatsApp.Activity :=
  if WhatsApp.isMediaTransfer st && negb (WhatsApp.isTextMessage st) &&
     (4 <=? WhatsApp.activityScore st)
  then waSetText st 2
  else st.

(** Minimal score for any WhatsApp presence. *)
Definition waMinimalScore (st : WhatsApp.Activity) : WhatsApp.Activity :=
  if (WhatsApp.activityScore st =? 0) && (waHasCore || waHasSignalling)
  then waSetScore st 1
  else st.

Definition waClassify : WhatsApp.Activity :=
  if negb waHasCore && negb waHasSignalling then WhatsApp.initial
  else
    let hasNetSeerCDN := someIncludes sortedEntries "-netseer-ipaddr-assoc." in
    let hasStrongWhatsAppEvidence := nonEmpty waApnsEntries || waHasMediaUpload in
    if hasNetSeerCDN && negb hasStrongWhatsAppEvidence then
      waSetScore WhatsApp.initial 0
    else
      waMinimalScore
        (waPersistentConnection
          (waMediaReceived
            (waVoiceNoteReceived
              (waMediaSent
                (waTextMessage
                  (waVoiceNote
                    (waIncomingCall WhatsApp.initial))))))).
End WhatsAppSteps.

Definition detectWhatsAppActivity (windowEntries : list ProcessedLogEntry)
  : WhatsApp.Activity :=
  waClassify (sortByTime windowEntries).

(** ** The Facebook activity classifier *)

Module Facebook.
Record Activity : Type := mkActivity {
  isMessaging : bool;
  isMediaTransfer : bool;
  isBackgroundRefresh : bool;
  isInstagramActivity : bool;
  isReelsScrolling : bool;
  activityScore : Z;
  isCall : bool
}.

Definition initial : Activity :=
  mkActivity false false false false false 0 false.
End Facebook.

Definition isFacebookDomain (entry : ProcessedLogEntry) : bool :=
  includes (domain entry) "facebook".

Definition isWhatsAppMediaInterference (entry : ProcessedLogEntry) : bool :=
  includes (domain entry) "mmg.whatsapp.net" ||
  includes (domain entry) "media-" && includes (domain entry) "cdn.whatsapp.net".

(** Field updates of the classifier's local variables. *)
Definition fbSetMessaging (st : Facebook.Activity) (media : bool) (score : Z)
  : Facebook.Activity :=
  Facebook.mkActivity true (media || Facebook.isMediaTransfer st)
    (Facebook.isBackgroundRefresh st) (Facebook.isInstagramActivity st)
    (Facebook.isReelsScrolling st) (Facebook.activityScore st + score)
    (Facebook.isCall st).

Definition fbSetMedia (st : Facebook.Activity) (score : Z) : Facebook.Activity :=
  Facebook.mkActivity (Facebook.isMessaging st) true
    (Facebook.isBackgroundRefresh st) (Facebook.isInstagramActivity st)
    (Facebook.isReelsScrolling st) (Facebook.activityScore st + score)
    (Facebook.isCall st).

Definition fbSetBackground (st : Facebook.Activity) : Facebook.Activity :=
  Facebook.mkActivity (Facebook.isMessaging st) (Facebook.isMediaTransfer st)
    true (Facebook.isInstagramActivity st)
    (Facebook.isReelsScrolling st) 1 (Facebook.isCall st).

Definition fbSetScore (st : Facebook.Activity) (score : Z) : Facebook.Activity :=
  Facebook.mkActivity (Facebook.isMessaging st) (Facebook.isMediaTransfer st)
    (Facebook.isBackgroundRefresh st) (Facebook.isInstagramActivity st)
    (Facebook.isReelsScrolling st) score (Facebook.isCall st).

Section FacebookSteps.
Variable sortedEntries : list ProcessedLogEntry.

Definition fbHasCalls : bool :=
  hasDomainPattern sortedEntries FACEBOOK_ACTIVITY_INDICATORS.calls.
Definition fbHasTextSend : bool :=
  hasDomainPattern sortedEntries FACEBOOK_ACTIVITY_INDICATORS.textSend.
Definition fbHasMessagingMQTT : bool :=
  hasDomainPattern sortedEntries FACEBOOK_ACTIVITY_INDICATORS.messaging.
Definition fbHasMediaUpload : bool :=
  hasDomainPattern sortedEntries FACEBOOK_ACTIVITY_INDICATORS.mediaUpload.
Definition fbHasMediaDownload : bool :=
  hasDomainPattern sortedEntries FACEBOOK_ACTIVITY_INDICATORS.mediaDownload.
Definition fbHasCore : bool :=
  hasDomainPattern sortedEntries FACEBOOK_ACTIVITY_INDICATORS.core.
Definition fbHasBackground : bool :=
  hasDomainPattern sortedEntries FACEBOOK_ACTIVITY_INDICATORS.background.
Definition fbHasReelsVideo : bool :=
  hasDomainPattern sortedEntries FACEBOOK_ACTIVITY_INDICATORS.reelsVideo.

Definition hasVideoStaticAssets : bool :=
  existsb (fun entry => includes (domain entry) "static-" &&
                        includes (domain entry) ".xx.fbcdn.net") sortedEntries.
Definition hasNetSeerCDN : bool :=
  someIncludes sortedEntries "-netseer-ipaddr-assoc.".

(** 1. Call detection. *)
Definition fbCallDetection (st : Facebook.Activity) : Facebook.Activity :=
  if fbHasCalls && (fbHasMessagingMQTT || fbHasCore) then
    let whatsappInterference := filter isWhatsAppMediaInterference sortedEntries in
    if Nat.eqb (length whatsappInterference) 0 then
      Facebook.mkActivity (Facebook.isMessaging st) (Facebook.isMediaTransfer st)
        (Facebook.isBackgroundRefresh st) (Facebook.isInstagramActivity st)
        (Facebook.isReelsScrolling st) (Facebook.activityScore st + 7) true
    else st
  else st.

(** 2. App launch versus real activity. *)
Definition totalFacebookDomains : nat :=
  length (filter isFacebookDomain sortedEntries).

(** [new Set(...).size]: the number of distinct Facebook domains. *)
Definition uniqueFacebookDomains : nat :=
  length (nodup string_dec (map domain (filter isFacebookDomain sortedEntries))).

Definition hasE2EE : bool :=
  hasDomainPattern sortedEntries ["chat-e2ee.facebook.com"].

Definition hasTypicalAppLaunchDomains : bool :=
  hasDomainPattern sortedEntries
    ["www.facebook.com"; "web.facebook.com"; "m.facebook.com";
     "gateway.facebook.com"; "graph.facebook.com"; "api.facebook.com";
     "star.fallback.c10r.facebook.com"; "lookaside.facebook.com"].

Definition hasStrongTextSendEvidence : bool :=
  hasDomainPattern sortedEntries ["pm.facebook.com"].
Definition hasWeakTextSendEvidence : bool :=
  hasDomainPattern sortedEntries ["web.facebook.com"].

(** Returns the pair [(isBurstPattern, isIsolatedPattern)]. *)
Definition analyzeTemporalPattern : bool * bool :=
  if negb fbHasMediaUpload then (false, false)
  else
    match filter (fun entry => includes (domain entry) "rupload.facebook.com")
                 sortedEntries with
    | [] => (false, false)
    | rupload :: _ =>
        let ruploadTime := parsedTimestamp rupload in
        let nearbyFacebookEntries :=
          filter (fun entry =>
                    isFacebookDomain entry &&
                    negb (includes (domain entry) "rupload.facebook.com") &&
                    (Z.abs (parsedTimestamp entry - ruploadTime) <=? 5000))
                 sortedEntries in
        (Nat.leb 6 (length nearbyFacebookEntries),
         Nat.leb (length nearbyFacebookEntries) 2)
    end.

Definition hasSpecificMessagingEvidence : bool :=
  let isBurstPattern := fst analyzeTemporalPattern in
  let isIsolatedPattern := snd analyzeTemporalPattern in
  (fbHasMediaUpload && negb isBurstPattern &&
     (hasStrongTextSendEvidence || hasWeakTextSendEvidence ||
      fbHasMessagingMQTT || hasE2EE)) ||
  (fbHasMediaUpload && isIsolatedPattern && fbHasMessagingMQTT) ||
  (hasStrongTextSendEvidence && fbHasMessagingMQTT &&
     negb fbHasMediaUpload && negb fbHasMediaDownload) ||
  (nonEmpty (detectAPNs sortedEntries) && (fbHasMediaUpload || fbHasMediaDownload)) ||
  (hasWeakTextSendEvidence && Nat.leb uniqueFacebookDomains 5 &&
     Nat.leb totalFacebookDomains 8).

Definition isLikelyAppLaunch : bool :=
  (Nat.leb 8 uniqueFacebookDomains && Nat.leb 10 totalFacebookDomains &&
     hasTypicalAppLaunchDomains && negb fbHasMediaUpload && negb fbHasMediaDownload) ||
  (hasDomainPattern sortedEntries ["gateway.facebook.com"] &&
   hasDomainPattern sortedEntries ["graph.facebook.com"] &&
   hasDomainPattern sortedEntries ["edge-mqtt.facebook.com"] &&
   hasDomainPattern sortedEntries ["www.facebook.com"] &&
   negb fbHasMediaUpload && negb fbHasMediaDownload &&
   negb hasSpecificMessagingEvidence).

(** 3. Text sent. *)
Definition fbTextSent (st : Facebook.Activity) : Facebook.Activity :=
  let hasStrictTextSendEvidence := hasDomainPattern sortedEntries ["pm.facebook.com"] in
  if negb (Facebook.isCall st) &&
     (hasStrictTextSendEvidence ||
      (hasWeakTextSendEvidence && Nat.leb uniqueFacebookDomains 4)) &&
     fbHasMessagingMQTT && negb fbHasMediaUpload && negb fbHasMediaDownload &&
     negb isLikelyAppLaunch && negb hasNetSeerCDN
  then fbSetMessaging st false 6
  else st.

(** 4. Message and photo exchange, with the push-triggered secondary
    pattern (a loop that breaks at its first success). *)
Definition fbMediaExchange (st : Facebook.Activity) : Facebook.Activity :=
  if (fbHasMediaUpload || fbHasMediaDownload) && negb hasNetSeerCDN then
    let hasUpload := hasDomainPattern sortedEntries ["rupload.facebook.com"] in
    let hasDownload := hasDomainPattern sortedEntries ["scontent-"; "fbcdn.net"] in
    let hasMessagingContext :=
      fbHasMessagingMQTT || hasE2EE ||
      hasDomainPattern sortedEntries ["gateway.facebook.com"; "graph.facebook.com"] in
    let hasStrongMessagingEvidence :=
      hasStrongTextSendEvidence ||
      (hasE2EE && hasMessagingContext) ||
      (hasUpload && hasMessagingContext) ||
      nonEmpty (detectAPNs sortedEntries) ||
      (hasWeakTextSendEvidence && Nat.leb uniqueFacebookDomains 5) in
    let st1 :=
      if hasMessagingContext && (hasStrongMessagingEvidence || negb isLikelyAppLaunch) then
        if hasUpload && hasDownload then fbSetMessaging st true 9
        else if hasUpload && (fbHasTextSend || hasE2EE || hasMessagingContext)
             then fbSetMessaging st true 8
        else if hasDownload && hasE2EE && fbHasMessagingMQTT
             then fbSetMessaging st true 7
        else st
      else st in
    let apnsEntries := detectAPNs sortedEntries in
    if nonEmpty apnsEntries && negb (Facebook.isMessaging st1) then
      if existsb (fun apnsEntry =>
                    let facebookActivity :=
                      filter isFacebookDomain
                        (findEntriesInWindow sortedEntries
                           (parsedTimestamp apnsEntry) 0 300) in
                    nonEmpty facebookActivity && (hasUpload || hasDownload))
                 apnsEntries
      then fbSetMessaging st1 true 6
      else st1
    else st1
  else st.

(** 5. API-based messaging. *)
Definition fbApiMessaging (st : Facebook.Activity) : Facebook.Activity :=
  let hasAPI := hasDomainPattern sortedEntries FACEBOOK_ACTIVITY_INDICATORS.api in
  if negb (Facebook.isCall st) && negb (Facebook.isMessaging st) &&
     (fbHasMessagingMQTT || hasAPI) && negb isLikelyAppLaunch && negb hasNetSeerCDN
  then
    let hasStarFallback :=
      hasDomainPattern sortedEntries ["star.fallback.c10r.facebook.com"] in
    let hasAPNsEvidence := nonEmpty (detectAPNs sortedEntries) in
    if (hasE2EE && hasStarFallback) || (hasStarFallback && hasAPNsEvidence) ||
       (hasE2EE && hasAPNsEvidence)
    then
      if hasE2EE && hasStarFallback then fbSetMessaging st false 6
      else if hasE2EE || hasStarFallback then fbSetMessaging st false 5
      else fbSetMessaging st false 0
    else st
  else st.

(** 6. Isolated notification received. *)
Definition fbIsolatedNotification (st : Facebook.Activity) : Facebook.Activity :=
  if negb (Facebook.isCall st) && negb (Facebook.isMessaging st) &&
     fbHasMessagingMQTT && negb fbHasTextSend && negb fbHasMediaUpload &&
     negb fbHasMediaDownload && negb isLikelyAppLaunch && negb hasNetSeerCDN
  then
    let mqttEntries :=
      filter (fun entry => includes (domain entry) "edge-mqtt.facebook.com")
             sortedEntries in
    let otherFacebookEntries :=
      filter (fun entry => isFacebookDomain entry &&
                           negb (includes (domain entry) "edge-mqtt.facebook.com"))
             sortedEntries in
    let hasAPNsEvidence := nonEmpty (detectAPNs sortedEntries) in
    if Nat.leb 1 (length mqttEntries) && Nat.leb (length otherFacebookEntries) 1 &&
       hasAPNsEvidence
    then fbSetMessaging st false 4
    else st
  else st.

(** 7. Media sent. *)
Definition fbMediaSent (st : Facebook.Activity) : Facebook.Activity :=
  if fbHasMediaUpload && negb isLikelyAppLaunch && Facebook.isMessaging st
  then fbSetMedia st 3
  else st.

(** 8. Media received. *)
Definition fbMediaReceived (st : Facebook.Activity) : Facebook.Activity :=
  if fbHasMediaDownload && negb fbHasMediaUpload && negb isLikelyAppLaunch &&
     Facebook.isMessaging st
  then fbSetMedia st 2
  else st.

(** 9. Instagram activity. *)
Definition fbInstagram (st : Facebook.Activity) : Facebook.Activity :=
  let instagramEntries :=
    filter (fun entry => includes (domain entry) "instagram") sortedEntries in
  if nonEmpty instagramEntries then
    Facebook.mkActivity (Facebook.isMessaging st) (Facebook.isMediaTransfer st)
      (Facebook.isBackgroundRefresh st) true
      (Facebook.isReelsScrolling st) (Facebook.activityScore st + 3)
      (Facebook.isCall st)
  else st.

(** 9 (second). Background refresh. *)
Definition fbBackgroundRefresh (st : Facebook.Activity) : Facebook.Activity :=
  if negb (Facebook.isMessaging st) && negb (Facebook.isMediaTransfer st) &&
     negb (Facebook.isCall st) && negb (Facebook.isInstagramActivity st) &&
     (fbHasBackground ||
      (fbHasCore &&
       Nat.leb (countDomainPattern sortedEntries FACEBOOK_ACTIVITY_INDICATORS.core) 2))
  then fbSetBackground st
  else st.

(** Minimal score for any Facebook presence. *)
Definition fbMinimalScore (st : Facebook.Activity) : Facebook.Activity :=
  if (Facebook.activityScore st =? 0) && fbHasCore then fbSetScore st 1 else st.

Definition fbClassify : Facebook.Activity :=
  if negb fbHasCore && negb fbHasMessagingMQTT && negb fbHasTextSend &&
     negb fbHasMediaUpload
  then Facebook.initial
  else if fbHasReelsVideo && hasNetSeerCDN then
    Facebook.mkActivity false false true false true 3 false
  else if fbHasReelsVideo && hasVideoStaticAssets then
    Facebook.mkActivity false false false false true 3 false
  else
    let st1 := fbCallDetection Facebook.initial in
    if isLikelyAppLaunch then fbSetBackground st1
    else
      fbMinimalScore
        (fbBackgroundRefresh
          (fbInstagram
            (fbMediaReceived
              (fbMediaSent
                (fbIsolatedNotification
                  (fbApiMessaging
                    (fbMediaExchange
                      (fbTextSent st1)))))))).
End FacebookSteps.

Definition detectFacebookActivity (windowEntries : list ProcessedLogEntry)
  : Facebook.Activity :=
  fbClassify (sortByTime windowEntries).

(** ** The relationship concern scorer *)

Record ConcernLists : Type := mkConcernLists {
  accDatingApps : list string;
  accAlternativeMessaging : list string;
  accVideoCalling : list string;
  accSocialMessaging : list string;
  accAnonymousPlatforms : list string
}.

Record RelationshipConcerns : Type := mkConcerns {
  datingApps : list string;
  alternativeMessaging : list string;
  videoCalling : list string;
  socialMessaging : list string;
  anonymousPlatforms : list string;
  concernScore : Z
}.

(** [arr.includes(app)] on an array of strings. *)
Definition arrayIncludes (arr : list string) (app : string) : bool :=
  existsb (String.eqb app) arr.

(** One inner [forEach]: push every pattern the domain contains and
    that the list does not hold yet. *)
Definition pushMatches (domain : string) (patterns : list string)
  (acc : list string) : list string :=
  fold_left (fun acc app =>
               if includes domain app && negb (arrayIncludes acc app)
               then acc ++ [app] else acc)
            patterns acc.

Definition isExcluded (domain : string) : bool :=
  existsb (fun pattern => includes domain pattern)
          RELATIONSHIP_CONCERN_INDICATORS.excludePatterns.

(** Body of the outer [forEach]; an excluded domain returns at once. *)
Definition concernStep (acc : ConcernLists) (domain : string) : ConcernLists :=
  if isExcluded domain then acc
  else
    mkConcernLists
      (pushMatches domain RELATIONSHIP_CONCERN_INDICATORS.datingApps
         (accDatingApps acc))
      (pushMatches domain RELATIONSHIP_CONCERN_INDICATORS.alternativeMessaging
         (accAlternativeMessaging acc))
      (pushMatches domain RELATIONSHIP_CONCERN_INDICATORS.videoCalling
         (accVideoCalling acc))
      (pushMatches domain RELATIONSHIP_CONCERN_INDICATORS.socialMessaging
         (accSocialMessaging acc))
      (pushMatches domain RELATIONSHIP_CONCERN_INDICATORS.anonymousPlatforms
         (accAnonymousPlatforms acc)).

Definition collectConcerns (domains : list string) : ConcernLists :=
  fold_left concernStep domains (mkConcernLists [] [] [] [] []).

(** The list one category accumulates over the domains: the projection of
    [collectConcerns] on that category. *)
Definition collectCategory (patterns : list string) (domains : list string)
  (acc : list string) : list string :=
  fold_left (fun acc d => if isExcluded d then acc else pushMatches d patterns acc)
            domains acc.

Definition detectRelationshipConcerns (domains : list string)
  : RelationshipConcerns :=
  let acc := collectConcerns domains in
  let concernScore :=
    0 + Z.of_nat (length (accDatingApps acc)) * 10
      + Z.of_nat (length (accAnonymousPlatforms acc)) * 8
      + Z.of_nat (length (accAlternativeMessaging acc)) * 6
      + Z.of_nat (length (accVideoCalling acc)) * 4
      + Z.of_nat (length (accSocialMessaging acc)) * 2 in
  mkConcerns (accDatingApps acc) (accAlternativeMessaging acc)
    (accVideoCalling acc) (accSocialMessaging acc)
    (accAnonymousPlatforms acc) concernScore.

(** ** The host

    Two operations of the masking pass are answered by the JavaScript
    engine and the settings of the machine rather than by the code:
    [new Date(text)], which reads a date-time text without a zone in
    the local time zone (and reads texts outside the standard format as
    the engine sees fit), and [String.prototype.localeCompare], the
    collation of the default locale.  The model takes both from a
    [Host]. *)

Record Host : Type := mkHost {
  (** [new Date(text).getTime()]; [None] is [NaN], an invalid date. *)
  dateTime : string -> option Z;
  (** [a.localeCompare(b)]: negative, zero or positive. *)
  localeCompare : string -> string -> Z
}.

(** A collation is a total preorder with a consistent sign.  For such a
    comparator every stable sort returns the same array, the one that
    the insertion sort below builds. *)
Definition collation (host : Host) : Prop :=
  (forall a b, localeCompare host a b < 0 <-> 0 < localeCompare host b a) /\
  (forall a b c, localeCompare host a b <= 0 -> localeCompare host b c <= 0 ->
                 localeCompare host a c <= 0).

(** *** A host in the UTC zone

    One host, to run the pass on: its zone is UTC, its collation the
    order of the code units, and its [Date] reads the texts
    [yyyy-MM-ddTHH:mm:00] as V8 does, with a day number up to 31 in
    every month and the hour 24 at minute 0, both carried over into the
    following day or month; any other text is an invalid date. *)

Definition digitValue (c : ascii) : option Z :=
  let n := Z.of_N (N_of_ascii c) in
  if (48 <=? n) && (n <=? 57) then Some (n - 48) else None.

Definition number2 (a b : ascii) : option Z :=
  match digitValue a, digitValue b with
  | Some x, Some y => Some (10 * x + y)
  | _, _ => None
  end.

Definition number4 (a b c d : ascii) : option Z :=
  match number2 a b, number2 c d with
  | Some x, Some y => Some (100 * x + y)
  | _, _ => None
  end.

(** Days since 1970-01-01 of a date of the proleptic Gregorian calendar;
    a day number beyond the end of the month counts on into the next. *)
Definition daysFromCivil (y m d : Z) : Z :=
  let y' := if m <=? 2 then y - 1 else y in
  let era := y' / 400 in
  let yoe := y' - era * 400 in
  let doy := (153 * (if 2 <? m then m - 3 else m + 9) + 2) / 5 + d - 1 in
  let doe := yoe * 365 + yoe / 4 - yoe / 100 + doy in
  era * 146097 + doe - 719468.

Definition utcDateTime (iso : string) : option Z :=
  match list_ascii_of_string iso with
  | [y1; y2; y3; y4; s1; m1; m2; s2; d1; d2; t; h1; h2; c1; n1; n2; c2; z1; z2] =>
      if Ascii.eqb s1 "-" && Ascii.eqb s2 "-" && Ascii.eqb t "T" &&
         Ascii.eqb c1 ":" && Ascii.eqb c2 ":" &&
         Ascii.eqb z1 "0" && Ascii.eqb z2 "0"
      then
        match number4 y1 y2 y3 y4, number2 m1 m2, number2 d1 d2,
              number2 h1 h2, number2 n1 n2 with
        | Some y, Some m, Some d, Some h, Some n =>
            if (1 <=? m) && (m <=? 12) && (1 <=? d) && (d <=? 31) &&
               (((h <=? 23) && (n <=? 59)) || ((h =? 24) && (n =? 0)))
            then Some (((daysFromCivil y m d * 24 + h) * 60 + n) * 60000)
            else None
        | _, _, _, _, _ => None
        end
      else None
  | _ => None
  end.

Definition codeUnitCompare (a b : string) : Z :=
  match String.compare a b with
  | Lt => -1
  | Eq => 0
  | Gt => 1
  end.

Definition utcHost : Host := mkHost utcDateTime codeUnitCompare.

(** ** Window keys

    A window key is the local time formatted as [yyyy-MM-dd HH:mm].  The
    masking pass rebuilds a [Date] from it with
    [new Date(timeWindow.replace(' ', 'T') + ':00')]. *)

Fixpoint replaceFirst (from to : ascii) (s : string) : string :=
  match s with
  | EmptyString => EmptyString
  | String c s' =>
      if Ascii.eqb c from then String to s'
      else String c (replaceFirst from to s')
  end.

(** [new Date(timeWindow.replace(' ', 'T') + ':00').getTime()] *)
Definition windowDate (host : Host) (timeWindow : string) : option Z :=
  dateTime host (replaceFirst " " "T" timeWindow ++ ":00").

(** [s.split(sep)] for a one-character separator. *)
Fixpoint splitOn (sep : ascii) (s : string) : list string :=
  match s with
  | EmptyString => [EmptyString]
  | String c s' =>
      if Ascii.eqb c sep then EmptyString :: splitOn sep s'
      else
        match splitOn sep s' with
        | [] => [String c EmptyString]
        | w :: ws => String c w :: ws
        end
  end.

(** [timeWindow.split(' ')[1]]; [None] is [undefined]. *)
Definition clockOf (timeWindow : string) : option string :=
  nth_error (splitOn " " timeWindow) 1.

(** [arr.join(', ')]; an [undefined] element prints as the empty string. *)
Fixpoint joinTimings (l : list (option string)) : string :=
  match l with
  | [] => ""
  | [x] => match x with Some s => s | None => "" end
  | x :: l' =>
      (match x with Some s => s | None => "" end) ++ ", " ++ joinTimings l'
  end.

(** Printing of an integral number, as in a template literal. *)
Definition numberToString (z : Z) : string :=
  NilZero.string_of_int (Z.to_int z).

(** ** The text of a quotient

    [`${p / q}`] for integers [p] and [q > 0] that are exact as Numbers:
    the quotient is rounded to the nearest binary64 value (ties to
    even), and that value is printed with the fewest digits that read
    back as the same value.  The decimal notation below is the one of
    values between 10^-6 and 10^21. *)

(** The binary64 value nearest to [a / q], as [(m, e)] for [m * 2^e]
    with [2^52 <= m < 2^53]; [0 < a]. *)
Definition nearestDouble (a q : Z) : Z * Z :=
  let l := Z.log2 a - Z.log2 q in
  let above := if 0 <=? l then q * 2 ^ l <=? a else q <=? a * 2 ^ (- l) in
  let e := if above then l - 52 else l - 53 in
  let num := if e <? 0 then a * 2 ^ (- e) else a in
  let den := if e <? 0 then q else q * 2 ^ e in
  let m := num / den in
  let r := num mod den in
  let m' := if (den <? 2 * r) || ((den =? 2 * r) && Z.odd m) then m + 1 else m in
  if m' =? 2 ^ 53 then (2 ^ 52, e + 1) else (m', e).

(** Exact fractions [(numerator, denominator)] with a positive
    denominator. *)
Definition fracLe (x y : Z * Z) : bool := fst x * snd y <=? fst y * snd x.
Definition fracLt (x y : Z * Z) : bool := fst x * snd y <? fst y * snd x.

(** [n * 2^e] and [s * 10^j] as fractions. *)
Definition binFrac (n e : Z) : Z * Z :=
  if 0 <=? e then (n * 2 ^ e, 1) else (n, 2 ^ (- e)).
Definition decFrac (s j : Z) : Z * Z :=
  if 0 <=? j then (s * 10 ^ j, 1) else (s, 10 ^ (- j)).

(** [|x - y|] of two fractions, as a fraction. *)
Definition fracDist (x y : Z * Z) : Z * Z :=
  (Z.abs (fst x * snd y - fst y * snd x), snd x * snd y).

(** Whether the decimal [s * 10^j] reads back as [m * 2^e]: it lies
    between the midpoints to the neighbouring values, the midpoints
    included when [m] is even. *)
Definition readsBack (m e s j : Z) : bool :=
  let x := decFrac s j in
  let low := if m =? 2 ^ 52 then binFrac (4 * m - 1) (e - 2)
             else binFrac (2 * m - 1) (e - 1) in
  let high := binFrac (2 * m + 1) (e - 1) in
  if Z.even m then fracLe low x && fracLe x high
  else fracLt low x && fracLt x high.

(** The least [p] from [p0] on with [m * 2^e < 10^p]. *)
Fixpoint decimalExponent (fuel : nat) (m e p : Z) : Z :=
  match fuel with
  | O => p
  | S fuel' =>
      if fracLt (binFrac m e) (decFrac 1 p) then p
      else decimalExponent fuel' m e (p + 1)
  end.

(** The shortest decimal [(s, j)] that reads back as [m * 2^e], the
    nearest one among those of that length; [n] digits are tried from
    [n] on. *)
Fixpoint shortestDecimal (fuel : nat) (m e p n : Z) : Z * Z :=
  let j := p - n in
  let v := binFrac m e in
  let scaled := if 0 <=? j then (fst v, snd v * 10 ^ j)
                else (fst v * 10 ^ (- j), snd v) in
  let s := fst scaled / snd scaled in
  let okLow := readsBack m e s j in
  let okHigh := readsBack m e (s + 1) j in
  let lowNearer :=
    fracLe (fracDist (decFrac s j) v) (fracDist (decFrac (s + 1) j) v) in
  match fuel with
  | O => (s, j)
  | S fuel' =>
      if okLow && (negb okHigh || lowNearer) then (s, j)
      else if okHigh then (s + 1, j)
      else shortestDecimal fuel' m e p (n + 1)
  end.

(** Trailing zeros of the digits go into the exponent. *)
Fixpoint stripZeros (fuel : nat) (s j : Z) : Z * Z :=
  match fuel with
  | O => (s, j)
  | S fuel' =>
      if (s mod 10 =? 0) && negb (s =? 0) then stripZeros fuel' (s / 10) (j + 1)
      else (s, j)
  end.

Fixpoint zeros (n : nat) : string :=
  match n with
  | O => ""
  | S n' => String "0" (zeros n')
  end.

Fixpoint splitAt (n : nat) (s : string) : string * string :=
  match n, s with
  | S n', String c s' => let (a, b) := splitAt n' s' in (String c a, b)
  | _, _ => ("", s)
  end.

(** The decimal notation of [s * 10^j], [0 < s] without trailing zero. *)
Definition decimalNotation (s j : Z) : string :=
  let digits := numberToString s in
  let k := Z.of_nat (String.length digits) in
  if 0 <=? j then digits ++ zeros (Z.to_nat j)
  else if 0 <? k + j then
    let (whole, fraction) := splitAt (Z.to_nat (k + j)) digits in
    whole ++ "." ++ fraction
  else "0." ++ zeros (Z.to_nat (- (k + j))) ++ digits.

Definition quotientToString (p q : Z) : string :=
  if p =? 0 then "0"
  else
    let (m, e) := nearestDouble (Z.abs p) q in
    let p10 := decimalExponent 400 m e (-330) in
    let (s, j) := shortestDecimal 17 m e p10 1 in
    let (s', j') := stripZeros 400 s j in
    let sign := if p <? 0 then "-" else "" in
    sign ++ decimalNotation s' j'.

(** ** The masking detector *)

Record TimeWindowStats : Type := mkStats {
  timeWindow : string;
  whatsappActivity : WhatsApp.Activity;
  facebookActivity : Facebook.Activity
}.

(** [{ ...stat, isReelsMasking, maskingEvidence }] *)
Record MaskedStats : Type := mkMasked {
  baseStats : TimeWindowStats;
  isReelsMasking : bool;
  maskingEvidence : string
}.

Definition indexed {A : Type} (l : list A) : list (nat * A) :=
  combine (seq 0 (length l)) l.

Definition hasStrongMessagingEvidence (stat : TimeWindowStats) : bool :=
  (Facebook.isMessaging (facebookActivity stat) &&
   Facebook.isMediaTransfer (facebookActivity stat)) ||
  (WhatsApp.isTextMessage (whatsappActivity stat) &&
   String.eqb (WhatsApp.callDirection (whatsappActivity stat)) "incoming") ||
  WhatsApp.isMediaTransfer (whatsappActivity stat) ||
  (6 <? Facebook.activityScore (facebookActivity stat)) ||
  (6 <? WhatsApp.activityScore (whatsappActivity stat)).

(** [timeDiffMins > 1 && timeDiffMins <= timeframeMins], on the
    millisecond difference, with [timeframeMins = 10]; every comparison
    with an invalid date fails. *)
Definition suspiciousGap (later earlier : option Z) : bool :=
  match later, earlier with
  | Some a, Some b => (60000 <? a - b) && (a - b <=? 10 * 60000)
  | _, _ => false
  end.

(** [`${(later.getTime() - earlier.getTime()) / (1000 * 60)}`]; the pass
    prints it for a window of [recentReels] or [subsequentReels] only,
    so for a difference of more than one and at most ten minutes. *)
Definition minutesBetween (later earlier : option Z) : string :=
  match later, earlier with
  | Some a, Some b => quotientToString (a - b) 60000
  | _, _ => "NaN"
  end.

Section MaskingPass.
Variable host : Host.

(** [a.timeWindow.localeCompare(b.timeWindow) <= 0] *)
Definition windowLe (a b : TimeWindowStats) : bool :=
  localeCompare host (timeWindow a) (timeWindow b) <=? 0.

(** [[...timeWindowStats].sort((a, b) =>
    a.timeWindow.localeCompare(b.timeWindow))]: ascending and stable. *)
Fixpoint insertByWindow (x : TimeWindowStats) (l : list TimeWindowStats)
  : list TimeWindowStats :=
  match l with
  | [] => [x]
  | y :: l' => if windowLe x y then x :: y :: l' else y :: insertByWindow x l'
  end.

Definition sortByWindow (l : list TimeWindowStats) : list TimeWindowStats :=
  fold_right insertByWindow [] l.

Definition recentReels (sortedStats : list TimeWindowStats) (index : nat)
  (currentTime : option Z) : list TimeWindowStats :=
  map snd
    (filter (fun p =>
               if Nat.leb index (fst p) ||
                  negb (Facebook.isReelsScrolling (facebookActivity (snd p)))
               then false
               else suspiciousGap currentTime
                      (windowDate host (timeWindow (snd p))))
            (indexed sortedStats)).

Definition subsequentReels (sortedStats : list TimeWindowStats) (index : nat)
  (currentTime : option Z) : list TimeWindowStats :=
  map snd
    (filter (fun p =>
               if Nat.leb (fst p) index ||
                  negb (Facebook.isReelsScrolling (facebookActivity (snd p)))
               then false
               else suspiciousGap (windowDate host (timeWindow (snd p)))
                      currentTime)
            (indexed sortedStats)).

Definition maskWindow (sortedStats : list TimeWindowStats) (index : nat)
  (stat : TimeWindowStats) : MaskedStats :=
  if hasStrongMessagingEvidence stat then
    let currentTime := windowDate host (timeWindow stat) in
    let recent := recentReels sortedStats index currentTime in
    let subsequent := subsequentReels sortedStats index currentTime in
    if nonEmpty recent || nonEmpty subsequent then
      let beforeTimings := map (fun r => clockOf (timeWindow r)) recent in
      let afterTimings := map (fun r => clockOf (timeWindow r)) subsequent in
      let maskingEvidence :=
        match recent, subsequent with
        | _ :: _, _ :: _ =>
            ("Suspicious: Reels stopped at " ++ joinTimings beforeTimings ++
             ", resumed at " ++ joinTimings afterTimings)%string
        | r :: _, [] =>
            ("Suspicious: Strong messaging activity " ++
             minutesBetween currentTime (windowDate host (timeWindow r)) ++
             "min after Reels stopped")%string
        | [], r :: _ =>
            ("Suspicious: Reels resumed " ++
             minutesBetween (windowDate host (timeWindow r)) currentTime ++
             "min after messaging")%string
        | [], [] => ""
        end in
      mkMasked stat true maskingEvidence
    else mkMasked stat false ""
  else mkMasked stat false "".

Definition detectReelsMasking (timeWindowStats : list TimeWindowStats)
  : list MaskedStats :=
  let sortedStats := sortByWindow timeWindowStats in
  map (fun p => maskWindow sortedStats (fst p) (snd p)) (indexed sortedStats).
End MaskingPass.

(** ** Further indicator tables *)

Module REAL_CHAT_INDICATORS.
Module whatsapp.
Definition core : list string := ["whatsapp.net"; "whatsapp.com"].
Definition messaging : list string :=
  ["g.whatsapp.net"; "mmg.whatsapp.net"; "media-"; ".cdn.whatsapp.net";
   "dit.whatsapp.net"; "static.whatsapp.net"].
Definition api : list string := ["graph.whatsapp.com"].
End whatsapp.
Module facebook.
Definition core : list string := ["facebook.com"; "instagram.com"].
Definition messaging : list string :=
  ["graph.facebook.com"; "edge-mqtt.facebook.com"; "gateway.facebook.com";
   "ep2.facebook.com"; "star.fallback.c10r.facebook.com";
   "gateway.instagram.com"; "graph.instagram.com"].
Definition realtime : list string :=
  ["meta-ai-realtime.facebook.com"; "wearable-ai-realtime.facebook.com"].
End facebook.
End REAL_CHAT_INDICATORS.

Module VPN_INDICATORS.
Definition vpnServices : list string :=
  ["nordvpn.com"; "expressvpn.com"; "surfshark.com"; "protonvpn.com";
   "cyberghost.com"; "ipvanish.com"; "purevpn.com"; "tunnelbear.com";
   "windscribe.com"; "hotspotshield.com"; "privatevpn.com"; "vyprvpn.com"].
Definition anonymityNetworks : list string :=
  ["torproject.org"; "onion"; ".onion"; "tor."; "i2p."; "freenet."].
Definition privateDNS : list string :=
  ["cloudflare-dns.com"; "dns.google"; "quad9.net"; "opendns.com";
   "1.1.1.1"; "8.8.8.8"; "9.9.9.9"; "adguard-dns.io"].
Definition proxyServices : list string :=
  ["proxy."; "tunnel."; "socks."; "shadowsocks"; "v2ray"; "trojan"].
Definition privacyTools : list string :=
  ["duckduckgo.com"; "startpage.com"; "searx."; "brave.com";
   "ghostery.com"; "ublock."; "adblock."; "disconnect.me"].
End VPN_INDICATORS.

Module SECRET_BEHAVIOR_INDICATORS.
Definition tempEmail : list string :=
  ["10minutemail.com"; "guerrillamail.com"; "temp-mail.org"; "mailinator.com";
   "throwaway.email"; "getnada.com"; "tempail.com"; "mohmal.com"].
Definition encryptedMessaging : list string :=
  ["signal.org"; "telegram.org"; "wickr.com"; "threema.ch";
   "wire.com"; "element.io"; "matrix.org"; "session.loki-project.org"].
Definition anonymousStorage : list string :=
  ["mega.nz"; "anonfiles.com"; "file.io"; "transfer.sh";
   "wetransfer.com"; "send.firefox.com"; "onionshare.org"].
Definition cryptoPrivacy : list string :=
  ["monero.org"; "zcash.com"; "dash.org"; "coinmixer."; "bitcoin-mixer.";
   "localbitcoins.com"; "bisq.network"; "wasabiwallet.io"].
Definition altSocial : list string :=
  ["minds.com"; "gab.com"; "parler.com"; "mastodon."; "diaspora.";
   "friendica."; "peertube."; "bitchute.com"].
Definition privateSearch : list string :=
  ["duckduckgo.com"; "startpage.com"; "searx."; "yandex.com";
   "brave.com"; "tor."; "tails."].
End SECRET_BEHAVIOR_INDICATORS.

(** [DOMAIN_CATEGORIES], in the order of its keys. *)
Definition DOMAIN_CATEGORIES : list (string * list string) :=
  [("WhatsApp Domain Access",
    ["whatsapp.com"; "whatsapp.net"; "wa.me"; "web.whatsapp.com";
     "chat.whatsapp.com"]);
   ("Facebook Domain Access",
    ["facebook.com"; "messenger.com"; "fb.com"; "fbcdn.net"; "facebook.net"]);
   ("Other Messaging",
    ["telegram.org"; "discord.com"; "discordapp.com"; "signal.org";
     "slack.com"; "teams.microsoft.com"; "zoom.us"]);
   ("Social Media",
    ["twitter.com"; "instagram.com"; "linkedin.com"; "tiktok.com";
     "snapchat.com"; "reddit.com"; "pinterest.com"]);
   ("Streaming & Entertainment",
    ["youtube.com"; "netflix.com"; "spotify.com"; "soundcloud.com";
     "twitch.tv"; "hulu.com"; "disney.com"; "primevideo.com"]);
   ("Google Services",
    ["google.com"; "googleapis.com"; "googleusercontent.com"; "gstatic.com";
     "gmail.com"; "google-analytics.com"]);
   ("Cloud & CDN",
    ["cloudfront.net"; "amazonaws.com"; "cloudflare.com"; "fastly.com";
     "akamai.net"; "azure.com"]);
   ("Advertising & Analytics",
    ["doubleclick.net"; "googleadservices.com"; "googlesyndication.com";
     "adsystem.com"; "facebook.com/tr"; "analytics.google.com";
     "quantserve.com"; "scorecardresearch.com"]);
   ("Security & Monitoring",
    ["sentry.io"; "bugsnag.com"; "newrelic.com"; "datadog.com"]);
   ("Other", [])].

(** ** Categories *)

(** [categorizeDomain]: the first category, in table order and skipping
    ['Other'], one of whose patterns occurs in the root domain (or in
    the domain when the root domain is empty) or in the domain. *)
Definition categoryMatches (domain domainToCheck : string)
  (patterns : list string) : bool :=
  existsb (fun catDomain => includes domainToCheck catDomain ||
                            includes domain catDomain) patterns.

Fixpoint firstCategory (domain domainToCheck : string)
  (table : list (string * list string)) : string :=
  match table with
  | [] => "Other"
  | (category, domains) :: rest =>
      if String.eqb category "Other" then firstCategory domain domainToCheck rest
      else if categoryMatches domain domainToCheck domains then category
      else firstCategory domain domainToCheck rest
  end.

Definition categorizeDomain (domain rootDomain : string) : string :=
  let domainToCheck :=
    if String.eqb rootDomain "" then domain else rootDomain in
  firstCategory domain domainToCheck DOMAIN_CATEGORIES.

(** ** Chat, VPN and secrecy detectors *)

(** The local helper [matchesDomain] of the three detectors. *)
Definition matchesDomain (domainList targetDomains : list string) : bool :=
  existsb (fun domain =>
             existsb (fun pattern => includes domain pattern) targetDomains)
          domainList.

Record RealChat : Type := mkRealChat {
  isRealChat : bool;
  chatScore : Z
}.

Definition detectRealChat (domains : list string) : RealChat :=
  let whatsappCore := matchesDomain domains REAL_CHAT_INDICATORS.whatsapp.core in
  let whatsappMessaging :=
    matchesDomain domains REAL_CHAT_INDICATORS.whatsapp.messaging in
  let whatsappApi := matchesDomain domains REAL_CHAT_INDICATORS.whatsapp.api in
  let chatScore1 :=
    if whatsappCore then
      0 + 1 + (if whatsappMessaging then 4 else 0) + (if whatsappApi then 3 else 0)
    else 0 in
  let hasWhatsAppChat := whatsappCore && whatsappMessaging in
  let facebookCore := matchesDomain domains REAL_CHAT_INDICATORS.facebook.core in
  let facebookMessaging :=
    matchesDomain domains REAL_CHAT_INDICATORS.facebook.messaging in
  let facebookRealtime :=
    matchesDomain domains REAL_CHAT_INDICATORS.facebook.realtime in
  let chatScore2 :=
    if facebookCore then
      chatScore1 + 1 + (if facebookMessaging then 4 else 0) +
      (if facebookRealtime then 3 else 0)
    else chatScore1 in
  let hasFacebookChat := facebookCore && facebookMessaging in
  let multipleApps := whatsappCore && facebookCore in
  mkRealChat
    ((3 <=? chatScore2) || hasWhatsAppChat || hasFacebookChat || multipleApps)
    chatScore2.

Record VPNAttempt : Type := mkVPNAttempt {
  isPossibleVPN : bool;
  vpnScore : Z
}.

(** [d.split('.').pop()] *)
Definition lastSegment (d : string) : string :=
  last (splitOn "." d) "".

Definition isSuspiciousName (d : string) : bool :=
  includes d "cdn" || includes d "proxy" || includes d "tunnel" || includes d "vpn".

Definition detectVPNAttempt (domains : list string) : VPNAttempt :=
  let s1 := if matchesDomain domains VPN_INDICATORS.vpnServices then 0 + 10 else 0 in
  let s2 := if matchesDomain domains VPN_INDICATORS.anonymityNetworks
            then s1 + 8 else s1 in
  let s3 := if matchesDomain domains VPN_INDICATORS.privateDNS then s2 + 3 else s2 in
  let s4 := if matchesDomain domains VPN_INDICATORS.proxyServices
            then s3 + 6 else s3 in
  let s5 := if matchesDomain domains VPN_INDICATORS.privacyTools
            then s4 + 2 else s4 in
  let uniqueCountries :=
    length (nodup string_dec (map lastSegment domains)) in
  let s6 := if Nat.ltb 5 uniqueCountries then s5 + 2 else s5 in
  let suspiciousPatterns := length (filter isSuspiciousName domains) in
  let s7 := if Nat.ltb 3 suspiciousPatterns then s6 + 3 else s6 in
  mkVPNAttempt (4 <=? s7) s7.

Record SecretBehavior : Type := mkSecretBehavior {
  isActingSecret : bool;
  secretScore : Z
}.

Definition isDigit (c : ascii) : bool :=
  let n := N_of_ascii c in ((48 <=? n) && (n <=? 57))%N.

(** [d.match(/[0-9]{4,}/)] is truthy: [d] has four digits in a row;
    [run] counts the digits just read. *)
Fixpoint hasDigitRun (run : nat) (d : string) : bool :=
  match d with
  | EmptyString => false
  | String c d' =>
      if isDigit c then
        if Nat.leb 3 run then true else hasDigitRun (S run) d'
      else hasDigitRun 0 d'
  end.

Definition isObfuscatedName (d : string) : bool :=
  includes d "--" || hasDigitRun 0 d || includes d "temp" || includes d "anon".

Definition countTrue (l : list bool) : nat := length (filter (fun b => b) l).

Definition detectSecretBehavior (domains : list string)
  (isRealChat isPossibleVPN : bool) : SecretBehavior :=
  let s1 := if isRealChat then 0 + 2 else 0 in
  let s2 := if isPossibleVPN then s1 + 4 else s1 in
  let s3 := if matchesDomain domains SECRET_BEHAVIOR_INDICATORS.tempEmail
            then s2 + 6 else s2 in
  let s4 := if matchesDomain domains SECRET_BEHAVIOR_INDICATORS.encryptedMessaging
            then s3 + 4 else s3 in
  let s5 := if matchesDomain domains SECRET_BEHAVIOR_INDICATORS.anonymousStorage
            then s4 + 5 else s4 in
  let s6 := if matchesDomain domains SECRET_BEHAVIOR_INDICATORS.cryptoPrivacy
            then s5 + 7 else s5 in
  let s7 := if matchesDomain domains SECRET_BEHAVIOR_INDICATORS.altSocial
            then s6 + 3 else s6 in
  let s8 := if matchesDomain domains SECRET_BEHAVIOR_INDICATORS.privateSearch
            then s7 + 2 else s7 in
  let privacyToolCount :=
    countTrue
      [matchesDomain domains SECRET_BEHAVIOR_INDICATORS.tempEmail;
       matchesDomain domains SECRET_BEHAVIOR_INDICATORS.encryptedMessaging;
       matchesDomain domains SECRET_BEHAVIOR_INDICATORS.anonymousStorage;
       matchesDomain domains SECRET_BEHAVIOR_INDICATORS.cryptoPrivacy;
       matchesDomain domains VPN_INDICATORS.vpnServices;
       matchesDomain domains VPN_INDICATORS.anonymityNetworks] in
  let s9 := if Nat.leb 3 privacyToolCount then s8 + 5 else s8 in
  let obfuscatedDomains := length (filter isObfuscatedName domains) in
  let s10 := if Nat.ltb 2 obfuscatedDomains then s9 + 3 else s9 in
  mkSecretBehavior (7 <=? s10) s10.


(** ** Rows, grouping and the per-window statistics *)

(** A [ProcessedLogEntry] with the columns that the grouping and
    counting code reads besides the two the classifiers read. *)
Module LogRow.
Record t : Type := mk {
  entry : ProcessedLogEntry;
  timeWindow : string;
  isBlocked : bool;
  category : string;
  device_name : string
}.
End LogRow.

(** [grouped.get(key).push(entry)], creating the group at the end of
    the map when the key is new. *)
Fixpoint pushToGroup (key : string) (e : LogRow.t)
  (grouped : list (string * list LogRow.t)) : list (string * list LogRow.t) :=
  match grouped with
  | [] => [(key, [e])]
  | (k, group) :: rest =>
      if String.eqb k key then (k, group ++ [e]) :: rest
      else (k, group) :: pushToGroup key e rest
  end.

(** [groupByTimeWindows]: the [Map] is the list of its entries in
    insertion order. *)
Definition groupByTimeWindows (entries : list LogRow.t)
  : list (string * list LogRow.t) :=
  fold_left (fun grouped e => pushToGroup (LogRow.timeWindow e) e grouped) entries [].

(** [set.add(d)] on a [Set] kept in insertion order. *)
Definition setAdd (d : string) (s : list string) : list string :=
  if existsb (String.eqb d) s then s else s ++ [d].

(** [m.set(k, (m.get(k) || 0) + 1)] on a [Map] of counts. *)
Fixpoint bump (k : string) (m : list (string * nat)) : list (string * nat) :=
  match m with
  | [] => [(k, 1%nat)]
  | (k', n) :: rest =>
      if String.eqb k' k then (k', S n) :: rest else (k', n) :: bump k rest
  end.

(** The record [calculateTimeWindowStats] accumulates per window. *)
Module Counts.
Record t : Type := mk {
  timeWindow : string;
  totalRequests : nat;
  blockedRequests : nat;
  allowedRequests : nat;
  uniqueDomains : list string;
  categories : list (string * nat);
  devices : list (string * nat);
  domains : list string
}.
End Counts.

Definition newCounts (key : string) : Counts.t :=
  Counts.mk key 0 0 0 [] [] [] [].

(** Body of the first [forEach], on the record of the entry's window. *)
Definition countRow (e : LogRow.t) (c : Counts.t) : Counts.t :=
  Counts.mk
    (Counts.timeWindow c)
    (S (Counts.totalRequests c))
    (if LogRow.isBlocked e then S (Counts.blockedRequests c)
     else Counts.blockedRequests c)
    (if LogRow.isBlocked e then Counts.allowedRequests c
     else S (Counts.allowedRequests c))
    (setAdd (domain (LogRow.entry e)) (Counts.uniqueDomains c))
    (bump (LogRow.category e) (Counts.categories c))
    (if String.eqb (LogRow.device_name e) "" then Counts.devices c
     else bump (LogRow.device_name e) (Counts.devices c))
    (setAdd (domain (LogRow.entry e)) (Counts.domains c)).

Fixpoint updateStats (e : LogRow.t) (stats : list Counts.t) : list Counts.t :=
  match stats with
  | [] => [countRow e (newCounts (LogRow.timeWindow e))]
  | c :: rest =>
      if String.eqb (Counts.timeWindow c) (LogRow.timeWindow e)
      then countRow e c :: rest
      else c :: updateStats e rest
  end.

Definition collectStats (entries : list LogRow.t) : list Counts.t :=
  fold_left (fun stats e => updateStats e stats) entries [].

(** One element of [baseStats].  The order of the keys of the
    [categories] and [devices] objects is not modelled. *)
Module Stats.
Record t : Type := mk {
  timeWindow : string;
  totalRequests : nat;
  blockedRequests : nat;
  allowedRequests : nat;
  uniqueDomains : nat;
  categories : list (string * nat);
  devices : list (string * nat);
  domains : list string;
  isRealChat : bool;
  chatScore : Z;
  isPossibleVPN : bool;
  vpnScore : Z;
  isActingSecret : bool;
  secretScore : Z;
  relationshipConcerns : RelationshipConcerns;
  whatsappActivity : WhatsApp.Activity;
  facebookActivity : Facebook.Activity
}.
End Stats.

Definition windowEntriesOf (entries : list LogRow.t) (key : string) : list LogRow.t :=
  filter (fun e => String.eqb (LogRow.timeWindow e) key) entries.

Definition baseStatsOf (entries : list LogRow.t) (stat : Counts.t) : Stats.t :=
  let domains := Counts.domains stat in
  let windowEntries :=
    map LogRow.entry (windowEntriesOf entries (Counts.timeWindow stat)) in
  let chat := detectRealChat domains in
  let vpn := detectVPNAttempt domains in
  let secret := detectSecretBehavior domains (isRealChat chat) (isPossibleVPN vpn) in
  Stats.mk
    (Counts.timeWindow stat) (Counts.totalRequests stat)
    (Counts.blockedRequests stat) (Counts.allowedRequests stat)
    (length (Counts.uniqueDomains stat))
    (Counts.categories stat) (Counts.devices stat) (Counts.domains stat)
    (isRealChat chat) (chatScore chat)
    (isPossibleVPN vpn) (vpnScore vpn)
    (isActingSecret secret) (secretScore secret)
    (detectRelationshipConcerns domains)
    (detectWhatsAppActivity windowEntries)
    (detectFacebookActivity windowEntries).

(** An element of the result: [{ ...stat, isReelsMasking,
    maskingEvidence }]. *)
Module Report.
Record t : Type := mk {
  stat : Stats.t;
  isReelsMasking : bool;
  maskingEvidence : string
}.
End Report.

(** The three fields of a record that the masking pass reads. *)
Definition statsView (s : Stats.t) : TimeWindowStats :=
  mkStats (Stats.timeWindow s) (Stats.whatsappActivity s) (Stats.facebookActivity s).

Section StatisticsPass.
Variable host : Host.

(** The sort of [detectReelsMasking], on the full records. *)
Fixpoint insertByKey (x : Stats.t) (l : list Stats.t) : list Stats.t :=
  match l with
  | [] => [x]
  | y :: l' =>
      if localeCompare host (Stats.timeWindow x) (Stats.timeWindow y) <=? 0
      then x :: y :: l'
      else y :: insertByKey x l'
  end.

Definition sortByKey (l : list Stats.t) : list Stats.t :=
  fold_right insertByKey [] l.

(** [detectReelsMasking] on the full records: the pass works on the
    fields of [statsView] and carries the other fields along. *)
Definition detectReelsMaskingFull (baseStats : list Stats.t) : list Report.t :=
  let sortedStats := sortByKey baseStats in
  map (fun p =>
         let masked :=
           maskWindow host (map statsView sortedStats) (fst p)
             (statsView (snd p)) in
         Report.mk (snd p) (isReelsMasking masked) (maskingEvidence masked))
      (indexed sortedStats).

Definition calculateTimeWindowStats (entries : list LogRow.t) : list Report.t :=
  let baseStats := map (baseStatsOf entries) (collectStats entries) in
  detectReelsMaskingFull baseStats.
End StatisticsPass.

(** ** Report helpers *)

Inductive Severity : Type := CRITICAL | HIGH | MEDIUM.

(** [getSeverityLevel]; [None] is [null]. *)
Definition getSeverityLevel (r : Report.t) : option Severity :=
  let concerns := Stats.relationshipConcerns (Report.stat r) in
  if Nat.ltb 0 (length (datingApps concerns)) ||
     Nat.ltb 0 (length (anonymousPlatforms concerns))
  then Some CRITICAL
  else if Nat.ltb 0 (length (alternativeMessaging concerns)) ||
          (10 <? concernScore concerns)
  then Some HIGH
  else if Nat.ltb 0 (length (videoCalling concerns)) ||
          (6 <? Facebook.activityScore (Stats.facebookActivity (Report.stat r))) ||
          (6 <? WhatsApp.activityScore (Stats.whatsappActivity (Report.stat r)))
  then Some MEDIUM
  else None.

Definition upperAscii (c : ascii) : ascii :=
  let n := N_of_ascii c in
  if (97 <=? n)%N && (n <=? 122)%N then ascii_of_N (n - 32) else c.

(** [s.toUpperCase()], on the ASCII letters the tables are made of. *)
Fixpoint toUpperCase (s : string) : string :=
  match s with
  | EmptyString => EmptyString
  | String c s' => String (upperAscii c) (toUpperCase s')
  end.

Definition tagIf (b : bool) (tag : string) : list string :=
  if b then [tag] else [].

(** [generateTags] *)
Definition generateTags (r : Report.t) : list string :=
  let s := Report.stat r in
  let wa := Stats.whatsappActivity s in
  let fb := Stats.facebookActivity s in
  let concerns := Stats.relationshipConcerns s in
  tagIf (0 <? WhatsApp.activityScore wa) "WhatsApp" ++
  tagIf (0 <? Facebook.activityScore fb) "Facebook" ++
  tagIf (Facebook.isInstagramActivity fb) "Instagram" ++
  tagIf (Facebook.isReelsScrolling fb) "Reels" ++
  tagIf (WhatsApp.isVoiceCall wa) "Voice Call" ++
  tagIf (WhatsApp.isMediaTransfer wa) "Media Transfer" ++
  tagIf (Facebook.isMessaging fb) "Messaging" ++
  tagIf (Facebook.isCall fb) "Video Call" ++
  map toUpperCase (datingApps concerns) ++
  map toUpperCase (alternativeMessaging concerns) ++
  map toUpperCase (videoCalling concerns) ++
  tagIf (Stats.isPossibleVPN s) "VPN Detected" ++
  tagIf (Stats.isActingSecret s) "Privacy Behavior" ++
  tagIf (Report.isReelsMasking r) "Potential Masking" ++
  (if String.eqb (WhatsApp.callDirection wa) "" then []
   else [if String.eqb (WhatsApp.callDirection wa) "incoming"
         then "Incoming" else "Outgoing"]).

(** ** Specification-side definitions

    The definitions below follow the wording of the specification; the
    theorems compare them with the code. *)

(** The reels markers as the specification lists them. *)
Definition isReelsMarkerDomain (d : string) : bool :=
  includes d "-netseer-ipaddr-assoc." ||
  includes d "oculuscdn.com" ||
  includes d "securecdn.oculus.com" ||
  includes d "cdninstagram.com" ||
  ((includes d "static-" || includes d "external-") && includes d ".xx.fbcdn.net").

Definition hasReelsMarker (w : list ProcessedLogEntry) : bool :=
  existsb (fun e => isReelsMarkerDomain (domain e)) w.

(** The matcher as the specification words it: substring containment
    after case normalization of the domain and of the pattern. *)
Definition lowerAscii (c : ascii) : ascii :=
  let n := N_of_ascii c in
  if (65 <=? n)%N && (n <=? 90)%N then ascii_of_N (n + 32) else c.

Fixpoint toLowerCase (s : string) : string :=
  match s with
  | EmptyString => EmptyString
  | String c s' => String (lowerAscii c) (toLowerCase s')
  end.

Definition hasDomainPatternNormalized (entries : list ProcessedLogEntry)
  (patterns : list string) : bool :=
  existsb (fun entry =>
             existsb (fun pattern =>
                        includes (toLowerCase (domain entry)) (toLowerCase pattern))
                     patterns)
          entries.

(** The distinct matches of a category, as the specification counts
    them: the patterns of the table that some domain outside the
    exclusion list contains. *)
Definition isMatched (domains : list string) (pattern : string) : bool :=
  existsb (fun d => negb (isExcluded d) && includes d pattern) domains.

Definition distinctMatches (patterns domains : list string) : list string :=
  filter (isMatched domains) patterns.

(** The number of patterns of a table that one domain contains. *)
Definition patternMatches (d : string) (patterns : list string) : nat :=
  length (filter (includes d) patterns).

(** The score in terms of the specification's counts. *)
Definition weightedConcernScore (domains : list string) : Z :=
  10 * Z.of_nat (length (distinctMatches
                           RELATIONSHIP_CONCERN_INDICATORS.datingApps domains))
  + 8 * Z.of_nat (length (distinctMatches
                            RELATIONSHIP_CONCERN_INDICATORS.anonymousPlatforms domains))
  + 6 * Z.of_nat (length (distinctMatches
                            RELATIONSHIP_CONCERN_INDICATORS.alternativeMessaging domains))
  + 4 * Z.of_nat (length (distinctMatches
                            RELATIONSHIP_CONCERN_INDICATORS.videoCalling domains))
  + 2 * Z.of_nat (length (distinctMatches
                            RELATIONSHIP_CONCERN_INDICATORS.socialMessaging domains)).

(** A domain that, outside the exclusion list, contains the given
    numbers of patterns of the five tables. *)
Definition matchesOnly (d : string) (dating anonymous alternative video social : nat)
  : Prop :=
  isExcluded d = false /\
  patternMatches d RELATIONSHIP_CONCERN_INDICATORS.datingApps = dating /\
  patternMatches d RELATIONSHIP_CONCERN_INDICATORS.anonymousPlatforms = anonymous /\
  patternMatches d RELATIONSHIP_CONCERN_INDICATORS.alternativeMessaging = alternative /\
  patternMatches d RELATIONSHIP_CONCERN_INDICATORS.videoCalling = video /\
  patternMatches d RELATIONSHIP_CONCERN_INDICATORS.socialMessaging = social.

(** The WhatsApp side of the strong-evidence test. *)
Definition hasStrongWhatsAppEvidence (stat : TimeWindowStats) : bool :=
  (WhatsApp.isTextMessage (whatsappActivity stat) &&
   String.eqb (WhatsApp.callDirection (whatsappActivity stat)) "incoming") ||
  WhatsApp.isMediaTransfer (whatsappActivity stat) ||
  (6 <? WhatsApp.activityScore (whatsappActivity stat)).


(** ** Invariants of the classifiers

    [waKept] and [fbKept] are kept by every section of the classifiers;
    the numbered bounds hold after the section of that number. *)

Definition b2z (b : bool) : Z := if b then 1 else 0.

Definition waKept (st : WhatsApp.Activity) : Prop :=
  0 <= WhatsApp.activityScore st /\
  (WhatsApp.callDirection st = "" \/ WhatsApp.callDirection st = "incoming" \/
   WhatsApp.callDirection st = "outgoing") /\
  (WhatsApp.isVoiceCall st = true ->
     WhatsApp.callDirection st = "incoming" /\ 8 <= WhatsApp.activityScore st) /\
  (WhatsApp.isVoiceCall st = false -> WhatsApp.isMediaTransfer st = false ->
     WhatsApp.callDirection st = "") /\
  (WhatsApp.isTextMessage st = true -> 4 <= WhatsApp.activityScore st) /\
  (WhatsApp.isMediaTransfer st = true -> 4 <= WhatsApp.activityScore st) /\
  (WhatsApp.isTextMessage st = false -> WhatsApp.isMediaTransfer st = false ->
   WhatsApp.isVoiceCall st = false -> WhatsApp.activityScore st = 0).

(** A flag is only raised on a signalling, upload or media-CDN match. *)
Definition waEvidence (es : list ProcessedLogEntry) (st : WhatsApp.Activity) : Prop :=
  WhatsApp.isTextMessage st = true \/ WhatsApp.isMediaTransfer st = true \/
  WhatsApp.isVoiceCall st = true ->
  waHasSignalling es || waHasMediaUpload es || waHasMediaDownload es = true.

Definition waUpper1 (st : WhatsApp.Activity) : Prop :=
  WhatsApp.activityScore st <= 8 /\ WhatsApp.isTextMessage st = false /\
  WhatsApp.isMediaTransfer st = false.

Definition waUpper2 (st : WhatsApp.Activity) : Prop :=
  WhatsApp.activityScore st <= 8 /\ WhatsApp.isTextMessage st = false.

Definition waUpper3 (st : WhatsApp.Activity) : Prop :=
  WhatsApp.activityScore st <= 8 /\
  (WhatsApp.isVoiceCall st = false -> WhatsApp.isMediaTransfer st = false ->
   WhatsApp.activityScore st <= 7).

Definition waUpper4 (es : list ProcessedLogEntry) (st : WhatsApp.Activity) : Prop :=
  WhatsApp.activityScore st <= 8 + 9 * b2z (waHasMediaUpload es) /\
  (waHasMediaUpload es = true -> WhatsApp.isMediaTransfer st = true) /\
  (WhatsApp.isVoiceCall st = false -> WhatsApp.isMediaTransfer st = false ->
   WhatsApp.activityScore st <= 7).

Definition waUpper5 (es : list ProcessedLogEntry) (st : WhatsApp.Activity) : Prop :=
  WhatsApp.activityScore st <= 13 + 4 * b2z (waHasMediaUpload es).

Definition waUpper6 (st : WhatsApp.Activity) : Prop :=
  WhatsApp.activityScore st <= 17.

(** What holds of every result of the WhatsApp classifier. *)
Definition waResultOk (r : WhatsApp.Activity) : Prop :=
  0 <= WhatsApp.activityScore r <= 19 /\
  (WhatsApp.callDirection r = "" \/ WhatsApp.callDirection r = "incoming" \/
   WhatsApp.callDirection r = "outgoing") /\
  (WhatsApp.isVoiceCall r = true ->
     WhatsApp.callDirection r = "incoming" /\ 8 <= WhatsApp.activityScore r) /\
  (WhatsApp.isVoiceCall r = false -> WhatsApp.isMediaTransfer r = false ->
     WhatsApp.callDirection r = "") /\
  (WhatsApp.isMediaTransfer r = true -> WhatsApp.isTextMessage r = true) /\
  (WhatsApp.isTextMessage r = true \/ WhatsApp.isVoiceCall r = true ->
   4 <= WhatsApp.activityScore r) /\
  (WhatsApp.isTextMessage r = false -> WhatsApp.isVoiceCall r = false ->
   WhatsApp.activityScore r <= 1).

Definition fbKept (st : Facebook.Activity) : Prop :=
  0 <= Facebook.activityScore st /\
  Facebook.isBackgroundRefresh st = false /\
  Facebook.isReelsScrolling st = false /\
  (Facebook.isMediaTransfer st = true -> Facebook.isMessaging st = true) /\
  (Facebook.isMessaging st = true -> 4 <= Facebook.activityScore st).

Definition fbUpper1 (st : Facebook.Activity) : Prop :=
  Facebook.isMessaging st = false /\ Facebook.isMediaTransfer st = false /\
  Facebook.isInstagramActivity st = false /\
  Facebook.activityScore st <= 7 * b2z (Facebook.isCall st).

Definition fbUpper2 (es : list ProcessedLogEntry) (st : Facebook.Activity) : Prop :=
  Facebook.isMediaTransfer st = false /\
  Facebook.isInstagramActivity st = false /\
  Facebook.activityScore st <=
    7 * b2z (Facebook.isCall st) + 6 * b2z (Facebook.isMessaging st) /\
  (Facebook.isMessaging st = true ->
   fbHasMediaUpload es = false /\ fbHasMediaDownload es = false).

Definition fbUpper3 (st : Facebook.Activity) : Prop :=
  Facebook.isInstagramActivity st = false /\
  Facebook.activityScore st <=
    7 * b2z (Facebook.isCall st) + 9 * b2z (Facebook.isMessaging st).

Definition fbUpper4 (es : list ProcessedLogEntry) (st : Facebook.Activity) : Prop :=
  Facebook.isInstagramActivity st = false /\
  Facebook.activityScore st <=
    7 * b2z (Facebook.isCall st) + 9 * b2z (Facebook.isMessaging st) +
    3 * b2z (Facebook.isMessaging st && fbHasMediaUpload es).

Definition fbUpper5 (st : Facebook.Activity) : Prop :=
  Facebook.isInstagramActivity st = false /\
  Facebook.activityScore st <=
    7 * b2z (Facebook.isCall st) + 12 * b2z (Facebook.isMessaging st).

Definition fbUpper6 (st : Facebook.Activity) : Prop :=
  Facebook.activityScore st <=
    7 * b2z (Facebook.isCall st) + 12 * b2z (Facebook.isMessaging st) +
    3 * b2z (Facebook.isInstagramActivity st).

(** What holds of every result of the Facebook classifier. *)
Definition fbResultOk (r : Facebook.Activity) : Prop :=
  0 <= Facebook.activityScore r <= 22 /\
  (Facebook.isMediaTransfer r = true -> Facebook.isMessaging r = true) /\
  (Facebook.isBackgroundRefresh r = true ->
   Facebook.isMessaging r = false /\ Facebook.isMediaTransfer r = false /\
   (Facebook.activityScore r = 1 \/
    (Facebook.isReelsScrolling r = true /\ Facebook.activityScore r = 3))) /\
  (Facebook.isMessaging r = true -> 4 <= Facebook.activityScore r).

(** ** Predicates of the further properties *)

(** A list of matches is sound and complete for its table. *)
Definition exactMatches (result table domains : list string) : Prop :=
  NoDup result /\
  forall p, In p result <->
            In p table /\
            exists d, In d domains /\ isExcluded d = false /\ includes d p = true.

(** What a raised flag says about a window, given all the windows. *)
Definition maskedByReels (host : Host) (all : list TimeWindowStats)
  (r : MaskedStats) : Prop :=
  hasStrongMessagingEvidence (baseStats r) = true /\
  startsWith (maskingEvidence r) "Suspicious: " = true /\
  exists other t t',
    In other all /\
    Facebook.isReelsScrolling (facebookActivity other) = true /\
    windowDate host (timeWindow (baseStats r)) = Some t /\
    windowDate host (timeWindow other) = Some t' /\
    60000 < Z.abs (t - t') <= 600000.

(** The four weak signals of [detectVPNAttempt]. *)
Definition weakVPNSignals (domains : list string) : list bool :=
  [matchesDomain domains VPN_INDICATORS.privateDNS;
   matchesDomain domains VPN_INDICATORS.privacyTools;
   Nat.ltb 5 (length (nodup string_dec (map lastSegment domains)));
   Nat.ltb 3 (length (filter isSuspiciousName domains))].

(** The groups are those of the entries read so far. *)
Definition groupsOf (entries : list LogRow.t) (grouped : list (string * list LogRow.t))
  : Prop :=
  NoDup (map fst grouped) /\
  (forall k g, In (k, g) grouped -> g = windowEntriesOf entries k /\ g <> []) /\
  (forall e, In e entries -> In (LogRow.timeWindow e) (map fst grouped)).

Definition sumCounts (m : list (string * nat)) : nat := list_sum (map snd m).

(** The counters of a record are those of the rows of its window. *)
Definition countsOf (window : list LogRow.t) (c : Counts.t) : Prop :=
  Counts.totalRequests c = length window /\
  Counts.blockedRequests c = length (filter LogRow.isBlocked window) /\
  Counts.allowedRequests c =
    length (filter (fun e => negb (LogRow.isBlocked e)) window) /\
  Counts.uniqueDomains c = Counts.domains c /\
  NoDup (Counts.domains c) /\
  (forall d, In d (Counts.domains c) <->
             exists e, In e window /\ domain (LogRow.entry e) = d) /\
  sumCounts (Counts.categories c) = length window /\
  sumCounts (Counts.devices c) =
    length (filter (fun e => negb (String.eqb (LogRow.device_name e) "")) window).

(** The records are those of the entries read so far. *)
Definition statsOf (entries : list LogRow.t) (stats : list Counts.t) : Prop :=
  NoDup (map Counts.timeWindow stats) /\
  (forall c, In c stats ->
     countsOf (windowEntriesOf entries (Counts.timeWindow c)) c /\
     windowEntriesOf entries (Counts.timeWindow c) <> []) /\
  (forall k, In k (map Counts.timeWindow stats) <->
             exists e, In e entries /\ LogRow.timeWindow e = k).

(** The three fields of a report that the masking pass reads, with the
    two it adds. *)
Definition reportView (r : Report.t) : MaskedStats :=
  mkMasked (statsView (Report.stat r)) (Report.isReelsMasking r)
    (Report.maskingEvidence r).

Definition isLowerAscii (c : ascii) : bool :=
  let n := N_of_ascii c in ((97 <=? n) && (n <=? 122))%N.

Fixpoint hasLower (s : string) : bool :=
  match s with
  | EmptyString => false
  | String c s' => isLowerAscii c || hasLower s'
  end.

(** The tags of [generateTags] that are not names of applications,
    each with its condition. *)
Definition conditionalTags (r : Report.t) : list (bool * string) :=
  let s := Report.stat r in
  let wa := Stats.whatsappActivity s in
  let fb := Stats.facebookActivity s in
  [(0 <? WhatsApp.activityScore wa, "WhatsApp");
   (0 <? Facebook.activityScore fb, "Facebook");
   (Facebook.isInstagramActivity fb, "Instagram");
   (Facebook.isReelsScrolling fb, "Reels");
   (WhatsApp.isVoiceCall wa, "Voice Call");
   (WhatsApp.isMediaTransfer wa, "Media Transfer");
   (Facebook.isMessaging fb, "Messaging");
   (Facebook.isCall fb, "Video Call");
   (Stats.isPossibleVPN s, "VPN Detected");
   (Stats.isActingSecret s, "Privacy Behavior");
   (Report.isReelsMasking r, "Potential Masking");
   (negb (String.eqb (WhatsApp.callDirection wa) "") &&
    String.eqb (WhatsApp.callDirection wa) "incoming", "Incoming");
   (negb (String.eqb (WhatsApp.callDirection wa) "") &&
    negb (String.eqb (WhatsApp.callDirection wa) "incoming"), "Outgoing")].

Definition hasTag (r : Report.t) (t : string) : bool :=
  existsb (fun p => fst p && String.eqb (snd p) t) (conditionalTags r).

(** ** Proof automation *)

Ltac break_branches :=
  repeat match goal with
         | |- context [if ?c then _ else _] => destruct c
         | |- context [match ?x with Some _ => _ | None => _ end] => destruct x
         end.

Ltac step_keeps f := intros; unfold f; cbv zeta; break_branches; reflexivity.

Ltac split_atom c :=
  lazymatch c with
  | andb ?a ?b => split_atom a
  | orb ?a ?b => split_atom a
  | negb ?a => split_atom a
  | _ => destruct c eqn:?
  end.

Ltac bool_facts :=
  repeat match goal with
         | H : context [if ?c then _ else _] |- _ => destruct c eqn:?
         end;
  repeat match goal with
         | H : (_ <=? _) = true |- _ => apply Z.leb_le in H
         | H : (_ <=? _) = false |- _ => apply Z.leb_gt in H
         | H : (_ =? _) = true |- _ => apply Z.eqb_eq in H
         | H : (_ =? _) = false |- _ => apply Z.eqb_neq in H
         end.

Ltac close_case :=
  repeat match goal with H : _ /\ _ |- _ => destruct H end;
  repeat split; intros; subst; try discriminate; try lia; auto;
  try (intuition (try discriminate; try lia; try congruence)).

Ltac wa_cbn :=
  cbn [andb orb negb WhatsApp.isTextMessage WhatsApp.isMediaTransfer
       WhatsApp.isVoiceCall WhatsApp.isVideoCall WhatsApp.activityScore
       WhatsApp.callDirection WhatsApp.initial waSetText waSetMedia waSetScore] in *.

Ltac wa_explore :=
  repeat (wa_cbn;
          match goal with
          | |- context [if ?c then _ else _] => split_atom c
          | |- context [match ?x with Some _ => _ | None => _ end] => destruct x eqn:?
          end);
  wa_cbn.

Ltac wa_stage f :=
  intros st; destruct st as [text media voice video score dir];
  unfold waKept, waEvidence, waUpper1, waUpper2, waUpper3, waUpper4, waUpper5,
    waUpper6, waResultOk, f, b2z;
  cbv zeta; wa_cbn; intros;
  wa_explore; bool_facts; close_case.

Ltac fb_cbn :=
  cbn [andb orb negb Facebook.isMessaging Facebook.isMediaTransfer
       Facebook.isBackgroundRefresh Facebook.isInstagramActivity
       Facebook.isReelsScrolling Facebook.activityScore Facebook.isCall
       Facebook.initial fbSetMessaging fbSetMedia fbSetBackground fbSetScore] in *.

Ltac fb_explore :=
  repeat (fb_cbn;
          match goal with
          | |- context [if ?c then _ else _] => split_atom c
          end);
  fb_cbn.

Ltac fb_stage f :=
  intros st; destruct st as [msg media bg insta reels score call];
  unfold fbKept, fbUpper1, fbUpper2, fbUpper3, fbUpper4, fbUpper5, fbUpper6,
    fbResultOk, f, b2z;
  cbv zeta; fb_cbn; intros;
  fb_explore; bool_facts; close_case.

(** * Properties *)

(** ** Substring test *)

Lemma startsWith_spec (s p : string) :
  startsWith s p = true <-> exists b, s = (p ++ b)%string.
Proof.
  revert s; induction p as [|c p IH]; intros s; simpl.
  - split; [intros _; now exists s | reflexivity].
  - destruct s as [|d s].
    + split; [discriminate | intros [b Hb]; discriminate].
    + rewrite andb_true_iff, Ascii.eqb_eq, IH. split.
      * intros [-> [b ->]]. now exists b.
      * intros [b Hb]. injection Hb as -> ->. split; [reflexivity | now exists b].
Qed.

Lemma includes_spec (s p : string) :
  includes s p = true <-> exists a b, s = (a ++ p ++ b)%string.
Proof.
  induction s as [|d s IH]; simpl.
  - rewrite orb_false_r, startsWith_spec. split.
    + intros [b Hb]. now exists EmptyString, b.
    + intros [a [b Hab]]. destruct a; [now exists b | discriminate].
  - rewrite orb_true_iff, startsWith_spec, IH. split.
    + intros [[b Hb] | [a [b Hab]]].
      * now exists EmptyString, b.
      * exists (String d a), b. simpl. now rewrite Hab.
    + intros [a [b Hab]]. destruct a as [|e a]; simpl in Hab.
      * left. now exists b.
      * right. injection Hab as _ Hs. now exists a, b.
Qed.

Lemma string_app_assoc (a b c : string) :
  ((a ++ b) ++ c)%string = (a ++ b ++ c)%string.
Proof. induction a as [|x a IH]; simpl; [reflexivity | now rewrite IH]. Qed.

(** A domain that contains [p] contains every substring of [p]. *)
Lemma includes_trans (s p q : string) :
  includes s p = true -> includes p q = true -> includes s q = true.
Proof.
  rewrite !includes_spec. intros [a [b ->]] [c [d ->]].
  exists (a ++ c)%string, (d ++ b)%string.
  now rewrite !string_app_assoc.
Qed.

Lemma includes_weaken (s p q : string) :
  includes p q = true -> includes s q = false -> includes s p = false.
Proof.
  intros Hpq Hsq. destruct (includes s p) eqn:Hsp; [|reflexivity].
  now rewrite (includes_trans s p q Hsp Hpq) in Hsq.
Qed.

(** ** Lists: tests and counts are invariant under reordering *)

Lemma existsb_Permutation {A : Type} (f : A -> bool) (l l' : list A) :
  Permutation l l' -> existsb f l = existsb f l'.
Proof.
  induction 1 as [|x l l' _ IH|x y l|l l' l'' _ IH1 _ IH2]; simpl.
  - reflexivity.
  - now rewrite IH.
  - now destruct (f x), (f y).
  - now rewrite IH1.
Qed.

Lemma filter_Permutation {A : Type} (f : A -> bool) (l l' : list A) :
  Permutation l l' -> Permutation (filter f l) (filter f l').
Proof.
  induction 1 as [|x l l' _ IH|x y l|l l' l'' _ IH1 _ IH2]; simpl.
  - constructor.
  - destruct (f x); [now constructor | assumption].
  - destruct (f x), (f y); try reflexivity. constructor.
  - now transitivity (filter f l').
Qed.

Lemma nodup_length_Permutation (l l' : list string) :
  Permutation l l' ->
  length (nodup string_dec l) = length (nodup string_dec l').
Proof.
  intros H. apply Permutation_length, NoDup_Permutation.
  - apply NoDup_nodup.
  - apply NoDup_nodup.
  - intros x. rewrite !nodup_In. split; apply Permutation_in;
      [assumption | now apply Permutation_sym].
Qed.

Lemma existsb_false_In {A : Type} (f : A -> bool) (l : list A) (x : A) :
  existsb f l = false -> In x l -> f x = false.
Proof.
  intros H Hx. destruct (f x) eqn:Hf; [|reflexivity].
  assert (existsb f l = true) by (apply existsb_exists; eauto). congruence.
Qed.

Lemma filter_nil_of_false {A : Type} (f : A -> bool) (l : list A) :
  (forall x, In x l -> f x = false) -> filter f l = [].
Proof.
  induction l as [|a l IH]; simpl; intros H; [reflexivity|].
  rewrite (H a (or_introl eq_refl)). apply IH. intros x Hx. apply H. now right.
Qed.

Lemma nonEmpty_In {A : Type} (l : list A) (x : A) : In x l -> nonEmpty l = true.
Proof. destruct l; [intros [] | reflexivity]. Qed.

(** ** Sorting keeps the entries *)

Lemma insertByTime_Permutation (x : ProcessedLogEntry) (l : list ProcessedLogEntry) :
  Permutation (insertByTime x l) (x :: l).
Proof.
  induction l as [|y l IH]; simpl.
  - reflexivity.
  - destruct (parsedTimestamp x <=? parsedTimestamp y).
    + reflexivity.
    + rewrite IH. constructor.
Qed.

Lemma sortByTime_Permutation (l : list ProcessedLogEntry) :
  Permutation (sortByTime l) l.
Proof.
  induction l as [|x l IH]; simpl.
  - constructor.
  - rewrite insertByTime_Permutation. now constructor.
Qed.

Lemma hasDomainPattern_sort (l : list ProcessedLogEntry) (patterns : list string) :
  hasDomainPattern (sortByTime l) patterns = hasDomainPattern l patterns.
Proof. apply existsb_Permutation, sortByTime_Permutation. Qed.

Lemma someIncludes_sort (l : list ProcessedLogEntry) (p : string) :
  someIncludes (sortByTime l) p = someIncludes l p.
Proof. apply existsb_Permutation, sortByTime_Permutation. Qed.

Lemma In_sortByTime (l : list ProcessedLogEntry) (x : ProcessedLogEntry) :
  In x (sortByTime l) <-> In x l.
Proof.
  split; apply Permutation_in;
    [apply sortByTime_Permutation | apply Permutation_sym, sortByTime_Permutation].
Qed.

(** A pattern table that has no match leaves no match for any list of
    longer patterns. *)
Lemma hasDomainPattern_false_In (l : list ProcessedLogEntry) (patterns : list string)
  (e : ProcessedLogEntry) (p : string) :
  hasDomainPattern l patterns = false -> In e l -> In p patterns ->
  includes (domain e) p = false.
Proof.
  intros H He Hp.
  pose proof (existsb_false_In _ _ e H He) as H1.
  exact (existsb_false_In _ _ p H1 Hp).
Qed.

Lemma hasDomainPattern_false_intro (l : list ProcessedLogEntry) (patterns : list string) :
  (forall e p, In e l -> In p patterns -> includes (domain e) p = false) ->
  hasDomainPattern l patterns = false.
Proof.
  intros H. unfold hasDomainPattern.
  destruct (existsb (matchesAny patterns) l) eqn:E; [|reflexivity].
  apply existsb_exists in E as [e [He Hm]].
  apply existsb_exists in Hm as [p [Hp Hi]].
  now rewrite (H e p He Hp) in Hi.
Qed.

Lemma hasDomainPattern_true_intro (l : list ProcessedLogEntry) (patterns : list string)
  (e : ProcessedLogEntry) (p : string) :
  In e l -> In p patterns -> includes (domain e) p = true ->
  hasDomainPattern l patterns = true.
Proof.
  intros He Hp Hi. apply existsb_exists. exists e. split; [assumption|].
  apply existsb_exists. now exists p.
Qed.

(** ** Fields that the classifier steps never write *)

Section WhatsAppVideoFlag.
Variable es : list ProcessedLogEntry.
Variable st : WhatsApp.Activity.

Lemma waIncomingCall_video :
  WhatsApp.isVideoCall (waIncomingCall es st) = WhatsApp.isVideoCall st.
Proof. step_keeps waIncomingCall. Qed.

Lemma waVoiceNote_video :
  WhatsApp.isVideoCall (waVoiceNote es st) = WhatsApp.isVideoCall st.
Proof. step_keeps waVoiceNote. Qed.

Lemma waTextMessage_video :
  WhatsApp.isVideoCall (waTextMessage es st) = WhatsApp.isVideoCall st.
Proof. step_keeps waTextMessage. Qed.

Lemma waMediaSent_video :
  WhatsApp.isVideoCall (waMediaSent es st) = WhatsApp.isVideoCall st.
Proof. step_keeps waMediaSent. Qed.

Lemma waVoiceNoteReceived_video :
  WhatsApp.isVideoCall (waVoiceNoteReceived es st) = WhatsApp.isVideoCall st.
Proof. step_keeps waVoiceNoteReceived. Qed.

Lemma waMediaReceived_video :
  WhatsApp.isVideoCall (waMediaReceived es st) = WhatsApp.isVideoCall st.
Proof. step_keeps waMediaReceived. Qed.

Lemma waPersistentConnection_video :
  WhatsApp.isVideoCall (waPersistentConnection st) = WhatsApp.isVideoCall st.
Proof. step_keeps waPersistentConnection. Qed.

Lemma waMinimalScore_video :
  WhatsApp.isVideoCall (waMinimalScore es st) = WhatsApp.isVideoCall st.
Proof. step_keeps waMinimalScore. Qed.
End WhatsAppVideoFlag.

Section FacebookReelsFlag.
Variable es : list ProcessedLogEntry.
Variable st : Facebook.Activity.

Lemma fbCallDetection_reels :
  Facebook.isReelsScrolling (fbCallDetection es st) = Facebook.isReelsScrolling st.
Proof. step_keeps fbCallDetection. Qed.

Lemma fbSetBackground_reels :
  Facebook.isReelsScrolling (fbSetBackground st) = Facebook.isReelsScrolling st.
Proof. reflexivity. Qed.

Lemma fbTextSent_reels :
  Facebook.isReelsScrolling (fbTextSent es st) = Facebook.isReelsScrolling st.
Proof. step_keeps fbTextSent. Qed.

Lemma fbMediaExchange_reels :
  Facebook.isReelsScrolling (fbMediaExchange es st) = Facebook.isReelsScrolling st.
Proof. step_keeps fbMediaExchange. Qed.

Lemma fbApiMessaging_reels :
  Facebook.isReelsScrolling (fbApiMessaging es st) = Facebook.isReelsScrolling st.
Proof. step_keeps fbApiMessaging. Qed.

Lemma fbIsolatedNotification_reels :
  Facebook.isReelsScrolling (fbIsolatedNotification es st) = Facebook.isReelsScrolling st.
Proof. step_keeps fbIsolatedNotification. Qed.

Lemma fbMediaSent_reels :
  Facebook.isReelsScrolling (fbMediaSent es st) = Facebook.isReelsScrolling st.
Proof. step_keeps fbMediaSent. Qed.

Lemma fbMediaReceived_reels :
  Facebook.isReelsScrolling (fbMediaReceived es st) = Facebook.isReelsScrolling st.
Proof. step_keeps fbMediaReceived. Qed.

Lemma fbInstagram_reels :
  Facebook.isReelsScrolling (fbInstagram es st) = Facebook.isReelsScrolling st.
Proof. step_keeps fbInstagram. Qed.

Lemma fbBackgroundRefresh_reels :
  Facebook.isReelsScrolling (fbBackgroundRefresh es st) = Facebook.isReelsScrolling st.
Proof. step_keeps fbBackgroundRefresh. Qed.

Lemma fbMinimalScore_reels :
  Facebook.isReelsScrolling (fbMinimalScore es st) = Facebook.isReelsScrolling st.
Proof. step_keeps fbMinimalScore. Qed.
End FacebookReelsFlag.

(** Past the two reels exits, the classifier never raises the reels flag. *)
Lemma fb_rest_not_reels (es : list ProcessedLogEntry) :
  Facebook.isReelsScrolling
    (if isLikelyAppLaunch es then fbSetBackground (fbCallDetection es Facebook.initial)
     else
       fbMinimalScore es
         (fbBackgroundRefresh es
           (fbInstagram es
             (fbMediaReceived es
               (fbMediaSent es
                 (fbIsolatedNotification es
                   (fbApiMessaging es
                     (fbMediaExchange es
                       (fbTextSent es (fbCallDetection es Facebook.initial))))))))))
  = false.
Proof.
  destruct (isLikelyAppLaunch es).
  - now rewrite fbSetBackground_reels, fbCallDetection_reels.
  - now rewrite fbMinimalScore_reels, fbBackgroundRefresh_reels, fbInstagram_reels,
      fbMediaReceived_reels, fbMediaSent_reels, fbIsolatedNotification_reels,
      fbApiMessaging_reels, fbMediaExchange_reels, fbTextSent_reels,
      fbCallDetection_reels.
Qed.

(** ** The claims *)

(** C9. For every input event list, [detectWhatsAppActivity] returns
    [isVideoCall = false]: the variable is declared false and no
    section of the classifier assigns it. *)
Theorem whatsapp_never_video_call (windowEntries : list ProcessedLogEntry) :
  WhatsApp.isVideoCall (detectWhatsAppActivity windowEntries) = false.
Proof.
  unfold detectWhatsAppActivity, waClassify. cbv zeta.
  destruct (negb _ && negb _); [reflexivity|].
  destruct (someIncludes _ _ && negb _); [reflexivity|].
  now rewrite waMinimalScore_video, waPersistentConnection_video,
    waMediaReceived_video, waVoiceNoteReceived_video, waMediaSent_video,
    waTextMessage_video, waVoiceNote_video, waIncomingCall_video.
Qed.

(** C10. For every input event list, if [detectFacebookActivity] returns
    [isReelsScrolling = true] then the same result has [isMessaging],
    [isMediaTransfer] and [isCall] false and [activityScore = 3]. *)
Theorem facebook_reels_exclusive (windowEntries : list ProcessedLogEntry) :
  Facebook.isReelsScrolling (detectFacebookActivity windowEntries) = true ->
  Facebook.isMessaging (detectFacebookActivity windowEntries) = false /\
  Facebook.isMediaTransfer (detectFacebookActivity windowEntries) = false /\
  Facebook.isCall (detectFacebookActivity windowEntries) = false /\
  Facebook.activityScore (detectFacebookActivity windowEntries) = 3.
Proof.
  unfold detectFacebookActivity, fbClassify. cbv zeta.
  set (es := sortByTime windowEntries).
  destruct (negb (fbHasCore es) && _ && _ && _); [discriminate|].
  destruct (fbHasReelsVideo es && hasNetSeerCDN es); [now auto|].
  destruct (fbHasReelsVideo es && hasVideoStaticAssets es); [now auto|].
  rewrite fb_rest_not_reels. discriminate.
Qed.

Lemma facebook_reels_exclusive_witness :
  let w := [mkEntry "4bea6f62-abc-netseer-ipaddr-assoc.xy.fbcdn.net" 0;
            mkEntry "edge-mqtt.facebook.com" 1000;
            mkEntry "gateway.facebook.com" 2000] in
  Facebook.isReelsScrolling (detectFacebookActivity w) = true /\
  Facebook.isMessaging (detectFacebookActivity w) = false /\
  Facebook.isMediaTransfer (detectFacebookActivity w) = false /\
  Facebook.isCall (detectFacebookActivity w) = false /\
  Facebook.activityScore (detectFacebookActivity w) = 3.
Proof.
  intros w. split.
  - vm_compute. reflexivity.
  - apply (facebook_reels_exclusive w). vm_compute. reflexivity.
Defined.

(** Every Facebook text-send, real-time and upload pattern contains the
    core pattern [facebook.com], so a window without core domains has
    none of them either. *)
Lemma no_facebook_core_no_pattern (w : list ProcessedLogEntry) (patterns : list string) :
  hasDomainPattern w FACEBOOK_ACTIVITY_INDICATORS.core = false ->
  forallb (fun p => includes p "facebook.com") patterns = true ->
  hasDomainPattern w patterns = false.
Proof.
  intros Hcore Hall. apply hasDomainPattern_false_intro. intros e p He Hp.
  rewrite forallb_forall in Hall.
  apply (includes_weaken _ p "facebook.com" (Hall p Hp)).
  apply (hasDomainPattern_false_In w FACEBOOK_ACTIVITY_INDICATORS.core e); auto.
  simpl; auto.
Qed.

(** C4. For every window whose events match no WhatsApp core or
    signalling pattern and no Facebook core or real-time messaging
    pattern (the empty window is one), both classifiers return a result
    with every flag false, an empty direction and score 0. *)
Theorem no_core_domains_all_false (windowEntries : list ProcessedLogEntry) :
  hasDomainPattern windowEntries WHATSAPP_ACTIVITY_INDICATORS.core = false ->
  hasDomainPattern windowEntries WHATSAPP_ACTIVITY_INDICATORS.signalling = false ->
  hasDomainPattern windowEntries FACEBOOK_ACTIVITY_INDICATORS.core = false ->
  hasDomainPattern windowEntries FACEBOOK_ACTIVITY_INDICATORS.messaging = false ->
  detectWhatsAppActivity windowEntries =
    WhatsApp.mkActivity false false false false 0 "" /\
  detectFacebookActivity windowEntries =
    Facebook.mkActivity false false false false false 0 false.
Proof.
  intros Hwc Hws Hfc Hfm. split.
  - unfold detectWhatsAppActivity, waClassify, waHasCore, waHasSignalling.
    now rewrite !hasDomainPattern_sort, Hwc, Hws.
  - unfold detectFacebookActivity, fbClassify, fbHasCore, fbHasMessagingMQTT,
      fbHasTextSend, fbHasMediaUpload.
    rewrite !hasDomainPattern_sort, Hfc, Hfm.
    rewrite (no_facebook_core_no_pattern _ FACEBOOK_ACTIVITY_INDICATORS.textSend Hfc)
      by reflexivity.
    rewrite (no_facebook_core_no_pattern _ FACEBOOK_ACTIVITY_INDICATORS.mediaUpload Hfc)
      by reflexivity.
    reflexivity.
Qed.

Lemma no_core_domains_all_false_witness :
  (detectWhatsAppActivity [] = WhatsApp.mkActivity false false false false 0 "" /\
   detectFacebookActivity [] = Facebook.mkActivity false false false false false 0 false) /\
  (let w := [mkEntry "www.example.org" 0; mkEntry "1-courier.push.apple.com" 500] in
   detectWhatsAppActivity w = WhatsApp.mkActivity false false false false 0 "" /\
   detectFacebookActivity w = Facebook.mkActivity false false false false false 0 false).
Proof.
  split.
  - apply (no_core_domains_all_false []); reflexivity.
  - apply (no_core_domains_all_false
             [mkEntry "www.example.org" 0; mkEntry "1-courier.push.apple.com" 500]);
      vm_compute; reflexivity.
Defined.

(** ** Window features do not depend on the order of the entries *)

Lemma hasVideoStaticAssets_sort (w : list ProcessedLogEntry) :
  hasVideoStaticAssets (sortByTime w) = hasVideoStaticAssets w.
Proof. apply existsb_Permutation, sortByTime_Permutation. Qed.

Lemma hasNetSeerCDN_sort (w : list ProcessedLogEntry) :
  hasNetSeerCDN (sortByTime w) = hasNetSeerCDN w.
Proof. apply someIncludes_sort. Qed.

Lemma totalFacebookDomains_sort (w : list ProcessedLogEntry) :
  totalFacebookDomains (sortByTime w) = totalFacebookDomains w.
Proof.
  apply Permutation_length, filter_Permutation, sortByTime_Permutation.
Qed.

Lemma uniqueFacebookDomains_sort (w : list ProcessedLogEntry) :
  uniqueFacebookDomains (sortByTime w) = uniqueFacebookDomains w.
Proof.
  apply nodup_length_Permutation, Permutation_map, filter_Permutation,
    sortByTime_Permutation.
Qed.

Lemma detectAPNs_sort_nil (w : list ProcessedLogEntry) :
  detectAPNs w = [] -> detectAPNs (sortByTime w) = [].
Proof.
  intros H. apply Permutation_nil, Permutation_sym.
  rewrite <- H. apply filter_Permutation, sortByTime_Permutation.
Qed.

Lemma hasDomainPattern_widen (w : list ProcessedLogEntry) (p : string)
  (patterns : list string) :
  hasDomainPattern w [p] = true -> In p patterns ->
  hasDomainPattern w patterns = true.
Proof.
  intros H Hp. apply existsb_exists in H as [e [He Hm]].
  unfold matchesAny in Hm. simpl in Hm. rewrite orb_false_r in Hm.
  now apply (hasDomainPattern_true_intro w patterns e p).
Qed.

(** A window that has a domain containing [p] has one containing any
    substring [q] of [p]. *)
Lemma hasDomainPattern_substring (w : list ProcessedLogEntry) (p q : string)
  (patterns : list string) :
  hasDomainPattern w [p] = true -> includes p q = true -> In q patterns ->
  hasDomainPattern w patterns = true.
Proof.
  intros H Hpq Hq. apply existsb_exists in H as [e [He Hm]].
  unfold matchesAny in Hm. simpl in Hm. rewrite orb_false_r in Hm.
  apply (hasDomainPattern_true_intro w patterns e q); auto.
  now apply (includes_trans _ p q).
Qed.

Lemma hasDomainPattern_superstring_false (w : list ProcessedLogEntry)
  (patterns : list string) (q : string) (patterns' : list string) :
  hasDomainPattern w patterns = false -> In q patterns ->
  forallb (fun p => includes p q) patterns' = true ->
  hasDomainPattern w patterns' = false.
Proof.
  intros H Hq Hall. apply hasDomainPattern_false_intro. intros e p He Hp.
  rewrite forallb_forall in Hall.
  apply (includes_weaken _ p q (Hall p Hp)).
  now apply (hasDomainPattern_false_In w patterns e q).
Qed.

(** ** The reels exits of the Facebook classifier *)

Lemma netSeer_is_reelsVideo (es : list ProcessedLogEntry) :
  hasNetSeerCDN es = true -> fbHasReelsVideo es = true.
Proof.
  intros H. apply existsb_exists in H as [e [He Hi]].
  apply (hasDomainPattern_true_intro es _ e "-netseer-ipaddr-assoc."); auto.
  simpl; auto 10.
Qed.

Lemma staticAssets_is_reelsVideo (es : list ProcessedLogEntry) :
  hasVideoStaticAssets es = true -> fbHasReelsVideo es = true.
Proof.
  intros H. apply existsb_exists in H as [e [He Hi]].
  apply andb_true_iff in Hi as [Hi _].
  apply (hasDomainPattern_true_intro es _ e "static-"); auto.
  simpl; auto.
Qed.

(** C1, as stated, fails: a window that holds only a NetSeer CDN domain
    stops at the first guard of the classifier, and an Oculus CDN domain
    next to a core domain reaches neither reels exit. *)
Lemma reels_marker_counterexample :
  let w1 := [mkEntry "4bea6f62-abc-netseer-ipaddr-assoc.xy.fbcdn.net" 0] in
  let w2 := [mkEntry "video.oculuscdn.com" 0; mkEntry "www.facebook.com" 1000] in
  (hasReelsMarker w1 = true /\
   Facebook.isReelsScrolling (detectFacebookActivity w1) = false) /\
  (hasReelsMarker w2 = true /\
   Facebook.isReelsScrolling (detectFacebookActivity w2) = false) /\
  ~ (forall w, hasReelsMarker w = true ->
       Facebook.isReelsScrolling (detectFacebookActivity w) = true /\
       Facebook.isMessaging (detectFacebookActivity w) = false).
Proof.
  intros w1 w2. split; [|split].
  - split; vm_compute; reflexivity.
  - split; vm_compute; reflexivity.
  - intros H. destruct (H w1) as [Hr _]; [vm_compute; reflexivity|].
    vm_compute in Hr. discriminate.
Qed.

(** C1, amended. For every window that passes the first guard (it has a
    Facebook core, real-time messaging, text-send or upload domain) and
    holds a NetSeer CDN domain, or a domain containing both [static-]
    and [.xx.fbcdn.net], [detectFacebookActivity] returns
    [isReelsScrolling = true] and [isMessaging = false], whatever other
    domains the window holds. *)
Theorem reels_marker_override (windowEntries : list ProcessedLogEntry) :
  fbHasCore windowEntries || fbHasMessagingMQTT windowEntries ||
    fbHasTextSend windowEntries || fbHasMediaUpload windowEntries = true ->
  hasNetSeerCDN windowEntries || hasVideoStaticAssets windowEntries = true ->
  Facebook.isReelsScrolling (detectFacebookActivity windowEntries) = true /\
  Facebook.isMessaging (detectFacebookActivity windowEntries) = false.
Proof.
  intros Hguard Hmarker.
  unfold detectFacebookActivity, fbClassify.
  assert (Hg : negb (fbHasCore (sortByTime windowEntries)) &&
               negb (fbHasMessagingMQTT (sortByTime windowEntries)) &&
               negb (fbHasTextSend (sortByTime windowEntries)) &&
               negb (fbHasMediaUpload (sortByTime windowEntries)) = false).
  { unfold fbHasCore, fbHasMessagingMQTT, fbHasTextSend, fbHasMediaUpload in *.
    rewrite !hasDomainPattern_sort.
    rewrite <- !negb_orb. now rewrite Hguard. }
  rewrite Hg.
  rewrite <- hasNetSeerCDN_sort, <- hasVideoStaticAssets_sort in Hmarker.
  destruct (hasNetSeerCDN (sortByTime windowEntries)) eqn:Hn.
  - rewrite (netSeer_is_reelsVideo _ Hn). simpl. auto.
  - simpl in Hmarker. rewrite Hmarker, (staticAssets_is_reelsVideo _ Hmarker).
    simpl. auto.
Qed.

Lemma reels_marker_override_witness :
  let w := [mkEntry "4bea6f62-abc-netseer-ipaddr-assoc.xy.fbcdn.net" 0;
            mkEntry "31-courier2.push.apple.com" 1000;
            mkEntry "rupload.facebook.com" 2000;
            mkEntry "chat-e2ee.facebook.com" 3000] in
  Facebook.isReelsScrolling (detectFacebookActivity w) = true /\
  Facebook.isMessaging (detectFacebookActivity w) = false.
Proof.
  intros w. apply (reels_marker_override w); vm_compute; reflexivity.
Defined.

(** ** The app-launch exit of the Facebook classifier *)

(** C3, as stated, fails, on the input of the repository's test "should
    detect text messaging even with many domains when pm.facebook.com
    present": eight distinct Facebook domains with the launch quartet
    and [pm.facebook.com], each seen once, carry no media and no push
    entry, yet the text-send evidence blocks the app-launch exit and the
    window is classified as messaging with score 6. *)
Lemma app_launch_counterexample :
  let w := [mkEntry "pm.facebook.com" 0;
            mkEntry "edge-mqtt.facebook.com" 1000;
            mkEntry "gateway.facebook.com" 2000;
            mkEntry "graph.facebook.com" 3000;
            mkEntry "www.facebook.com" 4000;
            mkEntry "api.facebook.com" 5000;
            mkEntry "web.facebook.com" 6000;
            mkEntry "lookaside.facebook.com" 7000] in
  (8 <= uniqueFacebookDomains w)%nat /\
  hasDomainPattern w ["gateway.facebook.com"] = true /\
  hasDomainPattern w ["graph.facebook.com"] = true /\
  hasDomainPattern w ["edge-mqtt.facebook.com"] = true /\
  hasDomainPattern w ["www.facebook.com"] = true /\
  fbHasMediaUpload w = false /\
  fbHasMediaDownload w = false /\
  detectAPNs w = [] /\
  detectFacebookActivity w =
    Facebook.mkActivity true false false false false 6 false.
Proof.
  intros w. repeat split; vm_compute; reflexivity.
Qed.

Section AppLaunch.
Variable w : list ProcessedLogEntry.
Hypothesis Hgateway : hasDomainPattern w ["gateway.facebook.com"] = true.
Hypothesis Hwww : hasDomainPattern w ["www.facebook.com"] = true.
Hypothesis Hupload : fbHasMediaUpload w = false.
Hypothesis Hdownload : fbHasMediaDownload w = false.
Hypothesis Hnetseer : hasNetSeerCDN w = false.

Lemma launch_guard_open :
  negb (fbHasCore (sortByTime w)) && negb (fbHasMessagingMQTT (sortByTime w)) &&
  negb (fbHasTextSend (sortByTime w)) && negb (fbHasMediaUpload (sortByTime w)) = false.
Proof.
  unfold fbHasCore. rewrite hasDomainPattern_sort.
  rewrite (hasDomainPattern_substring w "gateway.facebook.com" "facebook.com"
             FACEBOOK_ACTIVITY_INDICATORS.core Hgateway);
    [reflexivity | reflexivity | simpl; auto].
Qed.

Lemma launch_no_static_assets : hasVideoStaticAssets (sortByTime w) = false.
Proof.
  rewrite hasVideoStaticAssets_sort. unfold hasVideoStaticAssets.
  destruct (existsb _ w) eqn:E; [|reflexivity].
  apply existsb_exists in E as [e [He Hi]].
  apply andb_true_iff in Hi as [_ Hi].
  assert (Hf : includes (domain e) ".fbcdn.net" = false).
  { apply (hasDomainPattern_false_In w FACEBOOK_ACTIVITY_INDICATORS.mediaDownload);
      [exact Hdownload | exact He | simpl; auto]. }
  now rewrite (includes_trans _ ".xx.fbcdn.net" ".fbcdn.net" Hi eq_refl) in Hf.
Qed.

Lemma launch_no_call :
  fbCallDetection (sortByTime w) Facebook.initial = Facebook.initial.
Proof.
  unfold fbCallDetection, fbHasCalls. rewrite hasDomainPattern_sort.
  rewrite (hasDomainPattern_superstring_false w
             FACEBOOK_ACTIVITY_INDICATORS.mediaDownload ".fbcdn.net"
             FACEBOOK_ACTIVITY_INDICATORS.calls Hdownload);
    [reflexivity | simpl; auto | reflexivity].
Qed.

Lemma launch_no_reels_exit :
  fbHasReelsVideo (sortByTime w) && hasNetSeerCDN (sortByTime w) = false /\
  fbHasReelsVideo (sortByTime w) && hasVideoStaticAssets (sortByTime w) = false.
Proof.
  rewrite hasNetSeerCDN_sort, Hnetseer, launch_no_static_assets.
  now rewrite !andb_false_r.
Qed.
End AppLaunch.

(** C3, amended. For every window with 8 or more unique Facebook
    domains including the launch quartet, with no media-upload or
    media-download domain, no push-notification anchor and no NetSeer
    CDN domain, and with either no [pm.facebook.com] domain or at least
    10 Facebook-domain events, [detectFacebookActivity] returns
    [isBackgroundRefresh = true], [activityScore = 1] and
    [isMessaging = false]. *)
Theorem app_launch_background (windowEntries : list ProcessedLogEntry) :
  (8 <= uniqueFacebookDomains windowEntries)%nat ->
  hasDomainPattern windowEntries ["gateway.facebook.com"] = true ->
  hasDomainPattern windowEntries ["graph.facebook.com"] = true ->
  hasDomainPattern windowEntries ["edge-mqtt.facebook.com"] = true ->
  hasDomainPattern windowEntries ["www.facebook.com"] = true ->
  fbHasMediaUpload windowEntries = false ->
  fbHasMediaDownload windowEntries = false ->
  detectAPNs windowEntries = [] ->
  hasNetSeerCDN windowEntries = false ->
  hasStrongTextSendEvidence windowEntries = false \/
    (10 <= totalFacebookDomains windowEntries)%nat ->
  Facebook.isBackgroundRefresh (detectFacebookActivity windowEntries) = true /\
  Facebook.activityScore (detectFacebookActivity windowEntries) = 1 /\
  Facebook.isMessaging (detectFacebookActivity windowEntries) = false.
Proof.
  intros Huniq Hgw Hgr Hmq Hww Hup Hdown Hapns Hnet Hpm.
  assert (Hlaunch : isLikelyAppLaunch (sortByTime windowEntries) = true).
  { unfold isLikelyAppLaunch, hasSpecificMessagingEvidence, hasTypicalAppLaunchDomains,
      hasStrongTextSendEvidence, hasWeakTextSendEvidence, fbHasMediaUpload,
      fbHasMediaDownload in *.
    cbv zeta.
    rewrite uniqueFacebookDomains_sort, totalFacebookDomains_sort,
      !hasDomainPattern_sort, Hgw, Hgr, Hmq, Hww, Hup, Hdown.
    rewrite (detectAPNs_sort_nil _ Hapns).
    apply Nat.leb_le in Huniq as Hu8. rewrite Hu8.
    assert (Hu5 : Nat.leb (uniqueFacebookDomains windowEntries) 5 = false)
      by (apply Nat.leb_gt; lia).
    rewrite Hu5.
    rewrite (hasDomainPattern_widen windowEntries "www.facebook.com" _ Hww)
      by (simpl; auto).
    cbn [negb andb orb]. rewrite !andb_false_r. cbn [negb andb orb].
    destruct Hpm as [Hpm | Htotal].
    - rewrite Hpm. cbn [negb andb orb]. apply orb_true_r.
    - apply Nat.leb_le in Htotal. rewrite Htotal. reflexivity. }
  unfold detectFacebookActivity, fbClassify.
  rewrite (launch_guard_open _ Hgw).
  destruct (launch_no_reels_exit _ Hdown Hnet) as [-> ->].
  cbv zeta. rewrite (launch_no_call _ Hdown), Hlaunch.
  simpl. auto.
Qed.

Lemma app_launch_background_witness :
  let w := [mkEntry "graph.facebook.com" 1000;
            mkEntry "gateway.facebook.com" 2000;
            mkEntry "edge-mqtt.facebook.com" 3000;
            mkEntry "star.fallback.c10r.facebook.com" 4000;
            mkEntry "www.facebook.com" 5000;
            mkEntry "web.facebook.com" 6000;
            mkEntry "api.facebook.com" 7000;
            mkEntry "connect.facebook.net" 8000] in
  Facebook.isBackgroundRefresh (detectFacebookActivity w) = true /\
  Facebook.activityScore (detectFacebookActivity w) = 1 /\
  Facebook.isMessaging (detectFacebookActivity w) = false.
Proof.
  intros w. apply (app_launch_background w); try (vm_compute; reflexivity).
  left. vm_compute. reflexivity.
Defined.

(** With a NetSeer CDN domain that is not a media-download domain the
    same window leaves through the reels exit, with score 3. *)
Lemma app_launch_netseer_score :
  let w := map (fun d => mkEntry d 0)
             ["gateway.facebook.com"; "graph.facebook.com";
              "edge-mqtt.facebook.com"; "www.facebook.com";
              "api.facebook.com"; "m.facebook.com";
              "lookaside.facebook.com";
              "a1-netseer-ipaddr-assoc.facebook.com"] in
  (8 <= uniqueFacebookDomains w)%nat /\
  fbHasMediaUpload w = false /\
  fbHasMediaDownload w = false /\
  detectAPNs w = [] /\
  detectFacebookActivity w =
    Facebook.mkActivity false false true false true 3 false.
Proof.
  intros w. repeat split; vm_compute; reflexivity.
Qed.

(** ** The incoming-call rule of the WhatsApp classifier *)

(** C2, as stated, fails: signalling 7 seconds after the push entry is
    outside the [-10s, +5s] window of the call rule; the window is
    classified as a push-triggered text message with score 7. *)
Lemma incoming_call_counterexample :
  let w := [mkEntry "1-courier2.push.apple.com" 0; mkEntry "g.whatsapp.net" 7000] in
  detectWhatsAppActivity w = WhatsApp.mkActivity true false false false 7 "" /\
  ~ (WhatsApp.isVoiceCall (detectWhatsAppActivity w) = true /\
     WhatsApp.callDirection (detectWhatsAppActivity w) = "incoming" /\
     WhatsApp.activityScore (detectWhatsAppActivity w) = 8).
Proof.
  intros w. split.
  - vm_compute. reflexivity.
  - intros [H _]. vm_compute in H. discriminate.
Qed.

Lemma In_findEntriesInWindow (es : list ProcessedLogEntry) (t b a : Z)
  (e : ProcessedLogEntry) :
  In e (findEntriesInWindow es t b a) <->
  In e es /\ - (1000 * b) <= parsedTimestamp e - t <= 1000 * a.
Proof.
  unfold findEntriesInWindow. rewrite filter_In, andb_true_iff, !Z.leb_le.
  tauto.
Qed.

(** C2, amended. For a window containing a push-notification anchor at
    time T and a WhatsApp signalling event between T-10s and T+5s, with
    no [rupload.facebook.com] or [edge-mqtt.facebook.com] event between
    T-10s and T+15s and no WhatsApp upload-gateway domain,
    [detectWhatsAppActivity] returns [isVoiceCall = true],
    [callDirection = 'incoming'] and [activityScore = 8] (and no other
    flag). *)
Theorem incoming_call_window (windowEntries : list ProcessedLogEntry)
  (apnsEntry signallingEntry : ProcessedLogEntry) :
  In apnsEntry windowEntries -> isAPNs apnsEntry = true ->
  In signallingEntry windowEntries -> isSignalling signallingEntry = true ->
  -10000 <= parsedTimestamp signallingEntry - parsedTimestamp apnsEntry <= 5000 ->
  (forall e, In e windowEntries ->
     -10000 <= parsedTimestamp e - parsedTimestamp apnsEntry <= 15000 ->
     isFacebookInterference e = false) ->
  waHasMediaUpload windowEntries = false ->
  detectWhatsAppActivity windowEntries =
    WhatsApp.mkActivity false false true false 8 "incoming".
Proof.
  intros Hapns Hisapns Hsig Hissig Htime Hquiet Hupload.
  unfold detectWhatsAppActivity, waClassify.
  set (es := sortByTime windowEntries).
  assert (Hs : waHasSignalling es = true).
  { apply existsb_exists. exists signallingEntry. split; [|exact Hissig].
    now apply In_sortByTime. }
  assert (Ha : In apnsEntry (waApnsEntries es)).
  { apply filter_In. split; [now apply In_sortByTime | exact Hisapns]. }
  assert (Hu : waHasMediaUpload es = false).
  { unfold waHasMediaUpload, es. now rewrite hasDomainPattern_sort. }
  assert (Hcall : existsb (apnsStartsCall es) (waApnsEntries es) = true).
  { apply existsb_exists. exists apnsEntry. split; [exact Ha|].
    unfold apnsStartsCall. cbv zeta. apply andb_true_iff. split.
    - apply (nonEmpty_In _ signallingEntry), filter_In. split; [|exact Hissig].
      apply In_findEntriesInWindow. split; [now apply In_sortByTime | lia].
    - rewrite filter_nil_of_false; [reflexivity|].
      intros e He. apply In_findEntriesInWindow in He as [He Ht].
      apply Hquiet; [exact (proj1 (In_sortByTime _ _) He) | lia]. }
  rewrite Hs, andb_false_r, (nonEmpty_In _ _ Ha).
  cbv zeta. cbn [orb negb]. rewrite andb_false_r.
  unfold waIncomingCall. rewrite Hcall.
  unfold waVoiceNote, waTextMessage, waMediaSent, waVoiceNoteReceived,
    waMediaReceived, waPersistentConnection, waMinimalScore.
  cbn [WhatsApp.isTextMessage WhatsApp.isMediaTransfer WhatsApp.isVoiceCall
       WhatsApp.isVideoCall WhatsApp.activityScore WhatsApp.callDirection
       WhatsApp.initial negb andb].
  rewrite Hu, !andb_false_r. reflexivity.
Qed.

Lemma incoming_call_window_witness :
  let w := [mkEntry "1-courier2.push.apple.com" 0; mkEntry "g.whatsapp.net" 5000] in
  detectWhatsAppActivity w = WhatsApp.mkActivity false false true false 8 "incoming".
Proof.
  intros w.
  apply (incoming_call_window w (mkEntry "1-courier2.push.apple.com" 0)
           (mkEntry "g.whatsapp.net" 5000)).
  - simpl; auto.
  - reflexivity.
  - simpl; auto.
  - reflexivity.
  - simpl; lia.
  - intros e [<- | [<- | []]] _; reflexivity.
  - reflexivity.
Defined.

(** ** The domain pattern matcher *)

(** C8, as stated, fails: a domain that differs from a pattern only in
    letter case matches under case normalization but not in the code,
    which compares the strings as they are. *)
Lemma case_insensitive_counterexample :
  let entries := [mkEntry "G.WhatsApp.NET" 0] in
  let patterns := ["g.whatsapp.net"] in
  toLowerCase "G.WhatsApp.NET" = "g.whatsapp.net" /\
  hasDomainPatternNormalized entries patterns = true /\
  hasDomainPattern entries patterns = false.
Proof.
  intros entries patterns. repeat split; vm_compute; reflexivity.
Qed.

(** C8, amended. For every event list and pattern list,
    [hasDomainPattern] returns true exactly when some event's domain
    contains some pattern as an exact, case-sensitive substring. *)
Theorem hasDomainPattern_exact (entries : list ProcessedLogEntry)
  (patterns : list string) :
  hasDomainPattern entries patterns = true <->
  exists entry pattern,
    In entry entries /\ In pattern patterns /\
    exists before after, domain entry = (before ++ pattern ++ after)%string.
Proof.
  unfold hasDomainPattern, matchesAny. rewrite existsb_exists. split.
  - intros [entry [He Hm]]. apply existsb_exists in Hm as [pattern [Hp Hi]].
    exists entry, pattern. repeat split; auto. now apply includes_spec.
  - intros [entry [pattern [He [Hp Hsub]]]]. exists entry. split; [exact He|].
    apply existsb_exists. exists pattern. split; [exact Hp|].
    now apply includes_spec.
Qed.

(** ** The relationship concern scorer *)

Lemma arrayIncludes_In (arr : list string) (app : string) :
  arrayIncludes arr app = true <-> In app arr.
Proof.
  unfold arrayIncludes. rewrite existsb_exists. split.
  - intros [x [Hx He]]. apply String.eqb_eq in He. now subst.
  - intros H. exists app. split; [exact H | apply String.eqb_refl].
Qed.

Lemma collectConcerns_fields (domains : list string) (acc : ConcernLists) :
  let r := fold_left concernStep domains acc in
  accDatingApps r =
    collectCategory RELATIONSHIP_CONCERN_INDICATORS.datingApps domains (accDatingApps acc) /\
  accAlternativeMessaging r =
    collectCategory RELATIONSHIP_CONCERN_INDICATORS.alternativeMessaging domains
      (accAlternativeMessaging acc) /\
  accVideoCalling r =
    collectCategory RELATIONSHIP_CONCERN_INDICATORS.videoCalling domains
      (accVideoCalling acc) /\
  accSocialMessaging r =
    collectCategory RELATIONSHIP_CONCERN_INDICATORS.socialMessaging domains
      (accSocialMessaging acc) /\
  accAnonymousPlatforms r =
    collectCategory RELATIONSHIP_CONCERN_INDICATORS.anonymousPlatforms domains
      (accAnonymousPlatforms acc).
Proof.
  revert acc. induction domains as [|d domains IH]; intros acc.
  - cbv zeta. unfold collectCategory. cbn [fold_left]. auto.
  - cbv zeta in IH |- *.
    destruct (IH (concernStep acc d)) as (H1 & H2 & H3 & H4 & H5).
    cbn [fold_left]. rewrite H1, H2, H3, H4, H5.
    unfold concernStep, collectCategory. cbn [fold_left].
    destruct (isExcluded d);
      cbn [accDatingApps accAlternativeMessaging accVideoCalling
           accSocialMessaging accAnonymousPlatforms];
      auto.
Qed.

(** An excluded domain leaves every list as it is. *)
Lemma concernStep_excluded (acc : ConcernLists) (d : string) :
  isExcluded d = true -> concernStep acc d = acc.
Proof. intros H. unfold concernStep. now rewrite H. Qed.

(** C6. For every domain list and every domain [d] that matches some
    pattern of the exclusion list, [detectRelationshipConcerns] returns
    the same score and the same per-category lists on the list with
    [d] added (at any position) as on the list without it. *)
Theorem excluded_domain_ignored (before after : list string) (d : string) :
  isExcluded d = true ->
  detectRelationshipConcerns (before ++ d :: after) =
  detectRelationshipConcerns (before ++ after).
Proof.
  intros H. unfold detectRelationshipConcerns, collectConcerns.
  rewrite !fold_left_app. cbn [fold_left].
  now rewrite (concernStep_excluded _ d H).
Qed.

Lemma excluded_domain_ignored_witness :
  detectRelationshipConcerns
    (["api.tinder.com"] ++ "chat.google.com" :: ["web.telegram.org"]) =
  detectRelationshipConcerns (["api.tinder.com"] ++ ["web.telegram.org"]).
Proof.
  apply (excluded_domain_ignored ["api.tinder.com"] ["web.telegram.org"]
           "chat.google.com").
  reflexivity.
Defined.

Lemma pushMatches_In (d : string) (patterns acc : list string) (q : string) :
  In q (pushMatches d patterns acc) <->
  In q acc \/ (In q patterns /\ includes d q = true).
Proof.
  unfold pushMatches. revert acc.
  induction patterns as [|p patterns IH]; intros acc; cbn [fold_left].
  - simpl. tauto.
  - rewrite IH. destruct (includes d p) eqn:Hi; cbn [andb].
    + destruct (arrayIncludes acc p) eqn:Ha; cbn [negb].
      * apply arrayIncludes_In in Ha. simpl. intuition (subst; auto).
      * rewrite in_app_iff. simpl. intuition (subst; auto).
    + simpl. intuition (subst; auto; congruence).
Qed.

Lemma pushMatches_NoDup (d : string) (patterns acc : list string) :
  NoDup acc -> NoDup (pushMatches d patterns acc).
Proof.
  unfold pushMatches. revert acc.
  induction patterns as [|p patterns IH]; intros acc Hacc; cbn [fold_left].
  - exact Hacc.
  - apply IH. destruct (includes d p); cbn [andb]; [|exact Hacc].
    destruct (arrayIncludes acc p) eqn:Ha; cbn [negb]; [exact Hacc|].
    apply NoDup_app; [exact Hacc | repeat constructor; intros [] |].
    intros x Hx [<- | []].
    apply arrayIncludes_In in Hx. congruence.
Qed.

Lemma collectCategory_In (patterns domains acc : list string) (q : string) :
  In q (collectCategory patterns domains acc) <->
  In q acc \/
  (In q patterns /\
   exists d, In d domains /\ isExcluded d = false /\ includes d q = true).
Proof.
  unfold collectCategory. revert acc.
  induction domains as [|d domains IH]; intros acc; cbn [fold_left].
  - simpl. split; [auto | intros [H | [_ [d [[] _]]]]; exact H].
  - rewrite IH. destruct (isExcluded d) eqn:He.
    + split.
      * intros [H | [Hp [d' [Hd' Hrest]]]]; [auto|].
        right. split; [exact Hp|]. exists d'. simpl. tauto.
      * intros [H | [Hp [d' [[<- | Hd'] [Hx Hi]]]]]; [auto | congruence |].
        right. split; [exact Hp|]. now exists d'.
    + rewrite pushMatches_In. split.
      * intros [[H | [Hp Hi]] | [Hp [d' [Hd' Hrest]]]]; [auto | |].
        -- right. split; [exact Hp|]. exists d. simpl. auto.
        -- right. split; [exact Hp|]. exists d'. simpl. tauto.
      * intros [H | [Hp [d' [[<- | Hd'] [Hx Hi]]]]]; [auto | auto |].
        right. split; [exact Hp|]. now exists d'.
Qed.

Lemma collectCategory_NoDup (patterns domains acc : list string) :
  NoDup acc -> NoDup (collectCategory patterns domains acc).
Proof.
  unfold collectCategory. revert acc.
  induction domains as [|d domains IH]; intros acc Hacc; cbn [fold_left].
  - exact Hacc.
  - apply IH. destruct (isExcluded d); [exact Hacc | now apply pushMatches_NoDup].
Qed.

Lemma isMatched_spec (domains : list string) (q : string) :
  isMatched domains q = true <->
  exists d, In d domains /\ isExcluded d = false /\ includes d q = true.
Proof.
  unfold isMatched. rewrite existsb_exists. split.
  - intros [d [Hd H]]. apply andb_true_iff in H as [Hx Hi].
    apply negb_true_iff in Hx. now exists d.
  - intros [d [Hd [Hx Hi]]]. exists d. now rewrite Hx, Hi.
Qed.

(** The list a category ends with holds each distinct match once. *)
Lemma collectCategory_length (patterns domains : list string) :
  NoDup patterns ->
  length (collectCategory patterns domains []) =
  length (distinctMatches patterns domains).
Proof.
  intros Hnd. apply Permutation_length, NoDup_Permutation.
  - apply collectCategory_NoDup. constructor.
  - now apply NoDup_filter.
  - intros q. unfold distinctMatches.
    rewrite collectCategory_In, filter_In, isMatched_spec. simpl. tauto.
Qed.

Lemma NoDup_of_nodup_eq (l : list string) : nodup string_dec l = l -> NoDup l.
Proof. intros <-. apply NoDup_nodup. Qed.

(** No table lists a pattern twice. *)
Lemma concern_tables_NoDup :
  NoDup RELATIONSHIP_CONCERN_INDICATORS.datingApps /\
  NoDup RELATIONSHIP_CONCERN_INDICATORS.anonymousPlatforms /\
  NoDup RELATIONSHIP_CONCERN_INDICATORS.alternativeMessaging /\
  NoDup RELATIONSHIP_CONCERN_INDICATORS.videoCalling /\
  NoDup RELATIONSHIP_CONCERN_INDICATORS.socialMessaging.
Proof. repeat split; apply NoDup_of_nodup_eq; vm_compute; reflexivity. Qed.

Lemma concernScore_weighted (domains : list string) :
  concernScore (detectRelationshipConcerns domains) = weightedConcernScore domains.
Proof.
  unfold detectRelationshipConcerns, collectConcerns, weightedConcernScore.
  cbv zeta. cbn [concernScore].
  destruct (collectConcerns_fields domains (mkConcernLists [] [] [] [] []))
    as (H1 & H2 & H3 & H4 & H5).
  cbv zeta in H1, H2, H3, H4, H5.
  cbn [accDatingApps accAlternativeMessaging accVideoCalling accSocialMessaging
       accAnonymousPlatforms] in H1, H2, H3, H4, H5.
  rewrite H1, H2, H3, H4, H5.
  destruct concern_tables_NoDup as (N1 & N2 & N3 & N4 & N5).
  rewrite !collectCategory_length by assumption.
  lia.
Qed.

Lemma patternMatches_zero (d : string) (patterns : list string) (p : string) :
  patternMatches d patterns = 0%nat -> In p patterns -> includes d p = false.
Proof.
  unfold patternMatches. intros H Hp.
  destruct (includes d p) eqn:Hi; [|reflexivity].
  assert (Hin : In p (filter (includes d) patterns)) by (apply filter_In; auto).
  destruct (filter (includes d) patterns); [destruct Hin | discriminate].
Qed.

Lemma isMatched_none (domains patterns : list string) (p : string) :
  In p patterns ->
  (forall d, In d domains -> patternMatches d patterns = 0%nat) ->
  isMatched domains p = false.
Proof.
  intros Hp H. unfold isMatched.
  destruct (existsb _ domains) eqn:E; [|reflexivity].
  apply existsb_exists in E as [d [Hd Hm]].
  apply andb_true_iff in Hm as [_ Hi].
  now rewrite (patternMatches_zero d patterns p (H d Hd) Hp) in Hi.
Qed.

Lemma distinctMatches_none (patterns domains : list string) :
  (forall d, In d domains -> patternMatches d patterns = 0%nat) ->
  length (distinctMatches patterns domains) = 0%nat.
Proof.
  intros H. unfold distinctMatches. rewrite filter_nil_of_false; [reflexivity|].
  intros p Hp. now apply (isMatched_none domains patterns).
Qed.

(** When a single domain of the list matches the table, the distinct
    matches are the patterns that this domain contains. *)
Lemma distinctMatches_one (patterns before after : list string) (d : string) :
  isExcluded d = false ->
  (forall d', In d' (before ++ after) -> patternMatches d' patterns = 0%nat) ->
  length (distinctMatches patterns (before ++ d :: after)) = patternMatches d patterns.
Proof.
  intros Hx H. unfold distinctMatches, patternMatches. f_equal.
  apply filter_ext_in. intros p Hp. unfold isMatched.
  rewrite existsb_app. cbn [existsb]. rewrite Hx. cbn [negb andb].
  fold (isMatched before p). fold (isMatched after p).
  rewrite (isMatched_none before patterns p Hp),
          (isMatched_none after patterns p Hp).
  - now rewrite orb_false_r.
  - intros d' Hd'. apply H, in_or_app. now right.
  - intros d' Hd'. apply H, in_or_app. now left.
Qed.

(** C5. For every domain list, [detectRelationshipConcerns] returns
    [concernScore] equal to 10 times the number of distinct dating-app
    matches plus 8 times the distinct anonymous-platform matches plus 6
    times the distinct alternative-messaging matches plus 4 times the
    distinct video-calling matches plus 2 times the distinct
    social-messaging matches; a list with one domain that matches
    exactly one dating-app pattern and nothing else scores 10, and a list
    with one dating-only, one alternative-messaging-only and one
    video-calling-only domain scores 20. *)
Theorem concern_score_formula :
  (forall domains,
     concernScore (detectRelationshipConcerns domains) = weightedConcernScore domains) /\
  (forall d,
     matchesOnly d 1 0 0 0 0 ->
     concernScore (detectRelationshipConcerns [d]) = 10) /\
  (forall d1 d2 d3,
     matchesOnly d1 1 0 0 0 0 ->
     matchesOnly d2 0 0 1 0 0 ->
     matchesOnly d3 0 0 0 1 0 ->
     concernScore (detectRelationshipConcerns [d1; d2; d3]) = 20).
Proof.
  split; [exact concernScore_weighted | split].
  - intros d (Hx & Hd & Han & Hal & Hv & Hs).
    rewrite concernScore_weighted. unfold weightedConcernScore.
    assert (E := distinctMatches_one RELATIONSHIP_CONCERN_INDICATORS.datingApps
                   [] [] d Hx).
    cbn [app] in E. rewrite E by (intros d' []).
    rewrite !distinctMatches_none
      by (intros d' [<- | []]; assumption).
    rewrite Hd. reflexivity.
  - intros d1 d2 d3 (Hx1 & Hd1 & Han1 & Hal1 & Hv1 & Hs1)
      (Hx2 & Hd2 & Han2 & Hal2 & Hv2 & Hs2) (Hx3 & Hd3 & Han3 & Hal3 & Hv3 & Hs3).
    rewrite concernScore_weighted. unfold weightedConcernScore.
    assert (E1 := distinctMatches_one RELATIONSHIP_CONCERN_INDICATORS.datingApps
                    [] [d2; d3] d1 Hx1).
    assert (E2 := distinctMatches_one RELATIONSHIP_CONCERN_INDICATORS.alternativeMessaging
                    [d1] [d3] d2 Hx2).
    assert (E3 := distinctMatches_one RELATIONSHIP_CONCERN_INDICATORS.videoCalling
                    [d1; d2] [] d3 Hx3).
    cbn [app] in E1, E2, E3.
    rewrite E1, E2, E3 by (intros d' [<- | [<- | []]]; assumption).
    rewrite !distinctMatches_none
      by (intros d' [<- | [<- | [<- | []]]]; assumption).
    rewrite Hd1, Hal2, Hv3. reflexivity.
Qed.

Lemma concern_score_formula_witness :
  concernScore (detectRelationshipConcerns ["api.tinder.com"]) = 10 /\
  concernScore (detectRelationshipConcerns
                  ["api.tinder.com"; "web.telegram.org"; "us04web.zoom.us"]) = 20.
Proof.
  split.
  - apply (proj1 (proj2 concern_score_formula) "api.tinder.com").
    repeat split; vm_compute; reflexivity.
  - apply (proj2 (proj2 concern_score_formula)
             "api.tinder.com" "web.telegram.org" "us04web.zoom.us");
      repeat split; vm_compute; reflexivity.
Defined.

(** ** The masking detector *)

Lemma strongWhatsApp_is_strong (stat : TimeWindowStats) :
  hasStrongWhatsAppEvidence stat = true -> hasStrongMessagingEvidence stat = true.
Proof.
  unfold hasStrongWhatsAppEvidence, hasStrongMessagingEvidence.
  destruct (WhatsApp.isTextMessage _ && _), (WhatsApp.isMediaTransfer _),
    (6 <? WhatsApp.activityScore _); cbn [orb]; try discriminate;
    intros _; rewrite ?orb_true_r; reflexivity.
Qed.

Lemma suspiciousGap_minutes (t a b : Z) :
  b + 1 < a -> a <= b + 10 ->
  suspiciousGap (Some (t + a * 60000)) (Some (t + b * 60000)) = true.
Proof.
  intros H1 H2. unfold suspiciousGap.
  apply andb_true_iff. split; [apply Z.ltb_lt | apply Z.leb_le]; lia.
Qed.

(** On a key of the shape [date clock] the split at the space yields
    the clock as its second part. *)
Lemma splitOn_no_space (s : string) :
  includes s " " = false -> splitOn " " s = [s].
Proof.
  induction s as [|c s IH]; [reflexivity|].
  cbn [includes startsWith splitOn]. rewrite andb_true_r, Ascii.eqb_sym.
  intros H. apply orb_false_iff in H as [Hc Hs].
  now rewrite Hc, (IH Hs).
Qed.

Lemma splitOn_first_space (a b : string) :
  includes a " " = false ->
  splitOn " " (a ++ String " " b) = a :: splitOn " " b.
Proof.
  induction a as [|c a IH]; [reflexivity|].
  cbn [includes startsWith splitOn append]. rewrite andb_true_r, Ascii.eqb_sym.
  intros H. apply orb_false_iff in H as [Hc Hs].
  now rewrite Hc, (IH Hs).
Qed.

Lemma clockOf_key (date clock : string) :
  includes date " " = false -> includes clock " " = false ->
  clockOf (date ++ " " ++ clock) = Some clock.
Proof.
  intros Hd Hc. unfold clockOf. cbn [append].
  now rewrite (splitOn_first_space _ _ Hd), (splitOn_no_space _ Hc).
Qed.

Section Sandwich.
Variable host : Host.

Lemma sortByWindow_sorted3 (a b c : TimeWindowStats) :
  windowLe host a b = true -> windowLe host b c = true ->
  sortByWindow host [a; b; c] = [a; b; c].
Proof.
  intros Hab Hbc. unfold sortByWindow. cbn [fold_right insertByWindow].
  rewrite Hbc. cbn [insertByWindow]. now rewrite Hab.
Qed.

(** C7. On every host: for a result sequence, sorted by key, of a
    reels-classified window whose key the host reads as the time t, a
    window with strong WhatsApp messaging evidence at t+3 minutes and a
    reels-classified window at t+7 minutes, the masking pass sets the
    middle window's [isReelsMasking] to true, with a [maskingEvidence]
    text that names the clock part of both bounding windows' keys: for
    keys of the shape [date clock] it reads "Suspicious: Reels stopped
    at clock, resumed at clock". *)
Theorem reels_sandwich_masked (reelsBefore strong reelsAfter : TimeWindowStats)
  (t : Z) :
  windowLe host reelsBefore strong = true ->
  windowLe host strong reelsAfter = true ->
  windowDate host (timeWindow reelsBefore) = Some t ->
  windowDate host (timeWindow strong) = Some (t + 3 * 60000) ->
  windowDate host (timeWindow reelsAfter) = Some (t + 7 * 60000) ->
  Facebook.isReelsScrolling (facebookActivity reelsBefore) = true ->
  Facebook.isReelsScrolling (facebookActivity reelsAfter) = true ->
  hasStrongWhatsAppEvidence strong = true ->
  exists first last evidence,
    detectReelsMasking host [reelsBefore; strong; reelsAfter] =
      [first; mkMasked strong true evidence; last] /\
    evidence =
      ("Suspicious: Reels stopped at " ++
       joinTimings [clockOf (timeWindow reelsBefore)] ++
       ", resumed at " ++
       joinTimings [clockOf (timeWindow reelsAfter)])%string /\
    (forall dateBefore clockBefore dateAfter clockAfter,
       timeWindow reelsBefore = (dateBefore ++ " " ++ clockBefore)%string ->
       includes dateBefore " " = false -> includes clockBefore " " = false ->
       timeWindow reelsAfter = (dateAfter ++ " " ++ clockAfter)%string ->
       includes dateAfter " " = false -> includes clockAfter " " = false ->
       evidence =
         ("Suspicious: Reels stopped at " ++ clockBefore ++
          ", resumed at " ++ clockAfter)%string).
Proof.
  intros Hab Hbc Ha Hb Hc Hra Hrc Hstrong.
  unfold detectReelsMasking. cbv zeta.
  rewrite (sortByWindow_sorted3 _ _ _ Hab Hbc).
  unfold indexed. cbn [length seq combine map fst snd].
  assert (Hrecent : recentReels host [reelsBefore; strong; reelsAfter] 1
                      (windowDate host (timeWindow strong)) = [reelsBefore]).
  { unfold recentReels, indexed.
    cbn [length seq combine filter fst snd Nat.leb orb].
    rewrite Hra, Ha, Hb. cbn [negb].
    replace t with (t + 0 * 60000) at 2 by lia.
    rewrite suspiciousGap_minutes by lia. reflexivity. }
  assert (Hsubsequent : subsequentReels host [reelsBefore; strong; reelsAfter] 1
                          (windowDate host (timeWindow strong)) = [reelsAfter]).
  { unfold subsequentReels, indexed.
    cbn [length seq combine filter fst snd Nat.leb orb].
    rewrite Hrc, Hb, Hc. cbn [negb].
    rewrite suspiciousGap_minutes by lia. reflexivity. }
  eexists; eexists;
    exists ("Suspicious: Reels stopped at " ++
            joinTimings [clockOf (timeWindow reelsBefore)] ++
            ", resumed at " ++
            joinTimings [clockOf (timeWindow reelsAfter)])%string.
  split; [|split].
  - f_equal. f_equal. unfold maskWindow.
    rewrite (strongWhatsApp_is_strong _ Hstrong). cbv zeta.
    rewrite Hrecent, Hsubsequent. reflexivity.
  - reflexivity.
  - intros dateBefore clockBefore dateAfter clockAfter Hkb Hdb Hcb Hka Hda Hca.
    rewrite Hkb, Hka, (clockOf_key _ _ Hdb Hcb), (clockOf_key _ _ Hda Hca).
    reflexivity.
Qed.

End Sandwich.

Lemma compare_not_Gt_trans (a b c : string) :
  String.compare a b <> Gt -> String.compare b c <> Gt -> String.compare a c <> Gt.
Proof.
  revert b c. induction a as [|x a IH]; intros [|y b] [|z c]; cbn;
    try congruence.
  unfold Ascii.compare.
  destruct (N.compare_spec (N_of_ascii x) (N_of_ascii y)) as [Hxy | Hxy | Hxy];
    destruct (N.compare_spec (N_of_ascii y) (N_of_ascii z)) as [Hyz | Hyz | Hyz];
    destruct (N.compare_spec (N_of_ascii x) (N_of_ascii z)) as [Hxz | Hxz | Hxz];
    try congruence; try lia.
  apply IH.
Qed.

(** The order of the code units is a collation. *)
Lemma utcHost_collation : collation utcHost.
Proof.
  split; cbn [localeCompare utcHost]; unfold codeUnitCompare.
  - intros a b. rewrite (String.compare_antisym b a).
    destruct (String.compare a b); cbn [CompOpp]; lia.
  - intros a b c Hab Hbc.
    assert (H : String.compare a c <> Gt).
    { apply (compare_not_Gt_trans a b c).
      - destruct (String.compare a b); [discriminate | discriminate | lia].
      - destruct (String.compare b c); [discriminate | discriminate | lia]. }
    destruct (String.compare a c); [lia | lia | now destruct H].
Qed.

Lemma reels_sandwich_masked_witness :
  let reels :=
    detectFacebookActivity
      [mkEntry "4bea6f62-abc-netseer-ipaddr-assoc.xy.fbcdn.net" 0;
       mkEntry "edge-mqtt.facebook.com" 1000] in
  let call :=
    detectWhatsAppActivity
      [mkEntry "1-courier2.push.apple.com" 0; mkEntry "g.whatsapp.net" 3000] in
  let reelsBefore := mkStats "2025-09-12 20:40" WhatsApp.initial reels in
  let strong := mkStats "2025-09-12 20:43" call Facebook.initial in
  let reelsAfter := mkStats "2025-09-12 20:47" WhatsApp.initial reels in
  exists first last,
    detectReelsMasking utcHost [reelsBefore; strong; reelsAfter] =
    [first;
     mkMasked strong true "Suspicious: Reels stopped at 20:40, resumed at 20:47";
     last].
Proof.
  intros reels call reelsBefore strong reelsAfter.
  destruct (reels_sandwich_masked utcHost reelsBefore strong reelsAfter
              1757709600000)
    as (first & last & evidence & Hrun & _ & Hclock);
    try (vm_compute; reflexivity).
  exists first, last. rewrite Hrun.
  rewrite (Hclock "2025-09-12" "20:40" "2025-09-12" "20:47");
    reflexivity.
Defined.

(** ** Agreement with the repository's tests

    The inputs of the unit tests of the classifiers, with timestamps in
    milliseconds from the start of the minute, and the values the tests
    expect. *)

Module RepositoryTests.

(** "should detect message sent with media upload (real data from 10:08
    SAST)": messaging with media transfer, score above 6. *)
Example facebook_message_with_upload :
  detectFacebookActivity
    [mkEntry "rupload.facebook.com" 14142; mkEntry "rupload.facebook.com" 14142;
     mkEntry "rupload.facebook.com" 14142;
     mkEntry "www.facebook.com" 5359; mkEntry "www.facebook.com" 5359;
     mkEntry "chat-e2ee.facebook.com" 4666; mkEntry "chat-e2ee.facebook.com" 4666;
     mkEntry "star.fallback.c10r.facebook.com" 3752;
     mkEntry "star.fallback.c10r.facebook.com" 3752;
     mkEntry "web.facebook.com" 3724;
     mkEntry "graph.facebook.com" 3684; mkEntry "graph.facebook.com" 3684;
     mkEntry "gateway.facebook.com" 3667] =
  Facebook.mkActivity true true false false false 11 false.
Proof. vm_compute. reflexivity. Qed.

(** "should detect app launch with gateway + graph + edge-mqtt pattern". *)
Example facebook_launch_quartet :
  detectFacebookActivity
    [mkEntry "gateway.facebook.com" 0; mkEntry "graph.facebook.com" 1000;
     mkEntry "edge-mqtt.facebook.com" 2000; mkEntry "www.facebook.com" 3000] =
  Facebook.mkActivity false false true false false 1 false.
Proof. vm_compute. reflexivity. Qed.

(** "should override messaging detection when NetSeer CDN is present". *)
Example facebook_netseer_override :
  detectFacebookActivity
    [mkEntry "4bea6f62-abc-netseer-ipaddr-assoc.xy.fbcdn.net" 0;
     mkEntry "edge-mqtt.facebook.com" 1000;
     mkEntry "gateway.facebook.com" 2000] =
  Facebook.mkActivity false false true false true 3 false.
Proof. vm_compute. reflexivity. Qed.

(** "should NOT detect messaging for isolated MQTT without APNs" and
    "should detect messaging for isolated MQTT with APNs". *)
Example facebook_isolated_mqtt :
  detectFacebookActivity [mkEntry "edge-mqtt.facebook.com" 0] =
    Facebook.mkActivity false false true false false 1 false /\
  detectFacebookActivity
    [mkEntry "31-courier2.push.apple.com" 0; mkEntry "edge-mqtt.facebook.com" 1000] =
    Facebook.mkActivity true false false false false 4 false.
Proof. split; vm_compute; reflexivity. Qed.

(** "should detect text messaging with web.facebook.com when isolated". *)
Example facebook_isolated_text_send :
  detectFacebookActivity
    [mkEntry "web.facebook.com" 0; mkEntry "edge-mqtt.facebook.com" 1000] =
  Facebook.mkActivity true false false false false 6 false.
Proof. vm_compute. reflexivity. Qed.

(** "should detect voice note sent (complete sequence)": media transfer
    with score above 6. *)
Example whatsapp_voice_note_sent :
  detectWhatsAppActivity
    [mkEntry "mmg.whatsapp.net" 30000; mkEntry "dit.whatsapp.net" 45000;
     mkEntry "static.whatsapp.net" 60000;
     mkEntry "media-jnb2-1.cdn.whatsapp.net" 85000] =
  WhatsApp.mkActivity true true false false 17 "outgoing".
Proof. vm_compute. reflexivity. Qed.

(** "should handle empty input gracefully". *)
Example empty_input :
  WhatsApp.activityScore (detectWhatsAppActivity []) = 0 /\
  Facebook.activityScore (detectFacebookActivity []) = 0.
Proof. split; reflexivity. Qed.

End RepositoryTests.

(** * Further properties of the code *)

(** ** Stage invariants of the WhatsApp classifier *)

Section WhatsAppStages.
Variable es : list ProcessedLogEntry.

Lemma waIncomingCall_stage :
  waKept (waIncomingCall es WhatsApp.initial) /\
  waUpper1 (waIncomingCall es WhatsApp.initial).
Proof.
  unfold waKept, waUpper1, waIncomingCall. wa_explore; close_case.
Qed.

Lemma waVoiceNote_stage : forall st,
  waKept st -> waUpper1 st ->
  waKept (waVoiceNote es st) /\ waUpper2 (waVoiceNote es st).
Proof. wa_stage waVoiceNote. Qed.

Lemma waTextMessage_stage : forall st,
  waKept st -> waUpper2 st ->
  waKept (waTextMessage es st) /\ waUpper3 (waTextMessage es st).
Proof. wa_stage waTextMessage. Qed.

Lemma waMediaSent_stage : forall st,
  waKept st -> waUpper3 st ->
  waKept (waMediaSent es st) /\ waUpper4 es (waMediaSent es st).
Proof. wa_stage waMediaSent. Qed.

Lemma waVoiceNoteReceived_stage : forall st,
  waKept st -> waUpper4 es st ->
  waKept (waVoiceNoteReceived es st) /\ waUpper5 es (waVoiceNoteReceived es st).
Proof. wa_stage waVoiceNoteReceived. Qed.

Lemma waMediaReceived_stage : forall st,
  waKept st -> waUpper5 es st ->
  waKept (waMediaReceived es st) /\ waUpper6 (waMediaReceived es st).
Proof. wa_stage waMediaReceived. Qed.

Lemma waLastSections_stage : forall st,
  waKept st -> waUpper6 st ->
  waResultOk (waMinimalScore es (waPersistentConnection st)) /\
  (waHasCore es || waHasSignalling es = true ->
   1 <= WhatsApp.activityScore (waMinimalScore es (waPersistentConnection st))).
Proof.
  intros st; destruct st as [text media voice video score dir];
  unfold waKept, waUpper6, waResultOk, waMinimalScore, waPersistentConnection;
  cbv zeta; wa_cbn; intros.
  wa_explore; bool_facts; close_case.
Qed.

Lemma initial_waResultOk : waResultOk WhatsApp.initial.
Proof. unfold waResultOk; wa_cbn; close_case. Qed.

(** The sections of the classifier in the order of [waClassify]. *)
Lemma waSections_ok :
  let r := waMinimalScore es
             (waPersistentConnection
               (waMediaReceived es
                 (waVoiceNoteReceived es
                   (waMediaSent es
                     (waTextMessage es
                       (waVoiceNote es (waIncomingCall es WhatsApp.initial))))))) in
  waResultOk r /\
  (waHasCore es || waHasSignalling es = true -> 1 <= WhatsApp.activityScore r).
Proof.
  cbv zeta.
  destruct waIncomingCall_stage as [K1 U1].
  destruct (waVoiceNote_stage _ K1 U1) as [K2 U2].
  destruct (waTextMessage_stage _ K2 U2) as [K3 U3].
  destruct (waMediaSent_stage _ K3 U3) as [K4 U4].
  destruct (waVoiceNoteReceived_stage _ K4 U4) as [K5 U5].
  destruct (waMediaReceived_stage _ K5 U5) as [K6 U6].
  exact (waLastSections_stage _ K6 U6).
Qed.

Lemma waClassify_ok : waResultOk (waClassify es).
Proof.
  unfold waClassify. cbv zeta.
  destruct (negb (waHasCore es) && negb (waHasSignalling es));
    [exact initial_waResultOk|].
  destruct (someIncludes es "-netseer-ipaddr-assoc." && _);
    [exact initial_waResultOk|].
  exact (proj1 waSections_ok).
Qed.
End WhatsAppStages.

(** ** Stage invariants of the Facebook classifier *)

Section FacebookStages.
Variable es : list ProcessedLogEntry.

Lemma fbCallDetection_stage :
  fbKept (fbCallDetection es Facebook.initial) /\
  fbUpper1 (fbCallDetection es Facebook.initial).
Proof.
  unfold fbKept, fbUpper1, fbCallDetection, b2z. cbv zeta.
  fb_explore; close_case.
Qed.

Lemma fbTextSent_stage : forall st,
  fbKept st -> fbUpper1 st ->
  fbKept (fbTextSent es st) /\ fbUpper2 es (fbTextSent es st).
Proof. fb_stage fbTextSent. Qed.

Lemma fbMediaExchange_stage : forall st,
  fbKept st -> fbUpper2 es st ->
  fbKept (fbMediaExchange es st) /\ fbUpper3 (fbMediaExchange es st).
Proof. fb_stage fbMediaExchange. Qed.

Lemma fbApiMessaging_stage : forall st,
  fbKept st -> fbUpper3 st ->
  fbKept (fbApiMessaging es st) /\ fbUpper3 (fbApiMessaging es st).
Proof. fb_stage fbApiMessaging. Qed.

Lemma fbIsolatedNotification_stage : forall st,
  fbKept st -> fbUpper3 st ->
  fbKept (fbIsolatedNotification es st) /\ fbUpper3 (fbIsolatedNotification es st).
Proof. fb_stage fbIsolatedNotification. Qed.

Lemma fbMediaSent_stage : forall st,
  fbKept st -> fbUpper3 st ->
  fbKept (fbMediaSent es st) /\ fbUpper4 es (fbMediaSent es st).
Proof. fb_stage fbMediaSent. Qed.

Lemma fbMediaReceived_stage : forall st,
  fbKept st -> fbUpper4 es st ->
  fbKept (fbMediaReceived es st) /\ fbUpper5 (fbMediaReceived es st).
Proof. fb_stage fbMediaReceived. Qed.

Lemma fbInstagram_stage : forall st,
  fbKept st -> fbUpper5 st ->
  fbKept (fbInstagram es st) /\ fbUpper6 (fbInstagram es st).
Proof. fb_stage fbInstagram. Qed.

Lemma fbLastSections_stage : forall st,
  fbKept st -> fbUpper6 st ->
  fbResultOk (fbMinimalScore es (fbBackgroundRefresh es st)) /\
  (fbHasCore es = true ->
   1 <= Facebook.activityScore (fbMinimalScore es (fbBackgroundRefresh es st))).
Proof.
  intros st; destruct st as [msg media bg insta reels score call];
  unfold fbKept, fbUpper6, fbResultOk, fbMinimalScore, fbBackgroundRefresh, b2z;
  cbv zeta; fb_cbn; intros.
  fb_explore; bool_facts; close_case.
Qed.

Lemma fbLaunchExit_ok : forall st,
  fbKept st -> fbUpper1 st ->
  fbResultOk (fbSetBackground st) /\
  1 <= Facebook.activityScore (fbSetBackground st).
Proof.
  intros st; destruct st as [msg media bg insta reels score call];
  unfold fbKept, fbUpper1, fbResultOk; fb_cbn; intros; close_case.
Qed.

Lemma fbClassify_ok :
  fbResultOk (fbClassify es) /\
  (fbHasCore es = true -> 1 <= Facebook.activityScore (fbClassify es)).
Proof.
  unfold fbClassify. cbv zeta.
  destruct (fbHasCore es) eqn:Hcore; cbn [negb andb].
  2: destruct (negb (fbHasMessagingMQTT es) && negb (fbHasTextSend es) &&
               negb (fbHasMediaUpload es)).
  2: { split; [unfold fbResultOk; fb_cbn; close_case | intros H; discriminate H]. }
  all: destruct (fbHasReelsVideo es && hasNetSeerCDN es);
    [split; [unfold fbResultOk; fb_cbn; close_case | intros; cbn; lia]|].
  all: destruct (fbHasReelsVideo es && hasVideoStaticAssets es);
    [split; [unfold fbResultOk; fb_cbn; close_case | intros; cbn; lia]|].
  all: destruct fbCallDetection_stage as [K1 U1].
  all: destruct (isLikelyAppLaunch es);
    [destruct (fbLaunchExit_ok _ K1 U1); split; auto|].
  all: destruct (fbTextSent_stage _ K1 U1) as [K2 U2];
    destruct (fbMediaExchange_stage _ K2 U2) as [K3 U3];
    destruct (fbApiMessaging_stage _ K3 U3) as [K4 U4];
    destruct (fbIsolatedNotification_stage _ K4 U4) as [K5 U5];
    destruct (fbMediaSent_stage _ K5 U5) as [K6 U6];
    destruct (fbMediaReceived_stage _ K6 U6) as [K7 U7];
    destruct (fbInstagram_stage _ K7 U7) as [K8 U8];
    destruct (fbLastSections_stage _ K8 U8) as [Hok Hone];
    split; [exact Hok | intros Ht; first [discriminate Ht | apply Hone; assumption]].
Qed.
End FacebookStages.

(** ** Results of the WhatsApp classifier *)

Lemma nonEmpty_Permutation {A : Type} (l l' : list A) :
  Permutation l l' -> nonEmpty l = nonEmpty l'.
Proof. intros H. unfold nonEmpty. now rewrite (Permutation_length H). Qed.

Lemma nonEmpty_detectAPNs_sort (w : list ProcessedLogEntry) :
  nonEmpty (detectAPNs (sortByTime w)) = nonEmpty (detectAPNs w).
Proof.
  apply nonEmpty_Permutation, filter_Permutation, sortByTime_Permutation.
Qed.

Lemma nonEmpty_false_nil {A : Type} (l : list A) : nonEmpty l = false <-> l = [].
Proof. destruct l; cbn; split; intros H; congruence. Qed.

(** X1. The score of [detectWhatsAppActivity] lies between 0 and 19; it
    is at most 1 when no flag is raised and at least 4 when the text,
    media or call flag is raised, so the values 2 and 3 never occur; and
    some window reaches 19. *)
Theorem whatsapp_score_range :
  (forall windowEntries,
     let r := detectWhatsAppActivity windowEntries in
     0 <= WhatsApp.activityScore r <= 19 /\
     (WhatsApp.isTextMessage r = false /\ WhatsApp.isMediaTransfer r = false /\
      WhatsApp.isVoiceCall r = false -> WhatsApp.activityScore r <= 1) /\
     (WhatsApp.isTextMessage r = true \/ WhatsApp.isMediaTransfer r = true \/
      WhatsApp.isVoiceCall r = true -> 4 <= WhatsApp.activityScore r)) /\
  (exists windowEntries,
     WhatsApp.activityScore (detectWhatsAppActivity windowEntries) = 19).
Proof.
  split.
  - intros windowEntries. cbv zeta. unfold detectWhatsAppActivity.
    destruct (waClassify_ok (sortByTime windowEntries))
      as (Hrange & _ & _ & _ & Hmedia & Hflag & Hnone).
    split; [exact Hrange | split].
    + intros (Ht & _ & Hv). now apply Hnone.
    + intros [Ht | [Hm | Hv]]; apply Hflag; auto.
  - exists [mkEntry "1-courier.push.apple.com" 0; mkEntry "g.whatsapp.net" 2000;
            mkEntry "mmg.whatsapp.net" 3000;
            mkEntry "media-jnb2-1.cdn.whatsapp.net" 4000;
            mkEntry "static.whatsapp.net" 5000; mkEntry "dit.whatsapp.net" 6000].
    vm_compute. reflexivity.
Qed.

(** X2. Whenever [detectWhatsAppActivity] raises the media-transfer
    flag it raises the text-message flag too. *)
Theorem whatsapp_media_implies_text (windowEntries : list ProcessedLogEntry) :
  WhatsApp.isMediaTransfer (detectWhatsAppActivity windowEntries) = true ->
  WhatsApp.isTextMessage (detectWhatsAppActivity windowEntries) = true.
Proof.
  unfold detectWhatsAppActivity.
  destruct (waClassify_ok (sortByTime windowEntries))
    as (_ & _ & _ & _ & Hmedia & _).
  exact Hmedia.
Qed.

Lemma whatsapp_media_implies_text_witness :
  let w := [mkEntry "g.whatsapp.net" 45000;
            mkEntry "media-jnb2-1.cdn.whatsapp.net" 85000] in
  WhatsApp.isMediaTransfer (detectWhatsAppActivity w) = true /\
  WhatsApp.isTextMessage (detectWhatsAppActivity w) = true.
Proof.
  intros w. split; [vm_compute; reflexivity|].
  apply (whatsapp_media_implies_text w). vm_compute. reflexivity.
Defined.

(** X3. The direction returned by [detectWhatsAppActivity] is empty,
    ['incoming'] or ['outgoing']; a voice call is always incoming with a
    score of at least 8, and a direction is only given together with the
    call or the media flag. *)
Theorem whatsapp_direction (windowEntries : list ProcessedLogEntry) :
  let r := detectWhatsAppActivity windowEntries in
  (WhatsApp.callDirection r = "" \/ WhatsApp.callDirection r = "incoming" \/
   WhatsApp.callDirection r = "outgoing") /\
  (WhatsApp.isVoiceCall r = true ->
   WhatsApp.callDirection r = "incoming" /\ 8 <= WhatsApp.activityScore r) /\
  (WhatsApp.callDirection r <> "" ->
   WhatsApp.isVoiceCall r = true \/ WhatsApp.isMediaTransfer r = true).
Proof.
  cbv zeta. unfold detectWhatsAppActivity.
  destruct (waClassify_ok (sortByTime windowEntries))
    as (_ & Hdir & Hvoice & Hempty & _).
  split; [exact Hdir | split; [exact Hvoice|]].
  intros Hne.
  destruct (WhatsApp.isVoiceCall _) eqn:Hv; [now left|].
  destruct (WhatsApp.isMediaTransfer _) eqn:Hm; [now right|].
  exfalso. apply Hne. now apply Hempty.
Qed.

Lemma whatsapp_direction_witness :
  let w := [mkEntry "1-courier2.push.apple.com" 0; mkEntry "g.whatsapp.net" 3000] in
  WhatsApp.isVoiceCall (detectWhatsAppActivity w) = true /\
  WhatsApp.callDirection (detectWhatsAppActivity w) = "incoming" /\
  8 <= WhatsApp.activityScore (detectWhatsAppActivity w).
Proof.
  intros w. split; [vm_compute; reflexivity|].
  apply (proj1 (proj2 (whatsapp_direction w))). vm_compute. reflexivity.
Defined.

(** X4. The score of [detectWhatsAppActivity] is 0 exactly when the
    window has no WhatsApp core or signalling domain, or has a NetSeer
    CDN domain with neither a push entry nor an upload-gateway domain;
    the result is then the all-false one. *)
Theorem whatsapp_zero_score (windowEntries : list ProcessedLogEntry) :
  let r := detectWhatsAppActivity windowEntries in
  (WhatsApp.activityScore r = 0 <->
   (waHasCore windowEntries = false /\ waHasSignalling windowEntries = false) \/
   (someIncludes windowEntries "-netseer-ipaddr-assoc." = true /\
    detectAPNs windowEntries = [] /\ waHasMediaUpload windowEntries = false)) /\
  (WhatsApp.activityScore r = 0 -> r = WhatsApp.initial).
Proof.
  cbv zeta. unfold detectWhatsAppActivity, waClassify. cbv zeta.
  pose proof (proj2 (waSections_ok (sortByTime windowEntries))) as Hone.
  cbv zeta in Hone. revert Hone.
  set (sections := waMinimalScore _ _).
  unfold waHasCore, waHasSignalling, waHasMediaUpload, waApnsEntries.
  rewrite !hasDomainPattern_sort, someIncludes_sort, nonEmpty_detectAPNs_sort.
  fold (waHasCore windowEntries) (waHasSignalling windowEntries)
       (waHasMediaUpload windowEntries).
  intros Hone.
  destruct (waHasCore windowEntries) eqn:Hc;
    destruct (waHasSignalling windowEntries) eqn:Hs; cbn [negb andb orb] in *.
  4: { split; [|reflexivity]. split; [intros _; now left | reflexivity]. }
  all: specialize (Hone eq_refl).
  all: destruct (someIncludes windowEntries "-netseer-ipaddr-assoc.") eqn:Hn;
    cbn [andb].
  all: destruct (nonEmpty (detectAPNs windowEntries)) eqn:Ha; cbn [orb negb].
  all: try (destruct (waHasMediaUpload windowEntries) eqn:Hu; cbn [negb]).
  all: try apply nonEmpty_false_nil in Ha.
  all: try (split; [|reflexivity]; split; [intros _; right; auto | reflexivity]).
  all: split; [split|]; intros H; try lia.
  all: destruct H as [[H1 H2] | (H1 & H2 & H3)]; try discriminate.
  all: try (rewrite H2 in Ha; discriminate).
Qed.

Lemma find_none_of_false {A : Type} (f : A -> bool) (l : list A) :
  (forall x, In x l -> f x = false) -> find f l = None.
Proof.
  induction l as [|a l IH]; cbn; intros H; [reflexivity|].
  rewrite (H a (or_introl eq_refl)). apply IH. intros x Hx. apply H. now right.
Qed.

(** X5. Signalling alone is never classified: for a window with a
    signalling domain but no push entry, no [graph.whatsapp.com], no
    upload-gateway and no media-CDN domain, [detectWhatsAppActivity]
    returns every flag false (the keep-alive case), with score 1, or 0
    when the window also has a NetSeer CDN domain. *)
Theorem whatsapp_keep_alive (windowEntries : list ProcessedLogEntry) :
  waHasSignalling windowEntries = true ->
  detectAPNs windowEntries = [] ->
  hasDomainPattern windowEntries ["graph.whatsapp.com"] = false ->
  waHasMediaUpload windowEntries = false ->
  waHasMediaDownload windowEntries = false ->
  detectWhatsAppActivity windowEntries =
    WhatsApp.mkActivity false false false false
      (if someIncludes windowEntries "-netseer-ipaddr-assoc." then 0 else 1) "".
Proof.
  intros Hsig Hapns Hgraph Hup Hdown.
  unfold detectWhatsAppActivity, waClassify.
  set (es := sortByTime windowEntries).
  assert (Es : waHasSignalling es = true)
    by (unfold waHasSignalling, es; now rewrite hasDomainPattern_sort).
  assert (Ea : waApnsEntries es = [])
    by (apply detectAPNs_sort_nil; exact Hapns).
  assert (Eg : hasDomainPattern es ["graph.whatsapp.com"] = false)
    by (unfold es; now rewrite hasDomainPattern_sort).
  assert (Eu : waHasMediaUpload es = false)
    by (unfold waHasMediaUpload, es; now rewrite hasDomainPattern_sort).
  assert (Ed : waHasMediaDownload es = false)
    by (unfold waHasMediaDownload, es; now rewrite hasDomainPattern_sort).
  assert (Ecdn : forall e, In e es -> isWhatsAppMediaCDN e = false).
  { intros e He. unfold isWhatsAppMediaCDN.
    rewrite (hasDomainPattern_false_In es _ e "media-" Ed He); [reflexivity|].
    simpl; auto. }
  assert (Efind : find (fun s => nonEmpty (laterMediaCDN es s))
                       (filter isSignalling es) = None).
  { apply find_none_of_false. intros s _. unfold laterMediaCDN.
    rewrite filter_nil_of_false; [reflexivity|].
    intros e He. unfold findEntriesInWindow in He.
    apply filter_In in He as [He _]. now rewrite (Ecdn e He). }
  rewrite Es, andb_false_r, Ea, Eu. cbv zeta. cbn [nonEmpty length Nat.eqb negb orb].
  unfold es at 1. rewrite someIncludes_sort. fold es.
  destruct (someIncludes windowEntries "-netseer-ipaddr-assoc."); cbn [andb negb];
    [reflexivity|].
  unfold waIncomingCall. rewrite Ea. cbn [existsb].
  unfold waVoiceNote. rewrite Es, Efind.
  cbn [WhatsApp.isVoiceCall WhatsApp.initial negb andb].
  unfold waTextMessage. rewrite Ea, Es, Eg, Eu. cbv zeta.
  cbn [WhatsApp.isVoiceCall WhatsApp.isMediaTransfer WhatsApp.initial negb andb
       nonEmpty length Nat.eqb].
  rewrite !andb_false_r. cbn [andb].
  unfold waMediaSent. rewrite Eu.
  unfold waVoiceNoteReceived. rewrite Ea. cbn [existsb].
  cbn [WhatsApp.isVoiceCall WhatsApp.isMediaTransfer WhatsApp.initial negb andb].
  unfold waMediaReceived. rewrite Ed. cbn [andb].
  unfold waPersistentConnection.
  cbn [WhatsApp.isMediaTransfer WhatsApp.initial andb].
  unfold waMinimalScore. rewrite Es, orb_true_r. reflexivity.
Qed.

Lemma whatsapp_keep_alive_witness :
  let w := [mkEntry "g.whatsapp.net" 0; mkEntry "g.whatsapp.net" 180000;
            mkEntry "g.whatsapp.net" 360000] in
  detectWhatsAppActivity w = WhatsApp.mkActivity false false false false 1 "".
Proof.
  intros w. apply (whatsapp_keep_alive w); reflexivity.
Defined.

(** ** Flags of the WhatsApp classifier need WhatsApp evidence *)

Lemma nonEmpty_true_In {A : Type} (l : list A) :
  nonEmpty l = true -> exists x, In x l.
Proof. destruct l as [|x l]; [discriminate | intros _; exists x; now left]. Qed.

Lemma signalling_in_window (es : list ProcessedLogEntry) (t b a : Z) :
  nonEmpty (filter isSignalling (findEntriesInWindow es t b a)) = true ->
  waHasSignalling es = true.
Proof.
  intros H. apply nonEmpty_true_In in H as [x Hx].
  apply filter_In in Hx as [Hx Hs].
  unfold findEntriesInWindow in Hx. apply filter_In in Hx as [Hx _].
  apply existsb_exists. now exists x.
Qed.

Section WhatsAppEvidence.
Variable es : list ProcessedLogEntry.

Ltac wa_evidence f :=
  intros st; destruct st as [text media voice video score dir];
  unfold waEvidence, f; cbv zeta; wa_cbn; intros Hst;
  wa_explore; bool_facts; close_case.

Lemma waIncomingCall_evidence : waEvidence es (waIncomingCall es WhatsApp.initial).
Proof.
  unfold waEvidence, waIncomingCall.
  destruct (existsb _ _) eqn:E; wa_cbn.
  - intros _. apply existsb_exists in E as [a [_ Ha]].
    unfold apnsStartsCall in Ha. cbv zeta in Ha.
    apply andb_true_iff in Ha as [Ha _].
    now rewrite (signalling_in_window _ _ _ _ Ha).
  - intros [H | [H | H]]; discriminate.
Qed.

Lemma waVoiceNote_evidence : forall st,
  waEvidence es st -> waEvidence es (waVoiceNote es st).
Proof. wa_evidence waVoiceNote. Qed.

Lemma waTextMessage_evidence : forall st,
  waEvidence es st -> waEvidence es (waTextMessage es st).
Proof. wa_evidence waTextMessage. Qed.

Lemma waMediaSent_evidence : forall st,
  waEvidence es st -> waEvidence es (waMediaSent es st).
Proof. wa_evidence waMediaSent. Qed.

Lemma waVoiceNoteReceived_evidence : forall st,
  waEvidence es st -> waEvidence es (waVoiceNoteReceived es st).
Proof.
  intros st Hst. unfold waVoiceNoteReceived.
  destruct (negb _ && negb _); [|exact Hst].
  destruct (existsb _ _) eqn:E; [|exact Hst].
  intros _. apply existsb_exists in E as [a [_ Ha]].
  unfold apnsVoiceNoteReceived in Ha. cbv zeta in Ha.
  apply andb_true_iff in Ha as [Ha _].
  now rewrite (signalling_in_window _ _ _ _ Ha).
Qed.

Lemma waMediaReceived_evidence : forall st,
  waEvidence es st -> waEvidence es (waMediaReceived es st).
Proof. wa_evidence waMediaReceived. Qed.

Lemma waPersistentConnection_evidence : forall st,
  waEvidence es st -> waEvidence es (waPersistentConnection st).
Proof. wa_evidence waPersistentConnection. Qed.

Lemma waMinimalScore_evidence : forall st,
  waEvidence es st -> waEvidence es (waMinimalScore es st).
Proof. wa_evidence waMinimalScore. Qed.

(** A raised flag means that the guard was passed and that a
    signalling, upload or media-CDN pattern matched. *)
Lemma waClassify_evidence :
  WhatsApp.isTextMessage (waClassify es) = true \/
  WhatsApp.isMediaTransfer (waClassify es) = true \/
  WhatsApp.isVoiceCall (waClassify es) = true ->
  waHasCore es || waHasSignalling es = true /\
  waHasSignalling es || waHasMediaUpload es || waHasMediaDownload es = true.
Proof.
  unfold waClassify. cbv zeta.
  destruct (waHasCore es) eqn:Hc; destruct (waHasSignalling es) eqn:Hs;
    cbn [negb andb orb].
  4: intros [H | [H | H]]; discriminate.
  all: destruct (someIncludes es "-netseer-ipaddr-assoc." && _);
    [intros [H | [H | H]]; discriminate|].
  all: intros H; split; [reflexivity|].
  all: pose proof (waMinimalScore_evidence _
         (waPersistentConnection_evidence _
           (waMediaReceived_evidence _
             (waVoiceNoteReceived_evidence _
               (waMediaSent_evidence _
                 (waTextMessage_evidence _
                   (waVoiceNote_evidence _ waIncomingCall_evidence))))))) as He.
  all: unfold waEvidence in He; specialize (He H).
  all: rewrite ?Hs in He; exact He.
Qed.
End WhatsAppEvidence.

Lemma matchesDomain_of_window (w : list ProcessedLogEntry)
  (domains patterns targets : list string) :
  incl (map domain w) domains ->
  hasDomainPattern w patterns = true ->
  forallb (fun p => existsb (fun q => includes p q) targets) patterns = true ->
  matchesDomain domains targets = true.
Proof.
  intros Hincl Hhas Hall.
  apply existsb_exists in Hhas as [e [He Hm]].
  apply existsb_exists in Hm as [p [Hp Hi]].
  rewrite forallb_forall in Hall. specialize (Hall p Hp).
  apply existsb_exists in Hall as [q [Hq Hpq]].
  apply existsb_exists. exists (domain e). split.
  - apply Hincl, in_map, He.
  - apply existsb_exists. exists q. split; [exact Hq|].
    exact (includes_trans _ _ _ Hi Hpq).
Qed.

Lemma whatsapp_flag_tables (windowEntries : list ProcessedLogEntry)
  (domains : list string) :
  incl (map domain windowEntries) domains ->
  WhatsApp.isTextMessage (detectWhatsAppActivity windowEntries) = true \/
  WhatsApp.isMediaTransfer (detectWhatsAppActivity windowEntries) = true \/
  WhatsApp.isVoiceCall (detectWhatsAppActivity windowEntries) = true ->
  matchesDomain domains REAL_CHAT_INDICATORS.whatsapp.core = true /\
  matchesDomain domains REAL_CHAT_INDICATORS.whatsapp.messaging
  || matchesDomain domains REAL_CHAT_INDICATORS.whatsapp.api = true.
Proof.
  intros Hincl Hflag. unfold detectWhatsAppActivity in Hflag.
  apply waClassify_evidence in Hflag as [Hguard Hev].
  unfold waHasCore, waHasSignalling, waHasMediaUpload, waHasMediaDownload
    in Hguard, Hev.
  repeat rewrite hasDomainPattern_sort in Hguard.
  repeat rewrite hasDomainPattern_sort in Hev.
  assert (Hcore : matchesDomain domains REAL_CHAT_INDICATORS.whatsapp.core = true).
  { apply orb_true_iff in Hguard as [H | H];
      apply (matchesDomain_of_window windowEntries domains _ _ Hincl H);
      reflexivity. }
  assert (Hmsg : matchesDomain domains REAL_CHAT_INDICATORS.whatsapp.messaging
                 || matchesDomain domains REAL_CHAT_INDICATORS.whatsapp.api = true).
  { apply orb_true_iff.
    apply orb_true_iff in Hev as [H | H]; [apply orb_true_iff in H as [H | H]|].
    - (* signalling: one of the three patterns *)
      apply existsb_exists in H as [e [He Hm]].
      apply existsb_exists in Hm as [p [Hp Hi]].
      assert (Hd : In (domain e) domains) by (apply Hincl, in_map, He).
      destruct Hp as [<- | [<- | [<- | []]]].
      + left. apply existsb_exists. exists (domain e). split; [exact Hd|].
        apply existsb_exists. exists "g.whatsapp.net". split; [simpl; auto | exact Hi].
      + right. apply existsb_exists. exists (domain e). split; [exact Hd|].
        apply existsb_exists. exists "graph.whatsapp.com".
        split; [simpl; auto | exact Hi].
      + left. apply existsb_exists. exists (domain e). split; [exact Hd|].
        apply existsb_exists. exists "dit.whatsapp.net".
        split; [simpl; auto 10 | exact Hi].
    - left. apply (matchesDomain_of_window windowEntries domains _ _ Hincl H).
      reflexivity.
    - left. apply (matchesDomain_of_window windowEntries domains _ _ Hincl H).
      reflexivity. }
  now split.
Qed.

Lemma detectRealChat_whatsapp (domains : list string) :
  matchesDomain domains REAL_CHAT_INDICATORS.whatsapp.core = true ->
  matchesDomain domains REAL_CHAT_INDICATORS.whatsapp.messaging
  || matchesDomain domains REAL_CHAT_INDICATORS.whatsapp.api = true ->
  isRealChat (detectRealChat domains) = true.
Proof.
  intros Hcore Hmsg.
  unfold detectRealChat. cbv zeta. cbn [isRealChat]. rewrite Hcore.
  destruct (matchesDomain domains REAL_CHAT_INDICATORS.whatsapp.messaging);
    cbn [andb orb] in *.
  - now rewrite orb_true_r.
  - rewrite Hmsg.
    destruct (matchesDomain domains REAL_CHAT_INDICATORS.facebook.core);
      destruct (matchesDomain domains REAL_CHAT_INDICATORS.facebook.messaging);
      destruct (matchesDomain domains REAL_CHAT_INDICATORS.facebook.realtime);
      reflexivity.
Qed.

(** X6. In [calculateTimeWindowStats] the chat detector sees the
    domains of the window that the WhatsApp classifier sees: whenever
    [detectWhatsAppActivity] raises the text, media or call flag on a
    window, [detectRealChat] on a domain list that holds the window's
    domains reports real chat. *)
Theorem whatsapp_flag_is_real_chat (windowEntries : list ProcessedLogEntry)
  (domains : list string) :
  incl (map domain windowEntries) domains ->
  WhatsApp.isTextMessage (detectWhatsAppActivity windowEntries) = true \/
  WhatsApp.isMediaTransfer (detectWhatsAppActivity windowEntries) = true \/
  WhatsApp.isVoiceCall (detectWhatsAppActivity windowEntries) = true ->
  isRealChat (detectRealChat domains) = true.
Proof.
  intros Hincl Hflag.
  destruct (whatsapp_flag_tables windowEntries domains Hincl Hflag)
    as [Hcore Hmsg].
  apply detectRealChat_whatsapp; assumption.
Qed.

Lemma whatsapp_flag_is_real_chat_witness :
  let w := [mkEntry "whatsapp.com" 0; mkEntry "media-cpt1-1.example.net" 1000] in
  isRealChat (detectRealChat ["whatsapp.com"; "media-cpt1-1.example.net"]) = true.
Proof.
  intros w.
  apply (whatsapp_flag_is_real_chat w).
  - intros d Hd. exact Hd.
  - left. vm_compute. reflexivity.
Defined.

(** ** Results of the Facebook classifier *)

(** X7. [detectFacebookActivity] raises the media-transfer flag only
    together with the messaging flag: media alone is never reported. *)
Theorem facebook_media_implies_messaging (windowEntries : list ProcessedLogEntry) :
  Facebook.isMediaTransfer (detectFacebookActivity windowEntries) = true ->
  Facebook.isMessaging (detectFacebookActivity windowEntries) = true.
Proof.
  unfold detectFacebookActivity.
  destruct (fbClassify_ok (sortByTime windowEntries)) as [(_ & Hmedia & _) _].
  exact Hmedia.
Qed.

Lemma facebook_media_implies_messaging_witness :
  let w := [mkEntry "rupload.facebook.com" 14142;
            mkEntry "chat-e2ee.facebook.com" 4666;
            mkEntry "graph.facebook.com" 3684] in
  Facebook.isMediaTransfer (detectFacebookActivity w) = true /\
  Facebook.isMessaging (detectFacebookActivity w) = true.
Proof.
  intros w. split; [vm_compute; reflexivity|].
  apply (facebook_media_implies_messaging w). vm_compute. reflexivity.
Defined.

(** X8. A result of [detectFacebookActivity] with the background-refresh
    flag has neither the messaging nor the media flag, and its score is
    1, or 3 with the reels flag. *)
Theorem facebook_background_excludes_messaging
  (windowEntries : list ProcessedLogEntry) :
  Facebook.isBackgroundRefresh (detectFacebookActivity windowEntries) = true ->
  Facebook.isMessaging (detectFacebookActivity windowEntries) = false /\
  Facebook.isMediaTransfer (detectFacebookActivity windowEntries) = false /\
  (Facebook.activityScore (detectFacebookActivity windowEntries) = 1 \/
   (Facebook.isReelsScrolling (detectFacebookActivity windowEntries) = true /\
    Facebook.activityScore (detectFacebookActivity windowEntries) = 3)).
Proof.
  unfold detectFacebookActivity.
  destruct (fbClassify_ok (sortByTime windowEntries)) as [(_ & _ & Hbg & _) _].
  exact Hbg.
Qed.

Lemma facebook_background_excludes_messaging_witness :
  let w := [mkEntry "edge-mqtt.facebook.com" 0] in
  Facebook.isBackgroundRefresh (detectFacebookActivity w) = true /\
  Facebook.isMessaging (detectFacebookActivity w) = false /\
  Facebook.activityScore (detectFacebookActivity w) = 1.
Proof.
  intros w. split; [vm_compute; reflexivity|].
  destruct (facebook_background_excludes_messaging w) as (Hm & _ & _).
  - vm_compute. reflexivity.
  - split; [exact Hm | vm_compute; reflexivity].
Defined.

(** X9. The score of [detectFacebookActivity] lies between 0 and 22 and
    is at least 4 whenever the messaging flag is raised; some window
    reaches 22. *)
Theorem facebook_score_range :
  (forall windowEntries,
     0 <= Facebook.activityScore (detectFacebookActivity windowEntries) <= 22 /\
     (Facebook.isMessaging (detectFacebookActivity windowEntries) = true ->
      4 <= Facebook.activityScore (detectFacebookActivity windowEntries))) /\
  (exists windowEntries,
     Facebook.activityScore (detectFacebookActivity windowEntries) = 22).
Proof.
  split.
  - intros windowEntries. unfold detectFacebookActivity.
    destruct (fbClassify_ok (sortByTime windowEntries)) as [(Hr & _ & _ & Hm) _].
    split; assumption.
  - exists [mkEntry "external.xx.fbcdn.net" 0; mkEntry "rupload.facebook.com" 1000;
            mkEntry "edge-mqtt.facebook.com" 2000; mkEntry "instagram.com" 3000;
            mkEntry "chat-e2ee.facebook.com" 4000;
            mkEntry "scontent.xx.fbcdn.net" 5000].
    vm_compute. reflexivity.
Qed.

Lemma fbGuard_closed_iff (w : list ProcessedLogEntry) :
  negb (fbHasCore w) && negb (fbHasMessagingMQTT w) && negb (fbHasTextSend w) &&
  negb (fbHasMediaUpload w) = negb (fbHasCore w).
Proof.
  destruct (fbHasCore w) eqn:Hcore; [reflexivity|].
  unfold fbHasMessagingMQTT, fbHasTextSend, fbHasMediaUpload.
  rewrite !(no_facebook_core_no_pattern w _ Hcore) by reflexivity.
  reflexivity.
Qed.

(** X10. The score of [detectFacebookActivity] is 0 exactly when no
    domain of the window contains [facebook.com], [messenger.com] or
    [instagram.com]; the result is then the all-false one. *)
Theorem facebook_zero_score (windowEntries : list ProcessedLogEntry) :
  (Facebook.activityScore (detectFacebookActivity windowEntries) = 0 <->
   fbHasCore windowEntries = false) /\
  (fbHasCore windowEntries = false ->
   detectFacebookActivity windowEntries = Facebook.initial).
Proof.
  assert (Hsort : fbHasCore (sortByTime windowEntries) = fbHasCore windowEntries)
    by apply hasDomainPattern_sort.
  assert (Hclosed : fbHasCore windowEntries = false ->
                    detectFacebookActivity windowEntries = Facebook.initial).
  { intros Hcore. unfold detectFacebookActivity, fbClassify.
    rewrite fbGuard_closed_iff, Hsort, Hcore. reflexivity. }
  split; [split|exact Hclosed].
  - intros Hzero. destruct (fbHasCore windowEntries) eqn:Hcore; [|reflexivity].
    unfold detectFacebookActivity in Hzero.
    destruct (fbClassify_ok (sortByTime windowEntries)) as [_ Hone].
    rewrite Hsort in Hone. specialize (Hone eq_refl). lia.
  - intros Hcore. now rewrite (Hclosed Hcore).
Qed.

(** X11. [detectFacebookActivity] raises the reels flag exactly when a
    domain of the window contains [facebook.com], [messenger.com] or
    [instagram.com] and the window holds a NetSeer CDN domain or a
    domain with both [static-] and [.xx.fbcdn.net]. *)
Theorem facebook_reels_iff (windowEntries : list ProcessedLogEntry) :
  Facebook.isReelsScrolling (detectFacebookActivity windowEntries) = true <->
  fbHasCore windowEntries = true /\
  hasNetSeerCDN windowEntries || hasVideoStaticAssets windowEntries = true.
Proof.
  unfold detectFacebookActivity, fbClassify. cbv zeta.
  rewrite fbGuard_closed_iff.
  assert (Hsort : fbHasCore (sortByTime windowEntries) = fbHasCore windowEntries)
    by apply hasDomainPattern_sort.
  rewrite <- Hsort. clear Hsort.
  rewrite <- (hasNetSeerCDN_sort windowEntries).
  rewrite <- (hasVideoStaticAssets_sort windowEntries).
  set (es := sortByTime windowEntries).
  destruct (fbHasCore es); cbn [negb].
  2: { split; [discriminate | intros [H _]; discriminate H]. }
  destruct (hasNetSeerCDN es) eqn:Hnet.
  { rewrite (netSeer_is_reelsVideo _ Hnet). cbn. split; auto. }
  rewrite andb_false_r.
  destruct (hasVideoStaticAssets es) eqn:Hstatic.
  { rewrite (staticAssets_is_reelsVideo _ Hstatic). cbn. split; auto. }
  rewrite andb_false_r, fb_rest_not_reels. cbn.
  split; [discriminate | intros [_ H]; discriminate H].
Qed.

(** ** The lists and the score of the relationship concern scorer *)

Lemma detect_lists (domains : list string) :
  let r := detectRelationshipConcerns domains in
  datingApps r =
    collectCategory RELATIONSHIP_CONCERN_INDICATORS.datingApps domains [] /\
  alternativeMessaging r =
    collectCategory RELATIONSHIP_CONCERN_INDICATORS.alternativeMessaging domains [] /\
  videoCalling r =
    collectCategory RELATIONSHIP_CONCERN_INDICATORS.videoCalling domains [] /\
  socialMessaging r =
    collectCategory RELATIONSHIP_CONCERN_INDICATORS.socialMessaging domains [] /\
  anonymousPlatforms r =
    collectCategory RELATIONSHIP_CONCERN_INDICATORS.anonymousPlatforms domains [].
Proof.
  cbv zeta. unfold detectRelationshipConcerns, collectConcerns.
  cbn [datingApps alternativeMessaging videoCalling socialMessaging
       anonymousPlatforms].
  exact (collectConcerns_fields domains (mkConcernLists [] [] [] [] [])).
Qed.

Lemma collectCategory_exact (table domains : list string) :
  exactMatches (collectCategory table domains []) table domains.
Proof.
  split.
  - apply collectCategory_NoDup. constructor.
  - intros p. rewrite collectCategory_In. simpl. tauto.
Qed.

(** X12. Each of the five lists returned by [detectRelationshipConcerns]
    is duplicate-free and holds exactly the patterns of its table that
    occur in some domain outside the exclusion list. *)
Theorem concern_lists_exact (domains : list string) :
  let r := detectRelationshipConcerns domains in
  exactMatches (datingApps r) RELATIONSHIP_CONCERN_INDICATORS.datingApps domains /\
  exactMatches (alternativeMessaging r)
    RELATIONSHIP_CONCERN_INDICATORS.alternativeMessaging domains /\
  exactMatches (videoCalling r) RELATIONSHIP_CONCERN_INDICATORS.videoCalling domains /\
  exactMatches (socialMessaging r)
    RELATIONSHIP_CONCERN_INDICATORS.socialMessaging domains /\
  exactMatches (anonymousPlatforms r)
    RELATIONSHIP_CONCERN_INDICATORS.anonymousPlatforms domains.
Proof.
  cbv zeta. destruct (detect_lists domains) as (-> & -> & -> & -> & ->).
  split; [|split; [|split; [|split]]]; apply collectCategory_exact.
Qed.

Lemma isMatched_same_members (ds1 ds2 : list string) (p : string) :
  (forall d, In d ds1 <-> In d ds2) -> isMatched ds1 p = isMatched ds2 p.
Proof.
  intros H. apply eq_true_iff_eq. rewrite !isMatched_spec.
  split; intros [d [Hd Hrest]]; exists d; split; auto; now apply H.
Qed.

(** X13. The score of [detectRelationshipConcerns] depends on the set of
    domains only: two lists with the same members, in any order and with
    any repetitions, get the same score. *)
Theorem concern_score_order_independent (domains1 domains2 : list string) :
  (forall d, In d domains1 <-> In d domains2) ->
  concernScore (detectRelationshipConcerns domains1) =
  concernScore (detectRelationshipConcerns domains2).
Proof.
  intros H. rewrite !concernScore_weighted. unfold weightedConcernScore, distinctMatches.
  now rewrite !(filter_ext _ _ (fun p => isMatched_same_members _ _ p H)).
Qed.

Lemma concern_score_order_independent_witness :
  concernScore (detectRelationshipConcerns
                  ["api.tinder.com"; "web.telegram.org"; "api.tinder.com"]) =
  concernScore (detectRelationshipConcerns ["web.telegram.org"; "api.tinder.com"]).
Proof.
  apply (concern_score_order_independent
           ["api.tinder.com"; "web.telegram.org"; "api.tinder.com"]
           ["web.telegram.org"; "api.tinder.com"]).
  intros d. simpl. tauto.
Defined.

Lemma filter_length_le_pointwise {A : Type} (f g : A -> bool) (l : list A) :
  (forall x, f x = true -> g x = true) ->
  (length (filter f l) <= length (filter g l))%nat.
Proof.
  intros H. induction l as [|a l IH]; cbn; [lia|].
  destruct (f a) eqn:Hf.
  - rewrite (H a Hf). cbn. lia.
  - destruct (g a); cbn; lia.
Qed.

Lemma distinctMatches_grows (table domains more : list string) :
  (length (distinctMatches table domains) <=
   length (distinctMatches table (domains ++ more)))%nat.
Proof.
  apply filter_length_le_pointwise. intros p. rewrite !isMatched_spec.
  intros [d [Hd Hrest]]. exists d. split; [apply in_or_app; now left | exact Hrest].
Qed.

(** X14. Further domains never lower the concern score. *)
Theorem concern_score_monotone (domains more : list string) :
  concernScore (detectRelationshipConcerns domains) <=
  concernScore (detectRelationshipConcerns (domains ++ more)).
Proof.
  rewrite !concernScore_weighted. unfold weightedConcernScore.
  pose proof (distinctMatches_grows RELATIONSHIP_CONCERN_INDICATORS.datingApps
                domains more).
  pose proof (distinctMatches_grows RELATIONSHIP_CONCERN_INDICATORS.anonymousPlatforms
                domains more).
  pose proof (distinctMatches_grows RELATIONSHIP_CONCERN_INDICATORS.alternativeMessaging
                domains more).
  pose proof (distinctMatches_grows RELATIONSHIP_CONCERN_INDICATORS.videoCalling
                domains more).
  pose proof (distinctMatches_grows RELATIONSHIP_CONCERN_INDICATORS.socialMessaging
                domains more).
  lia.
Qed.

Lemma distinctMatches_length_le (table domains : list string) :
  (length (distinctMatches table domains) <= length table)%nat.
Proof. apply filter_length_le. Qed.

Lemma filter_length_zero {A : Type} (f : A -> bool) (l : list A) :
  length (filter f l) = 0%nat <-> forall x, In x l -> f x = false.
Proof.
  split.
  - intros H x Hx. destruct (f x) eqn:Hf; [|reflexivity].
    assert (Hin : In x (filter f l)) by (apply filter_In; auto).
    destruct (filter f l); [destruct Hin | discriminate].
  - intros H. now rewrite filter_nil_of_false.
Qed.

(** X15. The concern score lies between 0 and 622, and it is 0 exactly
    when no domain outside the exclusion list contains a pattern of any
    of the five tables. *)
Theorem concern_score_range (domains : list string) :
  0 <= concernScore (detectRelationshipConcerns domains) <= 622 /\
  (concernScore (detectRelationshipConcerns domains) = 0 <->
   forall table,
     In table [RELATIONSHIP_CONCERN_INDICATORS.datingApps;
               RELATIONSHIP_CONCERN_INDICATORS.anonymousPlatforms;
               RELATIONSHIP_CONCERN_INDICATORS.alternativeMessaging;
               RELATIONSHIP_CONCERN_INDICATORS.videoCalling;
               RELATIONSHIP_CONCERN_INDICATORS.socialMessaging] ->
     forall p d, In p table -> In d domains -> isExcluded d = false ->
                 includes d p = false).
Proof.
  rewrite concernScore_weighted. unfold weightedConcernScore.
  assert (Hnone : forall table,
            length (distinctMatches table domains) = 0%nat <->
            forall p d, In p table -> In d domains -> isExcluded d = false ->
                        includes d p = false).
  { intros table. unfold distinctMatches. rewrite filter_length_zero. split.
    - intros H p d Hp Hd Hx. specialize (H p Hp).
      destruct (includes d p) eqn:Hi; [|reflexivity].
      assert (isMatched domains p = true) by (apply isMatched_spec; now exists d).
      congruence.
    - intros H p Hp. destruct (isMatched domains p) eqn:Hm; [|reflexivity].
      apply isMatched_spec in Hm as [d [Hd [Hx Hi]]].
      now rewrite (H p d Hp Hd Hx) in Hi. }
  pose proof (distinctMatches_length_le
                RELATIONSHIP_CONCERN_INDICATORS.datingApps domains) as B1.
  pose proof (distinctMatches_length_le
                RELATIONSHIP_CONCERN_INDICATORS.anonymousPlatforms domains) as B2.
  pose proof (distinctMatches_length_le
                RELATIONSHIP_CONCERN_INDICATORS.alternativeMessaging domains) as B3.
  pose proof (distinctMatches_length_le
                RELATIONSHIP_CONCERN_INDICATORS.videoCalling domains) as B4.
  pose proof (distinctMatches_length_le
                RELATIONSHIP_CONCERN_INDICATORS.socialMessaging domains) as B5.
  change (length RELATIONSHIP_CONCERN_INDICATORS.datingApps) with 29%nat in B1.
  change (length RELATIONSHIP_CONCERN_INDICATORS.anonymousPlatforms) with 12%nat in B2.
  change (length RELATIONSHIP_CONCERN_INDICATORS.alternativeMessaging) with 24%nat in B3.
  change (length RELATIONSHIP_CONCERN_INDICATORS.videoCalling) with 15%nat in B4.
  change (length RELATIONSHIP_CONCERN_INDICATORS.socialMessaging) with 16%nat in B5.
  pose proof (Hnone RELATIONSHIP_CONCERN_INDICATORS.datingApps) as E1.
  pose proof (Hnone RELATIONSHIP_CONCERN_INDICATORS.anonymousPlatforms) as E2.
  pose proof (Hnone RELATIONSHIP_CONCERN_INDICATORS.alternativeMessaging) as E3.
  pose proof (Hnone RELATIONSHIP_CONCERN_INDICATORS.videoCalling) as E4.
  pose proof (Hnone RELATIONSHIP_CONCERN_INDICATORS.socialMessaging) as E5.
  clear Hnone.
  revert B1 B2 B3 B4 B5 E1 E2 E3 E4 E5.
  generalize (length (distinctMatches RELATIONSHIP_CONCERN_INDICATORS.datingApps
                        domains)).
  generalize (length (distinctMatches RELATIONSHIP_CONCERN_INDICATORS.anonymousPlatforms
                        domains)).
  generalize (length (distinctMatches RELATIONSHIP_CONCERN_INDICATORS.alternativeMessaging
                        domains)).
  generalize (length (distinctMatches RELATIONSHIP_CONCERN_INDICATORS.videoCalling
                        domains)).
  generalize (length (distinctMatches RELATIONSHIP_CONCERN_INDICATORS.socialMessaging
                        domains)).
  intros n5 n4 n3 n2 n1 B1 B2 B3 B4 B5 E1 E2 E3 E4 E5.
  split; [clear E1 E2 E3 E4 E5; lia|].
  split.
  - intros Hzero table Htable.
    assert (Z1 : n1 = 0%nat) by (clear - Hzero; lia).
    assert (Z2 : n2 = 0%nat) by (clear - Hzero; lia).
    assert (Z3 : n3 = 0%nat) by (clear - Hzero; lia).
    assert (Z4 : n4 = 0%nat) by (clear - Hzero; lia).
    assert (Z5 : n5 = 0%nat) by (clear - Hzero; lia).
    destruct Htable as [<- | [<- | [<- | [<- | [<- | []]]]]].
    + exact (proj1 E1 Z1).
    + exact (proj1 E2 Z2).
    + exact (proj1 E3 Z3).
    + exact (proj1 E4 Z4).
    + exact (proj1 E5 Z5).
  - intros H.
    assert (Z1 : n1 = 0%nat) by (apply E1, H; left; reflexivity).
    assert (Z2 : n2 = 0%nat) by (apply E2, H; right; left; reflexivity).
    assert (Z3 : n3 = 0%nat) by (apply E3, H; do 2 right; left; reflexivity).
    assert (Z4 : n4 = 0%nat) by (apply E4, H; do 3 right; left; reflexivity).
    assert (Z5 : n5 = 0%nat) by (apply E5, H; do 4 right; left; reflexivity).
    clear - Z1 Z2 Z3 Z4 Z5. lia.
Qed.

(** ** The masking detector *)

Lemma Sorted_weaken {A : Type} (R R' : A -> A -> Prop) (l : list A) :
  (forall a b, R a b -> R' a b) -> Sorted R l -> Sorted R' l.
Proof.
  intros Himp Hs. induction Hs as [|a l Hs IH Hhd]; constructor; [exact IH|].
  destruct Hhd; constructor. now apply Himp.
Qed.

Section MaskingProperties.
Variable host : Host.

Lemma insertByWindow_Permutation (x : TimeWindowStats) (l : list TimeWindowStats) :
  Permutation (insertByWindow host x l) (x :: l).
Proof.
  induction l as [|y l IH]; cbn [insertByWindow]; [reflexivity|].
  destruct (windowLe host x y); [reflexivity|].
  rewrite IH. apply perm_swap.
Qed.

Lemma sortByWindow_Permutation (l : list TimeWindowStats) :
  Permutation (sortByWindow host l) l.
Proof.
  induction l as [|x l IH]; cbn; [reflexivity|].
  fold (sortByWindow host l). rewrite insertByWindow_Permutation. now constructor.
Qed.

Lemma windowLe_total (a b : TimeWindowStats) :
  collation host -> windowLe host a b = false -> windowLe host b a = true.
Proof.
  unfold windowLe. intros [Hsign _] H.
  apply Z.leb_gt in H. apply Z.leb_le.
  apply (Hsign (timeWindow b) (timeWindow a)) in H. lia.
Qed.

Lemma insertByWindow_Sorted (x : TimeWindowStats) (l : list TimeWindowStats) :
  collation host ->
  Sorted (fun a b => windowLe host a b = true) l ->
  Sorted (fun a b => windowLe host a b = true) (insertByWindow host x l).
Proof.
  intros Hcollation.
  induction l as [|y l IH]; intros Hs; cbn [insertByWindow].
  - repeat constructor.
  - destruct (windowLe host x y) eqn:Hxy.
    + constructor; [exact Hs | now constructor].
    + inversion Hs as [|? ? Hs' Hhd]; subst.
      constructor; [now apply IH|].
      destruct l as [|z l]; cbn [insertByWindow].
      * constructor. now apply windowLe_total.
      * destruct (windowLe host x z).
        -- constructor. now apply windowLe_total.
        -- inversion Hhd; subst. now constructor.
Qed.

Lemma sortByWindow_Sorted (l : list TimeWindowStats) :
  collation host ->
  Sorted (fun a b => windowLe host a b = true) (sortByWindow host l).
Proof.
  intros Hcollation. induction l as [|x l IH]; cbn; [constructor|].
  now apply insertByWindow_Sorted.
Qed.

Lemma map_snd_indexed {A : Type} (l : list A) : map snd (indexed l) = l.
Proof.
  unfold indexed. generalize 0%nat.
  induction l as [|a l IH]; intros n; cbn; [reflexivity|]. now rewrite IH.
Qed.

Lemma baseStats_maskWindow (sortedStats : list TimeWindowStats) (index : nat)
  (stat : TimeWindowStats) :
  baseStats (maskWindow host sortedStats index stat) = stat.
Proof.
  unfold maskWindow. destruct (hasStrongMessagingEvidence stat); [|reflexivity].
  cbv zeta. now destruct (_ || _).
Qed.

(** X16. On every host, [detectReelsMasking] returns one record for
    each window it is given: the windows under the records are a
    permutation of the input and the result has the length of the
    input; and when the host's [localeCompare] is a collation the
    windows are in ascending order of their keys under it, each key
    being at most the next one. *)
Theorem masking_keeps_windows (timeWindowStats : list TimeWindowStats) :
  let windows := map baseStats (detectReelsMasking host timeWindowStats) in
  Permutation windows timeWindowStats /\
  length (detectReelsMasking host timeWindowStats) = length timeWindowStats /\
  (collation host ->
   Sorted (fun a b => localeCompare host (timeWindow a) (timeWindow b) <= 0)
     windows).
Proof.
  cbv zeta.
  assert (Hmap : map baseStats (detectReelsMasking host timeWindowStats) =
                 sortByWindow host timeWindowStats).
  { unfold detectReelsMasking. cbv zeta. rewrite map_map.
    rewrite (map_ext _ snd) by (intros p; apply baseStats_maskWindow).
    apply map_snd_indexed. }
  split; [|split].
  - rewrite Hmap. apply sortByWindow_Permutation.
  - rewrite <- (length_map baseStats), Hmap.
    apply Permutation_length, sortByWindow_Permutation.
  - intros Hcollation. rewrite Hmap.
    apply (Sorted_weaken (fun a b => windowLe host a b = true)).
    + intros a b H. now apply Z.leb_le.
    + now apply sortByWindow_Sorted.
Qed.

Lemma suspiciousGap_true (later earlier : option Z) :
  suspiciousGap later earlier = true ->
  exists a b, later = Some a /\ earlier = Some b /\ 60000 < a - b <= 600000.
Proof.
  unfold suspiciousGap. destruct later as [a|], earlier as [b|]; try discriminate.
  intros H. apply andb_true_iff in H as [H1 H2].
  apply Z.ltb_lt in H1. apply Z.leb_le in H2. exists a, b. repeat split; lia.
Qed.

Lemma In_recentReels (sortedStats : list TimeWindowStats) (index : nat)
  (currentTime : option Z) (other : TimeWindowStats) :
  In other (recentReels host sortedStats index currentTime) ->
  In other sortedStats /\
  Facebook.isReelsScrolling (facebookActivity other) = true /\
  suspiciousGap currentTime (windowDate host (timeWindow other)) = true.
Proof.
  unfold recentReels. rewrite in_map_iff. intros [[i s] [<- Hin]].
  apply filter_In in Hin as [Hin Hcond]. cbn [fst snd] in *.
  split; [exact (in_combine_r _ _ _ _ Hin)|].
  destruct (Nat.leb index i); [discriminate|].
  destruct (Facebook.isReelsScrolling (facebookActivity s)); [|discriminate].
  cbn in Hcond. now split.
Qed.

Lemma In_subsequentReels (sortedStats : list TimeWindowStats) (index : nat)
  (currentTime : option Z) (other : TimeWindowStats) :
  In other (subsequentReels host sortedStats index currentTime) ->
  In other sortedStats /\
  Facebook.isReelsScrolling (facebookActivity other) = true /\
  suspiciousGap (windowDate host (timeWindow other)) currentTime = true.
Proof.
  unfold subsequentReels. rewrite in_map_iff. intros [[i s] [<- Hin]].
  apply filter_In in Hin as [Hin Hcond]. cbn [fst snd] in *.
  split; [exact (in_combine_r _ _ _ _ Hin)|].
  destruct (Nat.leb i index); [discriminate|].
  destruct (Facebook.isReelsScrolling (facebookActivity s)); [|discriminate].
  cbn in Hcond. now split.
Qed.

Lemma maskWindow_sound (all sortedStats : list TimeWindowStats) (index : nat)
  (stat : TimeWindowStats) :
  (forall s, In s sortedStats -> In s all) ->
  let r := maskWindow host sortedStats index stat in
  (isReelsMasking r = false -> maskingEvidence r = "") /\
  (isReelsMasking r = true -> maskedByReels host all r).
Proof.
  intros Hall. cbv zeta. unfold maskWindow.
  destruct (hasStrongMessagingEvidence stat) eqn:Hstrong;
    [|split; [reflexivity | discriminate]].
  cbv zeta.
  destruct (recentReels host sortedStats index (windowDate host (timeWindow stat)))
    as [|r1 recent] eqn:Hrecent;
    destruct (subsequentReels host sortedStats index (windowDate host (timeWindow stat)))
      as [|r2 subsequent] eqn:Hsub;
    cbn [nonEmpty orb isReelsMasking maskingEvidence baseStats];
    (split; [first [reflexivity | discriminate]|]); try discriminate;
    intros _; unfold maskedByReels; cbn [baseStats maskingEvidence];
    (split; [exact Hstrong|]); (split; [reflexivity|]).
  - assert (Hin : In r2 (subsequentReels host sortedStats index
                           (windowDate host (timeWindow stat))))
      by (rewrite Hsub; now left).
    apply In_subsequentReels in Hin as (Hin & Hreels & Hgap).
    apply suspiciousGap_true in Hgap as (a & b & Ha & Hb & Hab).
    exists r2, b, a. repeat split; auto; lia.
  - assert (Hin : In r1 (recentReels host sortedStats index
                           (windowDate host (timeWindow stat))))
      by (rewrite Hrecent; now left).
    apply In_recentReels in Hin as (Hin & Hreels & Hgap).
    apply suspiciousGap_true in Hgap as (a & b & Ha & Hb & Hab).
    exists r1, a, b. repeat split; auto; lia.
  - assert (Hin : In r1 (recentReels host sortedStats index
                           (windowDate host (timeWindow stat))))
      by (rewrite Hrecent; now left).
    apply In_recentReels in Hin as (Hin & Hreels & Hgap).
    apply suspiciousGap_true in Hgap as (a & b & Ha & Hb & Hab).
    exists r1, a, b. repeat split; auto; lia.
Qed.

(** X17. On every host, a window that [detectReelsMasking] flags has
    strong messaging evidence, an evidence text that starts with
    "Suspicious: ", and lies more than one and at most ten minutes away
    from some Reels window of the input, both keys being valid dates as
    the host reads them; a window that is not flagged has the empty
    evidence text. *)
Theorem masking_flag_sound (timeWindowStats : list TimeWindowStats)
  (r : MaskedStats) :
  In r (detectReelsMasking host timeWindowStats) ->
  (isReelsMasking r = false -> maskingEvidence r = "") /\
  (isReelsMasking r = true -> maskedByReels host timeWindowStats r).
Proof.
  unfold detectReelsMasking. cbv zeta. rewrite in_map_iff.
  intros [[i stat] [<- _]]. cbn [fst snd].
  apply maskWindow_sound. intros s Hs.
  exact (Permutation_in _ (sortByWindow_Permutation timeWindowStats) Hs).
Qed.

(** X18. Without a Reels window in its input [detectReelsMasking] flags
    nothing. *)
Theorem masking_needs_reels (timeWindowStats : list TimeWindowStats) :
  (forall s, In s timeWindowStats ->
             Facebook.isReelsScrolling (facebookActivity s) = false) ->
  forall r, In r (detectReelsMasking host timeWindowStats) ->
            isReelsMasking r = false /\ maskingEvidence r = "".
Proof.
  intros Hnone r Hr.
  unfold detectReelsMasking in Hr. cbv zeta in Hr. rewrite in_map_iff in Hr.
  destruct Hr as [[i stat] [<- _]]. cbn [fst snd].
  pose proof (maskWindow_sound timeWindowStats
                (sortByWindow host timeWindowStats) i stat
                (fun s Hs => Permutation_in _
                               (sortByWindow_Permutation timeWindowStats) Hs))
    as [Hoff Hon].
  cbv zeta in Hoff, Hon.
  destruct (isReelsMasking
              (maskWindow host (sortByWindow host timeWindowStats) i stat))
    eqn:Hflag.
  - destruct (Hon eq_refl) as (_ & _ & other & t & t' & Hin & Hreels & _).
    rewrite (Hnone other Hin) in Hreels. discriminate.
  - split; [reflexivity | now apply Hoff].
Qed.
End MaskingProperties.

Lemma masking_keeps_windows_witness :
  collation utcHost /\
  Sorted (fun a b => localeCompare utcHost (timeWindow a) (timeWindow b) <= 0)
    (map baseStats
       (detectReelsMasking utcHost
          [mkStats "2024-01-15 10:05" WhatsApp.initial Facebook.initial;
           mkStats "2024-01-15 10:00" WhatsApp.initial Facebook.initial])).
Proof.
  split; [exact utcHost_collation|].
  apply (masking_keeps_windows utcHost
           [mkStats "2024-01-15 10:05" WhatsApp.initial Facebook.initial;
            mkStats "2024-01-15 10:00" WhatsApp.initial Facebook.initial]).
  exact utcHost_collation.
Defined.

Lemma masking_flag_sound_witness :
  let reels :=
    mkStats "2024-01-15 10:00" WhatsApp.initial
      (detectFacebookActivity
         [mkEntry "4bea6f62-abc-netseer-ipaddr-assoc.xy.fbcdn.net" 0;
          mkEntry "edge-mqtt.facebook.com" 1000]) in
  let call :=
    mkStats "2024-01-15 10:05"
      (detectWhatsAppActivity
         [mkEntry "1-courier2.push.apple.com" 0; mkEntry "g.whatsapp.net" 3000])
      Facebook.initial in
  let r := mkMasked call true
             "Suspicious: Strong messaging activity 5min after Reels stopped" in
  In r (detectReelsMasking utcHost [call; reels]) /\
  maskedByReels utcHost [call; reels] r.
Proof.
  cbv zeta.
  assert (Hin : In (mkMasked
                      (mkStats "2024-01-15 10:05"
                         (detectWhatsAppActivity
                            [mkEntry "1-courier2.push.apple.com" 0;
                             mkEntry "g.whatsapp.net" 3000])
                         Facebook.initial) true
                      "Suspicious: Strong messaging activity 5min after Reels stopped")
                   (detectReelsMasking utcHost
                      [mkStats "2024-01-15 10:05"
                         (detectWhatsAppActivity
                            [mkEntry "1-courier2.push.apple.com" 0;
                             mkEntry "g.whatsapp.net" 3000])
                         Facebook.initial;
                       mkStats "2024-01-15 10:00" WhatsApp.initial
                         (detectFacebookActivity
                            [mkEntry "4bea6f62-abc-netseer-ipaddr-assoc.xy.fbcdn.net" 0;
                             mkEntry "edge-mqtt.facebook.com" 1000])])).
  { vm_compute. right. left. reflexivity. }
  split; [exact Hin|].
  exact (proj2 (masking_flag_sound utcHost _ _ Hin) eq_refl).
Defined.

Lemma masking_needs_reels_witness :
  let chat :=
    mkStats "2024-01-15 10:05"
      (WhatsApp.mkActivity true true false false 8 "incoming") Facebook.initial in
  let r := mkMasked chat false "" in
  In r (detectReelsMasking utcHost [chat]) /\
  isReelsMasking r = false /\ maskingEvidence r = "".
Proof.
  cbv zeta. split; [vm_compute; now left|].
  apply (masking_needs_reels utcHost
           [mkStats "2024-01-15 10:05"
              (WhatsApp.mkActivity true true false false 8 "incoming")
              Facebook.initial]).
  - intros s [<- | []]. reflexivity.
  - vm_compute. now left.
Defined.

(** ** Helpers of the parser module *)

(** X19. [countDomainPattern] is positive exactly when [hasDomainPattern]
    holds, never exceeds the number of entries, and adds up over the
    concatenation of two entry lists. *)
Theorem count_agrees_with_has (entries more : list ProcessedLogEntry)
  (patterns : list string) :
  (hasDomainPattern entries patterns = true <->
   (0 < countDomainPattern entries patterns)%nat) /\
  (countDomainPattern entries patterns <= length entries)%nat /\
  countDomainPattern (entries ++ more) patterns =
    (countDomainPattern entries patterns + countDomainPattern more patterns)%nat.
Proof.
  unfold hasDomainPattern, countDomainPattern. split; [|split].
  - induction entries as [|e entries IH]; cbn [existsb filter].
    + cbn. split; [discriminate | lia].
    + destruct (matchesAny patterns e); cbn [orb length]; [split; auto; lia | exact IH].
  - apply filter_length_le.
  - now rewrite filter_app, length_app.
Qed.

(** X20. Narrowing a window composes: the entries within [before] and
    [after] seconds of a time are those found in any wider window around
    the same time that lie within [before] and [after] seconds of it. *)
Theorem findEntriesInWindow_narrow (entries : list ProcessedLogEntry)
  (targetTime before after before' after' : Z) :
  before <= before' -> after <= after' ->
  findEntriesInWindow (findEntriesInWindow entries targetTime before' after')
    targetTime before after =
  findEntriesInWindow entries targetTime before after.
Proof.
  intros Hb Ha. unfold findEntriesInWindow.
  induction entries as [|e entries IH]; [reflexivity|].
  cbn [filter]. cbv zeta in *.
  destruct ((- (1000 * before) <=? parsedTimestamp e - targetTime) &&
            (parsedTimestamp e - targetTime <=? 1000 * after)) eqn:Hin.
  - apply andb_true_iff in Hin as Hin'. destruct Hin' as [H1 H2].
    apply Z.leb_le in H1. apply Z.leb_le in H2.
    assert (Hwide : (- (1000 * before') <=? parsedTimestamp e - targetTime) &&
                    (parsedTimestamp e - targetTime <=? 1000 * after') = true).
    { apply andb_true_iff. split; apply Z.leb_le; lia. }
    rewrite Hwide. cbn [filter]. cbv zeta. rewrite Hin. now rewrite IH.
  - destruct ((- (1000 * before') <=? parsedTimestamp e - targetTime) &&
              (parsedTimestamp e - targetTime <=? 1000 * after')); [|exact IH].
    cbn [filter]. cbv zeta. rewrite Hin. exact IH.
Qed.

Lemma findEntriesInWindow_narrow_witness :
  let entries := [mkEntry "g.whatsapp.net" 1000; mkEntry "mmg.whatsapp.net" 9000;
                  mkEntry "static.whatsapp.net" 40000] in
  findEntriesInWindow (findEntriesInWindow entries 0 0 30) 0 0 5 =
  findEntriesInWindow entries 0 0 5.
Proof.
  intros entries. apply (findEntriesInWindow_narrow entries 0 0 5 0 30); lia.
Defined.

(** ** The chat, VPN and secrecy detectors *)

(** X21. [detectRealChat] flags a domain list exactly when a core domain
    of one application comes with a messaging, API or real-time domain of
    the same application, or core domains of both applications occur; its
    score lies between 0 and 16 and is 0 exactly when no core domain
    occurs. *)
Theorem real_chat_flag (domains : list string) :
  let whatsappCore := matchesDomain domains REAL_CHAT_INDICATORS.whatsapp.core in
  let facebookCore := matchesDomain domains REAL_CHAT_INDICATORS.facebook.core in
  isRealChat (detectRealChat domains) =
    (whatsappCore &&
       (matchesDomain domains REAL_CHAT_INDICATORS.whatsapp.messaging ||
        matchesDomain domains REAL_CHAT_INDICATORS.whatsapp.api)) ||
    (facebookCore &&
       (matchesDomain domains REAL_CHAT_INDICATORS.facebook.messaging ||
        matchesDomain domains REAL_CHAT_INDICATORS.facebook.realtime)) ||
    (whatsappCore && facebookCore) /\
  0 <= chatScore (detectRealChat domains) <= 16 /\
  (chatScore (detectRealChat domains) = 0 <->
   whatsappCore = false /\ facebookCore = false).
Proof.
  cbv zeta. unfold detectRealChat. cbv zeta.
  generalize (matchesDomain domains REAL_CHAT_INDICATORS.whatsapp.core).
  generalize (matchesDomain domains REAL_CHAT_INDICATORS.whatsapp.messaging).
  generalize (matchesDomain domains REAL_CHAT_INDICATORS.whatsapp.api).
  generalize (matchesDomain domains REAL_CHAT_INDICATORS.facebook.core).
  generalize (matchesDomain domains REAL_CHAT_INDICATORS.facebook.messaging).
  generalize (matchesDomain domains REAL_CHAT_INDICATORS.facebook.realtime).
  intros [] [] [] [] [] []; vm_compute; intuition congruence.
Qed.

(** X22. [detectVPNAttempt] flags a domain list exactly when it matches
    the VPN-service, anonymity-network or proxy table, or shows at least
    two of the four weak signals (private DNS, privacy tools, more than
    five distinct last labels, more than three suspicious names); its
    score lies between 0 and 34. *)
Theorem vpn_flag (domains : list string) :
  isPossibleVPN (detectVPNAttempt domains) =
    matchesDomain domains VPN_INDICATORS.vpnServices ||
    matchesDomain domains VPN_INDICATORS.anonymityNetworks ||
    matchesDomain domains VPN_INDICATORS.proxyServices ||
    Nat.leb 2 (countTrue (weakVPNSignals domains)) /\
  0 <= vpnScore (detectVPNAttempt domains) <= 34.
Proof.
  unfold detectVPNAttempt, weakVPNSignals. cbv zeta.
  generalize (matchesDomain domains VPN_INDICATORS.vpnServices).
  generalize (matchesDomain domains VPN_INDICATORS.anonymityNetworks).
  generalize (matchesDomain domains VPN_INDICATORS.privateDNS).
  generalize (matchesDomain domains VPN_INDICATORS.proxyServices).
  generalize (matchesDomain domains VPN_INDICATORS.privacyTools).
  generalize (Nat.ltb 5 (length (nodup string_dec (map lastSegment domains)))).
  generalize (Nat.ltb 3 (length (filter isSuspiciousName domains))).
  intros [] [] [] [] [] [] []; vm_compute; intuition congruence.
Qed.

(** X23. The score of [detectSecretBehavior] lies between 0 and 41; the
    two flags passed in add 2 and 4 to the score of the domains alone; a
    match of the crypto-privacy table is always flagged; and a domain list
    that matches none of the tables and has at most two obfuscated names
    is never flagged, whatever the two flags are. *)
Theorem secret_flag (domains : list string) (chat vpn : bool) :
  0 <= secretScore (detectSecretBehavior domains chat vpn) <= 41 /\
  secretScore (detectSecretBehavior domains chat vpn) =
    secretScore (detectSecretBehavior domains false false) +
    (if chat then 2 else 0) + (if vpn then 4 else 0) /\
  (matchesDomain domains SECRET_BEHAVIOR_INDICATORS.cryptoPrivacy = true ->
   isActingSecret (detectSecretBehavior domains chat vpn) = true) /\
  (forallb (fun table => negb (matchesDomain domains table))
     [SECRET_BEHAVIOR_INDICATORS.tempEmail;
      SECRET_BEHAVIOR_INDICATORS.encryptedMessaging;
      SECRET_BEHAVIOR_INDICATORS.anonymousStorage;
      SECRET_BEHAVIOR_INDICATORS.cryptoPrivacy;
      SECRET_BEHAVIOR_INDICATORS.altSocial;
      SECRET_BEHAVIOR_INDICATORS.privateSearch] = true ->
   (length (filter isObfuscatedName domains) <= 2)%nat ->
   isActingSecret (detectSecretBehavior domains chat vpn) = false).
Proof.
  unfold detectSecretBehavior. cbv zeta. cbn [forallb].
  assert (Hobf : (length (filter isObfuscatedName domains) <= 2)%nat ->
                 Nat.ltb 2 (length (filter isObfuscatedName domains)) = false)
    by (intros H; apply Nat.ltb_ge; exact H).
  revert Hobf.
  generalize (Nat.ltb 2 (length (filter isObfuscatedName domains))).
  generalize (length (filter isObfuscatedName domains) <= 2)%nat.
  generalize (matchesDomain domains SECRET_BEHAVIOR_INDICATORS.tempEmail).
  generalize (matchesDomain domains SECRET_BEHAVIOR_INDICATORS.encryptedMessaging).
  generalize (matchesDomain domains SECRET_BEHAVIOR_INDICATORS.anonymousStorage).
  generalize (matchesDomain domains SECRET_BEHAVIOR_INDICATORS.cryptoPrivacy).
  generalize (matchesDomain domains SECRET_BEHAVIOR_INDICATORS.altSocial).
  generalize (matchesDomain domains SECRET_BEHAVIOR_INDICATORS.privateSearch).
  generalize (matchesDomain domains VPN_INDICATORS.vpnServices).
  generalize (matchesDomain domains VPN_INDICATORS.anonymityNetworks).
  intros b1 b2 b3 b4 b5 b6 b7 b8 P b9 Hobf.
  destruct chat, vpn, b1, b2, b3, b4, b5, b6, b7, b8, b9;
    cbn -[Z.add Z.leb];
    (split; [vm_compute; split; discriminate|]);
    (split; [reflexivity|]);
    (split; [first [intros _; reflexivity | intros H; discriminate H]|]);
    first [intros H; discriminate H
          | intros _ HP; try reflexivity; specialize (Hobf HP); discriminate Hobf].
Qed.

Lemma secret_flag_witness :
  matchesDomain ["www.monero.org"] SECRET_BEHAVIOR_INDICATORS.cryptoPrivacy = true /\
  isActingSecret (detectSecretBehavior ["www.monero.org"] false false) = true.
Proof.
  split; [vm_compute; reflexivity|].
  apply (secret_flag ["www.monero.org"] false false). vm_compute. reflexivity.
Defined.

(** ** Categories *)

Section FirstCategory.
Variables domain domainToCheck : string.

Lemma firstCategory_name (table : list (string * list string)) :
  firstCategory domain domainToCheck table = "Other" \/
  In (firstCategory domain domainToCheck table) (map fst table).
Proof.
  induction table as [|[c ps] table IH]; cbn [firstCategory]; [now left|].
  destruct (String.eqb c "Other").
  - destruct IH; [now left | right; now right].
  - destruct (categoryMatches domain domainToCheck ps).
    + right. now left.
    + destruct IH; [now left | right; now right].
Qed.

Lemma firstCategory_other (table : list (string * list string)) :
  firstCategory domain domainToCheck table = "Other" <->
  forall c ps, In (c, ps) table -> c <> "Other" ->
               categoryMatches domain domainToCheck ps = false.
Proof.
  induction table as [|[c ps] table IH]; cbn [firstCategory].
  - split; [intros _ c ps [] | reflexivity].
  - destruct (String.eqb_spec c "Other") as [-> | Hc].
    + rewrite IH. split.
      * intros H c' ps' [Heq | Hin] Hne; [inversion Heq; subst; now destruct Hne|].
        now apply (H c' ps').
      * intros H c' ps' Hin. apply (H c' ps'). now right.
    + destruct (categoryMatches domain domainToCheck ps) eqn:Hm.
      * split; [intros Heq; now destruct Hc|].
        intros H. rewrite (H c ps (or_introl eq_refl) Hc) in Hm. discriminate.
      * rewrite IH. split.
        -- intros H c' ps' [Heq | Hin] Hne; [inversion Heq; now subst|].
           now apply (H c' ps').
        -- intros H c' ps' Hin. apply (H c' ps'). now right.
Qed.

Lemma firstCategory_split (pre post : list (string * list string))
  (c : string) (ps : list string) :
  c <> "Other" ->
  NoDup (map fst (pre ++ (c, ps) :: post)) ->
  (firstCategory domain domainToCheck (pre ++ (c, ps) :: post) = c <->
   categoryMatches domain domainToCheck ps = true /\
   forall c' ps', In (c', ps') pre -> c' <> "Other" ->
                  categoryMatches domain domainToCheck ps' = false).
Proof.
  intros Hc. induction pre as [|[c0 ps0] pre IH]; intros Hnd.
  - cbn [app firstCategory].
    destruct (String.eqb_spec c "Other") as [Heq | _]; [now destruct Hc|].
    destruct (categoryMatches domain domainToCheck ps) eqn:Hm.
    + split; [intros _; split; [reflexivity | intros ? ? []] | reflexivity].
    + split; [|intros [H _]; discriminate H].
      intros Heq. exfalso.
      cbn [app map fst] in Hnd. apply NoDup_cons_iff in Hnd as [Hnotin _].
      destruct (firstCategory_name post) as [Ho | Hin].
      * rewrite Heq in Ho. now destruct Hc.
      * rewrite Heq in Hin. now destruct Hnotin.
  - cbn [app map fst] in Hnd. apply NoDup_cons_iff in Hnd as [Hnotin Hnd'].
    assert (Hne : c0 <> c).
    { intros ->. apply Hnotin. rewrite map_app. apply in_or_app. right. now left. }
    cbn [app firstCategory].
    destruct (String.eqb_spec c0 "Other") as [-> | Hc0].
    + rewrite (IH Hnd'). split.
      * intros [Hm H]. split; [exact Hm|].
        intros c' ps' [Heq | Hin] Hne'; [inversion Heq; subst; now destruct Hne'|].
        now apply (H c' ps').
      * intros [Hm H]. split; [exact Hm|]. intros c' ps' Hin. apply (H c' ps'). now right.
    + destruct (categoryMatches domain domainToCheck ps0) eqn:Hm0.
      * split; [intros Heq; now destruct Hne|].
        intros [_ H]. rewrite (H c0 ps0 (or_introl eq_refl) Hc0) in Hm0. discriminate.
      * rewrite (IH Hnd'). split.
        -- intros [Hm H]. split; [exact Hm|].
           intros c' ps' [Heq | Hin] Hne'; [inversion Heq; now subst|].
           now apply (H c' ps').
        -- intros [Hm H]. split; [exact Hm|]. intros c' ps' Hin. apply (H c' ps'). now right.
Qed.
End FirstCategory.

Lemma DOMAIN_CATEGORIES_names :
  NoDup (map fst DOMAIN_CATEGORIES) /\
  forall c ps, In (c, ps) DOMAIN_CATEGORIES -> c = "Other" -> ps = [].
Proof.
  split.
  - apply (NoDup_count_occ' string_dec). intros c Hc.
    cbn [DOMAIN_CATEGORIES map fst In] in Hc.
    repeat (destruct Hc as [<- | Hc]; [vm_compute; reflexivity|]).
    destruct Hc.
  - intros c ps Hin Hc. cbn [DOMAIN_CATEGORIES In] in Hin.
    repeat (destruct Hin as [Heq | Hin];
            [inversion Heq; subst; first [reflexivity | discriminate]|]).
    destruct Hin.
Qed.

(** X24. [categorizeDomain] returns the first category of the table one
    of whose patterns occurs in the root domain (the domain when the root
    domain is empty) or in the domain: a category other than ['Other'] is
    returned exactly when it matches and no category before it does, and
    ['Other'] exactly when no category matches. *)
Theorem categorize_first_match (domain rootDomain : string) :
  let domainToCheck := if String.eqb rootDomain "" then domain else rootDomain in
  (categorizeDomain domain rootDomain = "Other" <->
   forall c ps, In (c, ps) DOMAIN_CATEGORIES ->
                categoryMatches domain domainToCheck ps = false) /\
  (forall pre c ps post,
     DOMAIN_CATEGORIES = pre ++ (c, ps) :: post -> c <> "Other" ->
     (categorizeDomain domain rootDomain = c <->
      categoryMatches domain domainToCheck ps = true /\
      forall c' ps', In (c', ps') pre ->
                     categoryMatches domain domainToCheck ps' = false)).
Proof.
  cbv zeta. unfold categorizeDomain. cbv zeta.
  set (domainToCheck := if String.eqb rootDomain "" then domain else rootDomain).
  destruct DOMAIN_CATEGORIES_names as [Hnd Hother].
  assert (Hskip : forall c ps, In (c, ps) DOMAIN_CATEGORIES -> c = "Other" ->
                               categoryMatches domain domainToCheck ps = false).
  { intros c ps Hin Hc. now rewrite (Hother c ps Hin Hc). }
  split.
  - rewrite firstCategory_other. split.
    + intros H c ps Hin. destruct (string_dec c "Other") as [Hc | Hc]; eauto.
    + intros H c ps Hin _. eauto.
  - intros pre c ps post Htable Hc.
    rewrite Htable in Hnd, Hskip |- *.
    rewrite (firstCategory_split domain domainToCheck pre post c ps Hc Hnd).
    split; intros [Hm H]; (split; [exact Hm|]).
    + intros c' ps' Hin. destruct (string_dec c' "Other") as [Hc' | Hc'].
      * apply (Hskip c' ps'); [apply in_or_app; now left | exact Hc'].
      * now apply (H c' ps').
    + intros c' ps' Hin _. now apply (H c' ps').
Qed.

Lemma categorize_first_match_witness :
  categorizeDomain "graph.instagram.com" "" = "Social Media" <->
  categoryMatches "graph.instagram.com" "graph.instagram.com"
    ["twitter.com"; "instagram.com"; "linkedin.com"; "tiktok.com";
     "snapchat.com"; "reddit.com"; "pinterest.com"] = true /\
  forall c' ps', In (c', ps') (firstn 3 DOMAIN_CATEGORIES) ->
                 categoryMatches "graph.instagram.com" "graph.instagram.com" ps' = false.
Proof.
  apply (proj2 (categorize_first_match "graph.instagram.com" "")
           (firstn 3 DOMAIN_CATEGORIES) "Social Media" _ (skipn 4 DOMAIN_CATEGORIES)).
  - reflexivity.
  - discriminate.
Defined.

(** X25. The patterns [facebook.com/tr] and [analytics.google.com] of the
    advertising category are shadowed: a domain that matches one of them
    matches [facebook.com] or [google.com] of an earlier category, so
    [categorizeDomain] never answers ['Advertising & Analytics'] for
    it. *)
Theorem advertising_patterns_shadowed (domain rootDomain : string) :
  categoryMatches domain (if String.eqb rootDomain "" then domain else rootDomain)
    ["facebook.com/tr"; "analytics.google.com"] = true ->
  categorizeDomain domain rootDomain <> "Advertising & Analytics".
Proof.
  unfold categorizeDomain. cbv zeta.
  set (domainToCheck := if String.eqb rootDomain "" then domain else rootDomain).
  intros Hmatch Hresult.
  destruct DOMAIN_CATEGORIES_names as [Hnd _].
  assert (Hsplit : DOMAIN_CATEGORIES =
                   firstn 7 DOMAIN_CATEGORIES ++
                   ("Advertising & Analytics",
                    ["doubleclick.net"; "googleadservices.com";
                     "googlesyndication.com"; "adsystem.com"; "facebook.com/tr";
                     "analytics.google.com"; "quantserve.com";
                     "scorecardresearch.com"]) :: skipn 8 DOMAIN_CATEGORIES)
    by reflexivity.
  rewrite Hsplit in Hnd, Hresult.
  apply firstCategory_split in Hresult as [_ Hpre]; [|discriminate|exact Hnd].
  assert (Hfb : categoryMatches domain domainToCheck
                  ["facebook.com"; "messenger.com"; "fb.com"; "fbcdn.net";
                   "facebook.net"] = false).
  { apply (Hpre "Facebook Domain Access"); [|discriminate].
    cbn [firstn DOMAIN_CATEGORIES In]. auto. }
  assert (Hgoogle : categoryMatches domain domainToCheck
                      ["google.com"; "googleapis.com"; "googleusercontent.com";
                       "gstatic.com"; "gmail.com"; "google-analytics.com"] = false).
  { apply (Hpre "Google Services"); [|discriminate].
    cbn [firstn DOMAIN_CATEGORIES In]. auto 10. }
  unfold categoryMatches in Hmatch, Hfb, Hgoogle.
  cbn [existsb] in Hmatch, Hfb, Hgoogle.
  apply orb_false_iff in Hfb as [Hfb _]. apply orb_false_iff in Hfb as [Hfb1 Hfb2].
  apply orb_false_iff in Hgoogle as [Hg _].
  apply orb_false_iff in Hg as [Hg1 Hg2].
  rewrite (includes_weaken domainToCheck "facebook.com/tr" "facebook.com"
             eq_refl Hfb1) in Hmatch.
  rewrite (includes_weaken domain "facebook.com/tr" "facebook.com"
             eq_refl Hfb2) in Hmatch.
  rewrite (includes_weaken domainToCheck "analytics.google.com" "google.com"
             eq_refl Hg1) in Hmatch.
  rewrite (includes_weaken domain "analytics.google.com" "google.com"
             eq_refl Hg2) in Hmatch.
  discriminate Hmatch.
Qed.

Lemma advertising_patterns_shadowed_witness :
  categoryMatches "www.facebook.com/tr" "www.facebook.com/tr"
    ["facebook.com/tr"; "analytics.google.com"] = true /\
  categorizeDomain "www.facebook.com/tr" "" <> "Advertising & Analytics".
Proof.
  split; [vm_compute; reflexivity|].
  apply (advertising_patterns_shadowed "www.facebook.com/tr" "").
  vm_compute. reflexivity.
Defined.

(** ** Grouping and the per-window statistics *)

Lemma windowEntriesOf_snoc (l : list LogRow.t) (e : LogRow.t) (k : string) :
  windowEntriesOf (l ++ [e]) k =
  windowEntriesOf l k ++ (if String.eqb (LogRow.timeWindow e) k then [e] else []).
Proof.
  unfold windowEntriesOf. rewrite filter_app. cbn [filter].
  now destruct (String.eqb (LogRow.timeWindow e) k).
Qed.

Lemma windowEntriesOf_unseen (l : list LogRow.t) (keys : list string) (k : string) :
  (forall e, In e l -> In (LogRow.timeWindow e) keys) -> ~ In k keys ->
  windowEntriesOf l k = [].
Proof.
  intros Hcover Hk. unfold windowEntriesOf. apply filter_nil_of_false.
  intros e He. destruct (String.eqb_spec (LogRow.timeWindow e) k) as [Heq | _];
    [|reflexivity].
  destruct Hk. rewrite <- Heq. now apply Hcover.
Qed.

Lemma In_windowEntriesOf (l : list LogRow.t) (k : string) (e : LogRow.t) :
  In e (windowEntriesOf l k) <-> In e l /\ LogRow.timeWindow e = k.
Proof.
  unfold windowEntriesOf. rewrite filter_In.
  split; intros [H1 H2]; (split; [exact H1|]); now apply String.eqb_eq.
Qed.

Lemma pushToGroup_keys (key : string) (e : LogRow.t)
  (grouped : list (string * list LogRow.t)) :
  (In key (map fst grouped) ->
   map fst (pushToGroup key e grouped) = map fst grouped) /\
  (~ In key (map fst grouped) ->
   map fst (pushToGroup key e grouped) = map fst grouped ++ [key]).
Proof.
  induction grouped as [|[k g] grouped [IH1 IH2]]; cbn [pushToGroup map fst].
  - split; [intros [] | reflexivity].
  - destruct (String.eqb_spec k key) as [-> | Hne]; cbn [map fst app].
    + split; [reflexivity | intros H; destruct H; now left].
    + split; intros H.
      * destruct H as [H | H]; [now destruct Hne|]. now rewrite IH1.
      * rewrite IH2; [reflexivity|]. intros Hin. apply H. now right.
Qed.

Lemma In_pushToGroup (key : string) (e : LogRow.t)
  (grouped : list (string * list LogRow.t)) (k : string) (g' : list LogRow.t) :
  NoDup (map fst grouped) ->
  In (k, g') (pushToGroup key e grouped) ->
  (k <> key /\ In (k, g') grouped) \/
  (k = key /\ exists g, In (key, g) grouped /\ g' = g ++ [e]) \/
  (k = key /\ ~ In key (map fst grouped) /\ g' = [e]).
Proof.
  induction grouped as [|[k0 g0] grouped IH]; cbn [pushToGroup map fst]; intros Hnd Hin.
  - destruct Hin as [Heq | []]. inversion Heq; subst.
    right. right. repeat split. intros [].
  - apply NoDup_cons_iff in Hnd as [Hnotin Hnd].
    destruct (String.eqb_spec k0 key) as [-> | Hne].
    + destruct Hin as [Heq | Hin].
      * inversion Heq; subst. right. left. split; [reflexivity|].
        exists g0. split; [now left | reflexivity].
      * left. split; [|now right].
        intros ->. apply Hnotin. now apply (in_map fst _ (key, g')).
    + destruct Hin as [Heq | Hin].
      * inversion Heq; subst. left. split; [exact Hne | now left].
      * destruct (IH Hnd Hin) as [[H1 H2] | [[H1 [g [H2 H3]]] | [H1 [H2 H3]]]].
        -- left. split; [exact H1 | now right].
        -- right. left. split; [exact H1|]. exists g. split; [now right | exact H3].
        -- right. right. repeat split; [exact H1 | | exact H3].
           intros [Heq | Hin']; [now destruct Hne | now destruct H2].
Qed.

Lemma pushToGroup_groupsOf (l : list LogRow.t) (e : LogRow.t)
  (grouped : list (string * list LogRow.t)) :
  groupsOf l grouped ->
  groupsOf (l ++ [e]) (pushToGroup (LogRow.timeWindow e) e grouped).
Proof.
  intros (Hnd & Hgroups & Hcover).
  destruct (pushToGroup_keys (LogRow.timeWindow e) e grouped) as [Hold Hnew].
  destruct (in_dec string_dec (LogRow.timeWindow e) (map fst grouped)) as [Hin | Hnotin].
  - split; [|split].
    + now rewrite (Hold Hin).
    + intros k g' Hg'. rewrite windowEntriesOf_snoc.
      destruct (In_pushToGroup _ _ _ _ _ Hnd Hg')
        as [[H1 H2] | [[H1 [g [H2 H3]]] | [H1 [H2 H3]]]].
      * destruct (Hgroups k g' H2) as [Hg Hne].
        destruct (String.eqb_spec (LogRow.timeWindow e) k) as [Heq | _];
          [now destruct H1|].
        rewrite app_nil_r. now split.
      * subst k g'. destruct (Hgroups _ g H2) as [Hg _].
        rewrite String.eqb_refl, <- Hg. split; [reflexivity|].
        now destruct g.
      * now destruct H2.
    + intros e' He'. rewrite (Hold Hin).
      apply in_app_or in He' as [He' | [<- | []]]; [now apply Hcover | exact Hin].
  - split; [|split].
    + rewrite (Hnew Hnotin). apply NoDup_app; [exact Hnd | repeat constructor; intros [] |].
      intros k Hk [<- | []]. now destruct Hnotin.
    + intros k g' Hg'. rewrite windowEntriesOf_snoc.
      destruct (In_pushToGroup _ _ _ _ _ Hnd Hg')
        as [[H1 H2] | [[H1 [g [H2 H3]]] | [H1 [H2 H3]]]].
      * destruct (Hgroups k g' H2) as [Hg Hne].
        destruct (String.eqb_spec (LogRow.timeWindow e) k) as [Heq | _];
          [now destruct H1|].
        rewrite app_nil_r. now split.
      * destruct Hnotin. now apply (in_map fst _ (LogRow.timeWindow e, g)).
      * subst k g'. rewrite String.eqb_refl.
        rewrite (windowEntriesOf_unseen l _ _ Hcover Hnotin).
        split; [reflexivity | discriminate].
    + intros e' He'. rewrite (Hnew Hnotin). apply in_or_app.
      apply in_app_or in He' as [He' | [<- | []]].
      * left. now apply Hcover.
      * right. now left.
Qed.

Lemma groupByTimeWindows_snoc (l : list LogRow.t) (e : LogRow.t) :
  groupByTimeWindows (l ++ [e]) =
  pushToGroup (LogRow.timeWindow e) e (groupByTimeWindows l).
Proof. unfold groupByTimeWindows. now rewrite fold_left_app. Qed.

(** X26. [groupByTimeWindows] partitions the entries by their window
    key: the keys of the map are distinct, every entry's key is among
    them, and the group of a key holds exactly the entries of that key,
    in their order in the input, so that no group is empty. *)
Theorem groups_partition (entries : list LogRow.t) :
  let grouped := groupByTimeWindows entries in
  NoDup (map fst grouped) /\
  (forall k g, In (k, g) grouped -> g = windowEntriesOf entries k /\ g <> []) /\
  (forall e, In e entries -> In (LogRow.timeWindow e) (map fst grouped)).
Proof.
  cbv zeta. change (groupsOf entries (groupByTimeWindows entries)).
  induction entries as [|e l IH] using rev_ind.
  - split; [constructor | split; [intros k g [] | intros e []]].
  - rewrite groupByTimeWindows_snoc. now apply pushToGroup_groupsOf.
Qed.

(** *** The counters *)

Lemma sumCounts_bump (k : string) (m : list (string * nat)) :
  sumCounts (bump k m) = S (sumCounts m).
Proof.
  unfold sumCounts. induction m as [|[k' n] m IH]; cbn [bump]; [reflexivity|].
  unfold list_sum in *.
  destruct (String.eqb k' k); cbn [map snd fold_right] in *; lia.
Qed.

Lemma In_setAdd (d : string) (s : list string) (x : string) :
  In x (setAdd d s) <-> x = d \/ In x s.
Proof.
  unfold setAdd. destruct (existsb (String.eqb d) s) eqn:Hex.
  - apply existsb_exists in Hex as [y [Hy Heq]]. apply String.eqb_eq in Heq.
    subst y. split; [now right | intros [-> | H]; assumption].
  - rewrite in_app_iff. cbn [In]. split.
    + intros [H | [H | []]]; [now right | now left].
    + intros [H | H]; [right; now left | now left].
Qed.

Lemma NoDup_setAdd (d : string) (s : list string) :
  NoDup s -> NoDup (setAdd d s).
Proof.
  intros Hnd. unfold setAdd. destruct (existsb (String.eqb d) s) eqn:Hex;
    [exact Hnd|].
  apply NoDup_app; [exact Hnd | repeat constructor; intros [] |].
  intros x Hx [<- | []].
  pose proof (existsb_false_In _ _ d Hex Hx) as Hd.
  now rewrite String.eqb_refl in Hd.
Qed.

Lemma newCounts_countsOf (key : string) : countsOf [] (newCounts key).
Proof.
  unfold countsOf, newCounts. cbn.
  split; [reflexivity|]. split; [reflexivity|]. split; [reflexivity|].
  split; [reflexivity|]. split; [apply NoDup_nil|].
  split; [|split; reflexivity].
  intros d. split; [intros [] | intros [e [[] _]]].
Qed.

Lemma countRow_countsOf (window : list LogRow.t) (e : LogRow.t) (c : Counts.t) :
  countsOf window c -> countsOf (window ++ [e]) (countRow e c).
Proof.
  intros (Ht & Hb & Ha & Hu & Hnd & Hd & Hc & Hv).
  unfold countsOf, countRow.
  cbn [Counts.totalRequests Counts.blockedRequests Counts.allowedRequests
       Counts.uniqueDomains Counts.domains Counts.categories Counts.devices].
  rewrite !filter_app, !length_app. cbn [filter length].
  split; [lia|].
  split; [destruct (LogRow.isBlocked e); cbn [length]; lia|].
  split; [destruct (LogRow.isBlocked e); cbn [negb length]; lia|].
  split; [now rewrite Hu|].
  split; [now apply NoDup_setAdd|].
  split.
  - intros d. rewrite In_setAdd, Hd. split.
    + intros [-> | [e' [He' Hd']]].
      * exists e. split; [apply in_or_app; right; now left | reflexivity].
      * exists e'. split; [apply in_or_app; now left | exact Hd'].
    + intros [e' [He' Hd']]. apply in_app_or in He' as [He' | [<- | []]].
      * right. now exists e'.
      * now left.
  - split; [rewrite sumCounts_bump; lia|].
    destruct (String.eqb (LogRow.device_name e) ""); cbn [negb length];
      [lia | rewrite sumCounts_bump; lia].
Qed.

Lemma countRow_timeWindow (e : LogRow.t) (c : Counts.t) :
  Counts.timeWindow (countRow e c) = Counts.timeWindow c.
Proof. reflexivity. Qed.

Lemma updateStats_keys (e : LogRow.t) (stats : list Counts.t) :
  (In (LogRow.timeWindow e) (map Counts.timeWindow stats) ->
   map Counts.timeWindow (updateStats e stats) = map Counts.timeWindow stats) /\
  (~ In (LogRow.timeWindow e) (map Counts.timeWindow stats) ->
   map Counts.timeWindow (updateStats e stats) =
   map Counts.timeWindow stats ++ [LogRow.timeWindow e]).
Proof.
  induction stats as [|c stats [IH1 IH2]]; cbn [updateStats map].
  - split; [intros [] | reflexivity].
  - destruct (String.eqb_spec (Counts.timeWindow c) (LogRow.timeWindow e)) as [Heq | Hne];
      cbn [map app].
    + rewrite countRow_timeWindow.
      split; [reflexivity | intros H; destruct H; now left].
    + split; intros H.
      * destruct H as [H | H]; [now destruct Hne|]. now rewrite IH1.
      * rewrite IH2; [reflexivity|]. intros Hin. apply H. now right.
Qed.

Lemma In_updateStats (e : LogRow.t) (stats : list Counts.t) (c' : Counts.t) :
  NoDup (map Counts.timeWindow stats) ->
  In c' (updateStats e stats) ->
  (Counts.timeWindow c' <> LogRow.timeWindow e /\ In c' stats) \/
  (exists c, In c stats /\ Counts.timeWindow c = LogRow.timeWindow e /\
             c' = countRow e c) \/
  (~ In (LogRow.timeWindow e) (map Counts.timeWindow stats) /\
   c' = countRow e (newCounts (LogRow.timeWindow e))).
Proof.
  induction stats as [|c0 stats IH]; cbn [updateStats map]; intros Hnd Hin.
  - destruct Hin as [<- | []]. right. right. split; [intros [] | reflexivity].
  - apply NoDup_cons_iff in Hnd as [Hnotin Hnd].
    destruct (String.eqb_spec (Counts.timeWindow c0) (LogRow.timeWindow e)) as [Heq | Hne].
    + destruct Hin as [<- | Hin].
      * right. left. exists c0. split; [now left | now split].
      * left. split; [|now right].
        intros Hk. apply Hnotin. rewrite Heq, <- Hk. now apply in_map.
    + destruct Hin as [<- | Hin].
      * left. split; [exact Hne | now left].
      * destruct (IH Hnd Hin) as [[H1 H2] | [[c [H1 [H2 H3]]] | [H1 H2]]].
        -- left. split; [exact H1 | now right].
        -- right. left. exists c. split; [now right | now split].
        -- right. right. split; [|exact H2].
           intros [Heq | Hin']; [now destruct Hne | now destruct H1].
Qed.

Lemma updateStats_statsOf (l : list LogRow.t) (e : LogRow.t) (stats : list Counts.t) :
  statsOf l stats -> statsOf (l ++ [e]) (updateStats e stats).
Proof.
  intros (Hnd & Hcounts & Hkeys).
  destruct (updateStats_keys e stats) as [Hold Hnew].
  assert (Hcover : forall e', In e' l ->
                     In (LogRow.timeWindow e') (map Counts.timeWindow stats)).
  { intros e' He'. apply Hkeys. now exists e'. }
  assert (Hstep : forall c', In c' (updateStats e stats) ->
            countsOf (windowEntriesOf (l ++ [e]) (Counts.timeWindow c')) c' /\
            windowEntriesOf (l ++ [e]) (Counts.timeWindow c') <> []).
  { intros c' Hc'. rewrite windowEntriesOf_snoc.
    destruct (In_updateStats _ _ _ Hnd Hc') as [[H1 H2] | [[c [H1 [H2 H3]]] | [H1 H2]]].
    - destruct (String.eqb_spec (LogRow.timeWindow e) (Counts.timeWindow c')) as [Heq | _];
        [now destruct H1|].
      rewrite app_nil_r. now apply Hcounts.
    - subst c'. rewrite countRow_timeWindow, H2, String.eqb_refl.
      destruct (Hcounts c H1) as [Hc _]. rewrite H2 in Hc.
      split; [now apply countRow_countsOf|].
      now destruct (windowEntriesOf l (LogRow.timeWindow e)).
    - subst c'. rewrite countRow_timeWindow. cbn [newCounts Counts.timeWindow].
      rewrite String.eqb_refl, (windowEntriesOf_unseen l _ _ Hcover H1).
      split; [|discriminate].
      apply (countRow_countsOf [] e), newCounts_countsOf. }
  destruct (in_dec string_dec (LogRow.timeWindow e) (map Counts.timeWindow stats))
    as [Hin | Hnotin].
  - split; [|split; [exact Hstep|]].
    + now rewrite (Hold Hin).
    + intros k. rewrite (Hold Hin), Hkeys. split.
      * intros [e' [He' Hk]]. exists e'. split; [apply in_or_app; now left | exact Hk].
      * intros [e' [He' Hk]]. apply in_app_or in He' as [He' | [<- | []]].
        -- now exists e'.
        -- apply Hkeys. now rewrite <- Hk.
  - split; [|split; [exact Hstep|]].
    + rewrite (Hnew Hnotin).
      apply NoDup_app; [exact Hnd | repeat constructor; intros [] |].
      intros k Hk [<- | []]. now destruct Hnotin.
    + intros k. rewrite (Hnew Hnotin), in_app_iff, Hkeys. cbn [In]. split.
      * intros [[e' [He' Hk]] | [<- | []]].
        -- exists e'. split; [apply in_or_app; now left | exact Hk].
        -- exists e. split; [apply in_or_app; right; now left | reflexivity].
      * intros [e' [He' Hk]]. apply in_app_or in He' as [He' | [<- | []]].
        -- left. now exists e'.
        -- right. now left.
Qed.

Lemma collectStats_snoc (l : list LogRow.t) (e : LogRow.t) :
  collectStats (l ++ [e]) = updateStats e (collectStats l).
Proof. unfold collectStats. now rewrite fold_left_app. Qed.

Lemma collectStats_statsOf (entries : list LogRow.t) :
  statsOf entries (collectStats entries).
Proof.
  induction entries as [|e l IH] using rev_ind.
  - split; [constructor | split; [intros c [] |]].
    intros k. split; [intros [] | intros [e [[] _]]].
  - rewrite collectStats_snoc. now apply updateStats_statsOf.
Qed.

Lemma updateStats_total (e : LogRow.t) (stats : list Counts.t) :
  list_sum (map Counts.totalRequests (updateStats e stats)) =
  S (list_sum (map Counts.totalRequests stats)).
Proof.
  induction stats as [|c stats IH]; cbn [updateStats]; [reflexivity|].
  unfold list_sum in *.
  destruct (String.eqb (Counts.timeWindow c) (LogRow.timeWindow e));
    cbn [map fold_right countRow Counts.totalRequests] in *; lia.
Qed.

Lemma collectStats_total (entries : list LogRow.t) :
  list_sum (map Counts.totalRequests (collectStats entries)) = length entries.
Proof.
  induction entries as [|e l IH] using rev_ind; [reflexivity|].
  rewrite collectStats_snoc, updateStats_total, IH, length_app. cbn. lia.
Qed.

(** *** From the records to the reports *)

Section StatisticsProperties.
Variable host : Host.

Lemma insertByKey_Permutation (x : Stats.t) (l : list Stats.t) :
  Permutation (insertByKey host x l) (x :: l).
Proof.
  induction l as [|y l IH]; cbn [insertByKey]; [reflexivity|].
  destruct (_ <=? _); [reflexivity|].
  rewrite IH. apply perm_swap.
Qed.

Lemma sortByKey_Permutation (l : list Stats.t) : Permutation (sortByKey host l) l.
Proof.
  induction l as [|x l IH]; cbn; [reflexivity|].
  fold (sortByKey host l). rewrite insertByKey_Permutation. now constructor.
Qed.

Lemma map_statsView_insertByKey (x : Stats.t) (l : list Stats.t) :
  map statsView (insertByKey host x l) = insertByWindow host (statsView x) (map statsView l).
Proof.
  induction l as [|y l IH]; cbn [insertByKey insertByWindow map]; [reflexivity|].
  unfold windowLe. cbn [statsView timeWindow].
  destruct (localeCompare host (Stats.timeWindow x) (Stats.timeWindow y) <=? 0);
    cbn [map]; [reflexivity|].
  now rewrite IH.
Qed.

Lemma map_statsView_sortByKey (l : list Stats.t) :
  map statsView (sortByKey host l) = sortByWindow host (map statsView l).
Proof.
  induction l as [|x l IH]; [reflexivity|].
  cbn [sortByKey sortByWindow fold_right map].
  fold (sortByKey host l). fold (sortByWindow host (map statsView l)).
  now rewrite map_statsView_insertByKey, IH.
Qed.

Lemma map_stat_detectReelsMaskingFull (baseStats : list Stats.t) :
  map Report.stat (detectReelsMaskingFull host baseStats) = sortByKey host baseStats.
Proof.
  unfold detectReelsMaskingFull. cbv zeta. rewrite map_map.
  cbn [Report.stat]. apply map_snd_indexed.
Qed.

Lemma indexed_map {A B : Type} (f : A -> B) (l : list A) :
  indexed (map f l) = map (fun p => (fst p, f (snd p))) (indexed l).
Proof.
  unfold indexed. rewrite length_map. generalize 0%nat.
  induction l as [|a l IH]; intros n; cbn; [reflexivity|]. now rewrite IH.
Qed.

Lemma maskWindow_eta (sortedStats : list TimeWindowStats) (index : nat)
  (stat : TimeWindowStats) :
  mkMasked stat (isReelsMasking (maskWindow host sortedStats index stat))
    (maskingEvidence (maskWindow host sortedStats index stat)) =
  maskWindow host sortedStats index stat.
Proof.
  rewrite <- (baseStats_maskWindow host sortedStats index stat) at 1.
  now destruct (maskWindow host sortedStats index stat).
Qed.

Lemma reportView_detectReelsMaskingFull (baseStats : list Stats.t) :
  map reportView (detectReelsMaskingFull host baseStats) =
  detectReelsMasking host (map statsView baseStats).
Proof.
  unfold detectReelsMaskingFull, detectReelsMasking. cbv zeta.
  rewrite <- map_statsView_sortByKey, indexed_map, !map_map.
  apply map_ext. intros [i s]. unfold reportView.
  cbn [fst snd Report.stat Report.isReelsMasking Report.maskingEvidence].
  apply maskWindow_eta.
Qed.

Lemma In_calculateTimeWindowStats (entries : list LogRow.t) (r : Report.t) :
  In r (calculateTimeWindowStats host entries) ->
  exists c, In c (collectStats entries) /\ Report.stat r = baseStatsOf entries c.
Proof.
  intros Hr. apply (in_map Report.stat) in Hr.
  unfold calculateTimeWindowStats in Hr. cbv zeta in Hr.
  rewrite map_stat_detectReelsMaskingFull in Hr.
  apply (Permutation_in _ (sortByKey_Permutation _)) in Hr.
  apply in_map_iff in Hr as [c [Hc Hin]]. now exists c.
Qed.

(** X27. In every record of [calculateTimeWindowStats] the counters are
    those of the rows of its window: the total is their number and at
    least 1, blocked and allowed split it, the domain list holds each of
    their domains once and [uniqueDomains] is its length, the category
    counts add up to the total, and the device counts to the number of
    rows with a device name. *)
Theorem window_counts (entries : list LogRow.t) (r : Report.t) :
  In r (calculateTimeWindowStats host entries) ->
  let s := Report.stat r in
  let window := windowEntriesOf entries (Stats.timeWindow s) in
  (1 <= Stats.totalRequests s)%nat /\
  Stats.totalRequests s = length window /\
  Stats.blockedRequests s = length (filter LogRow.isBlocked window) /\
  Stats.totalRequests s = (Stats.blockedRequests s + Stats.allowedRequests s)%nat /\
  Stats.uniqueDomains s = length (Stats.domains s) /\
  NoDup (Stats.domains s) /\
  (forall d, In d (Stats.domains s) <->
             exists e, In e window /\ domain (LogRow.entry e) = d) /\
  sumCounts (Stats.categories s) = Stats.totalRequests s /\
  sumCounts (Stats.devices s) =
    length (filter (fun e => negb (String.eqb (LogRow.device_name e) "")) window).
Proof.
  intros Hr. cbv zeta.
  destruct (In_calculateTimeWindowStats _ _ Hr) as [c [Hc ->]].
  destruct (collectStats_statsOf entries) as (_ & Hcounts & _).
  destruct (Hcounts c Hc) as [(Ht & Hb & Ha & Hu & Hnd & Hd & Hcat & Hdev) Hne].
  unfold baseStatsOf. cbv zeta.
  cbn [Stats.timeWindow Stats.totalRequests Stats.blockedRequests
       Stats.allowedRequests Stats.uniqueDomains Stats.domains Stats.categories
       Stats.devices].
  set (window := windowEntriesOf entries (Counts.timeWindow c)) in *.
  assert (Hsplit : (length window =
                    length (filter LogRow.isBlocked window) +
                    length (filter (fun e => negb (LogRow.isBlocked e)) window))%nat).
  { clear. induction window as [|e w IH]; [reflexivity|].
    cbn [filter length]. destruct (LogRow.isBlocked e); cbn [negb length]; lia. }
  assert (Hpos : (1 <= length window)%nat).
  { destruct window; [now destruct Hne | cbn; lia]. }
  rewrite Ht, Hb, Ha, Hu, Hcat, Hdev.
  repeat split; try assumption; try lia; now apply Hd.
Qed.

Lemma Permutation_list_sum (l1 l2 : list nat) :
  Permutation l1 l2 -> list_sum l1 = list_sum l2.
Proof.
  unfold list_sum. induction 1; cbn [fold_right] in *; lia.
Qed.

Lemma insertByKey_Sorted (x : Stats.t) (l : list Stats.t) :
  collation host ->
  Sorted (fun a b => localeCompare host a b <= 0) (map Stats.timeWindow l) ->
  Sorted (fun a b => localeCompare host a b <= 0)
    (map Stats.timeWindow (insertByKey host x l)).
Proof.
  intros [Hsign _].
  assert (Htotal : forall a b, (localeCompare host a b <=? 0) = false ->
                               localeCompare host b a <= 0).
  { intros a b H. apply Z.leb_gt in H. apply (Hsign b a) in H. lia. }
  induction l as [|y l IH]; intros Hs; cbn [insertByKey map].
  - repeat constructor.
  - destruct (localeCompare host (Stats.timeWindow x) (Stats.timeWindow y) <=? 0)
      eqn:Hxy; cbn [map].
    + apply Z.leb_le in Hxy. constructor; [exact Hs | now constructor].
    + inversion Hs as [|? ? Hs' Hhd]; subst.
      constructor; [now apply IH|].
      destruct l as [|z l]; cbn [insertByKey map].
      * constructor. now apply Htotal.
      * destruct (localeCompare host (Stats.timeWindow x) (Stats.timeWindow z) <=? 0);
          cbn [map].
        -- constructor. now apply Htotal.
        -- inversion Hhd; subst. now constructor.
Qed.

Lemma sortByKey_Sorted (l : list Stats.t) :
  collation host ->
  Sorted (fun a b => localeCompare host a b <= 0)
    (map Stats.timeWindow (sortByKey host l)).
Proof.
  intros Hcollation. induction l as [|x l IH]; cbn; [constructor|].
  now apply insertByKey_Sorted.
Qed.

(** X28. On every host, [calculateTimeWindowStats] returns one record
    for each window key that occurs in the entries: the keys of the
    records are distinct, a key occurs exactly when some entry has it,
    and the totals of the records add up to the number of entries; and
    when the host's [localeCompare] is a collation the keys are in
    ascending order under it. *)
Theorem stats_cover_entries (entries : list LogRow.t) :
  let reports := calculateTimeWindowStats host entries in
  let keys := map (fun r => Stats.timeWindow (Report.stat r)) reports in
  NoDup keys /\
  (collation host -> Sorted (fun a b => localeCompare host a b <= 0) keys) /\
  (forall k, In k keys <-> exists e, In e entries /\ LogRow.timeWindow e = k) /\
  list_sum (map (fun r => Stats.totalRequests (Report.stat r)) reports) =
    length entries.
Proof.
  cbv zeta.
  rewrite <- !(map_map Report.stat).
  unfold calculateTimeWindowStats. cbv zeta.
  rewrite map_stat_detectReelsMaskingFull.
  set (base := map (baseStatsOf entries) (collectStats entries)).
  assert (Hkeys : map Stats.timeWindow base =
                  map Counts.timeWindow (collectStats entries)).
  { unfold base. rewrite map_map. reflexivity. }
  assert (Htotals : map Stats.totalRequests base =
                    map Counts.totalRequests (collectStats entries)).
  { unfold base. rewrite map_map. reflexivity. }
  pose proof (Permutation_map Stats.timeWindow (sortByKey_Permutation base))
    as Hperm.
  destruct (collectStats_statsOf entries) as (Hnd & _ & Hcover).
  split; [|split; [|split]].
  - apply (Permutation_NoDup (Permutation_sym Hperm)). now rewrite Hkeys.
  - intros Hcollation. now apply sortByKey_Sorted.
  - intros k. rewrite <- Hcover, <- Hkeys.
    split; apply Permutation_in; [exact Hperm | exact (Permutation_sym Hperm)].
  - rewrite (Permutation_list_sum _ _
               (Permutation_map Stats.totalRequests (sortByKey_Permutation base))).
    rewrite Htotals. apply collectStats_total.
Qed.

Lemma stat_in_reports (baseStats : list Stats.t) (s : Stats.t) :
  In s baseStats ->
  exists r, In r (detectReelsMaskingFull host baseStats) /\ Report.stat r = s.
Proof.
  intros Hs.
  apply (Permutation_in _ (Permutation_sym (sortByKey_Permutation baseStats)))
    in Hs.
  rewrite <- map_stat_detectReelsMaskingFull in Hs.
  apply in_map_iff in Hs as [r [Hr Hin]]. now exists r.
Qed.
End StatisticsProperties.

Lemma window_counts_witness :
  let rows := [LogRow.mk (mkEntry "g.whatsapp.net" 0) "2024-01-15 10:00" false
                 "WhatsApp Domain Access" "phone";
               LogRow.mk (mkEntry "doubleclick.net" 1000) "2024-01-15 10:00" true
                 "Advertising & Analytics" ""] in
  exists r, In r (calculateTimeWindowStats utcHost rows) /\
            Stats.totalRequests (Report.stat r) = 2%nat /\
            Stats.blockedRequests (Report.stat r) = 1%nat /\
            sumCounts (Stats.devices (Report.stat r)) = 1%nat.
Proof.
  cbv zeta.
  set (rows := [LogRow.mk (mkEntry "g.whatsapp.net" 0) "2024-01-15 10:00" false
                  "WhatsApp Domain Access" "phone";
                LogRow.mk (mkEntry "doubleclick.net" 1000) "2024-01-15 10:00" true
                  "Advertising & Analytics" ""]).
  assert (Hin : In (nth 0 (calculateTimeWindowStats utcHost rows)
                      (Report.mk (baseStatsOf [] (newCounts "")) false ""))
                   (calculateTimeWindowStats utcHost rows)).
  { apply nth_In. vm_compute. lia. }
  eexists. split; [exact Hin|].
  pose proof (window_counts utcHost rows _ Hin) as H. cbv zeta in H.
  destruct H as (_ & Ht & Hb & _ & _ & _ & _ & _ & Hdev).
  rewrite Ht, Hb, Hdev. vm_compute. repeat split.
Defined.

Lemma stats_cover_entries_witness :
  let rows := [LogRow.mk (mkEntry "g.whatsapp.net" 0) "2024-01-15 10:05" false
                 "WhatsApp Domain Access" "phone";
               LogRow.mk (mkEntry "doubleclick.net" 1000) "2024-01-15 10:00" true
                 "Advertising & Analytics" ""] in
  collation utcHost /\
  Sorted (fun a b => localeCompare utcHost a b <= 0)
    (map (fun r => Stats.timeWindow (Report.stat r))
       (calculateTimeWindowStats utcHost rows)).
Proof.
  cbv zeta. split; [exact utcHost_collation|].
  apply (stats_cover_entries utcHost
           [LogRow.mk (mkEntry "g.whatsapp.net" 0) "2024-01-15 10:05" false
              "WhatsApp Domain Access" "phone";
            LogRow.mk (mkEntry "doubleclick.net" 1000) "2024-01-15 10:00" true
              "Advertising & Analytics" ""]).
  exact utcHost_collation.
Defined.

(** ** Tags and severity of a report *)

Lemma upperAscii_not_lower (c : ascii) : isLowerAscii (upperAscii c) = false.
Proof.
  destruct c as [[] [] [] [] [] [] [] []]; vm_compute; reflexivity.
Qed.

Lemma hasLower_toUpperCase (s : string) : hasLower (toUpperCase s) = false.
Proof.
  induction s as [|c s IH]; [reflexivity|].
  cbn [toUpperCase hasLower]. now rewrite upperAscii_not_lower, IH.
Qed.

Lemma not_In_upper (t : string) (l : list string) :
  hasLower t = true -> ~ In t (map toUpperCase l).
Proof.
  intros Ht Hin. apply in_map_iff in Hin as [x [<- _]].
  now rewrite hasLower_toUpperCase in Ht.
Qed.

Lemma In_tagIf (t : string) (b : bool) (tag : string) :
  In t (tagIf b tag) <-> b && String.eqb tag t = true.
Proof.
  unfold tagIf. destruct b; cbn [In andb].
  - rewrite String.eqb_eq. tauto.
  - split; [intros [] | discriminate].
Qed.

Lemma In_generateTags (r : Report.t) (t : string) :
  hasLower t = true -> (In t (generateTags r) <-> hasTag r t = true).
Proof.
  intros Ht. unfold generateTags, hasTag, conditionalTags. cbv zeta.
  cbn [existsb fst snd].
  rewrite !in_app_iff, !In_tagIf, !orb_true_iff.
  pose proof (not_In_upper t (datingApps (Stats.relationshipConcerns (Report.stat r)))
                Ht) as H1.
  pose proof (not_In_upper t
                (alternativeMessaging (Stats.relationshipConcerns (Report.stat r)))
                Ht) as H2.
  pose proof (not_In_upper t (videoCalling (Stats.relationshipConcerns (Report.stat r)))
                Ht) as H3.
  assert (Hdir :
    In t (if String.eqb (WhatsApp.callDirection
                           (Stats.whatsappActivity (Report.stat r))) ""
          then []
          else [if String.eqb (WhatsApp.callDirection
                                 (Stats.whatsappActivity (Report.stat r))) "incoming"
                then "Incoming" else "Outgoing"]) <->
    (negb (String.eqb (WhatsApp.callDirection
                         (Stats.whatsappActivity (Report.stat r))) "") &&
     String.eqb (WhatsApp.callDirection
                   (Stats.whatsappActivity (Report.stat r))) "incoming") &&
    String.eqb "Incoming" t = true \/
    (negb (String.eqb (WhatsApp.callDirection
                         (Stats.whatsappActivity (Report.stat r))) "") &&
     negb (String.eqb (WhatsApp.callDirection
                         (Stats.whatsappActivity (Report.stat r))) "incoming")) &&
    String.eqb "Outgoing" t = true).
  { destruct (String.eqb (WhatsApp.callDirection _) "");
      [cbn; split; [intros [] | intros [H | H]; discriminate H]|].
    destruct (String.eqb (WhatsApp.callDirection _) "incoming");
      cbn [In negb andb]; rewrite String.eqb_eq; split.
    - intros [H | []]; now left.
    - intros [H | H]; [now left | discriminate H].
    - intros [H | []]; now right.
    - intros [H | H]; [discriminate H | now left]. }
  rewrite Hdir. clear Hdir.
  assert (Hf : false = true <-> False) by (split; [discriminate | intros []]).
  rewrite Hf. clear Hf Ht. tauto.
Qed.

Lemma fbClassify_reels (es : list ProcessedLogEntry) :
  Facebook.isReelsScrolling (fbClassify es) = true ->
  Facebook.isMessaging (fbClassify es) = false /\
  Facebook.isCall (fbClassify es) = false /\
  Facebook.activityScore (fbClassify es) = 3.
Proof.
  unfold fbClassify. cbv zeta.
  destruct (negb (fbHasCore es) && _ && _ && _); [discriminate|].
  destruct (fbHasReelsVideo es && hasNetSeerCDN es); [now auto|].
  destruct (fbHasReelsVideo es && hasVideoStaticAssets es); [now auto|].
  rewrite fb_rest_not_reels. discriminate.
Qed.

Lemma fbClassify_call_score (es : list ProcessedLogEntry) :
  Facebook.isCall (fbClassify es) = true ->
  1 <= Facebook.activityScore (fbClassify es).
Proof.
  intros Hcall. apply (proj2 (fbClassify_ok es)).
  destruct (fbHasCore es) eqn:Hcore; [reflexivity|].
  unfold fbClassify in Hcall. rewrite fbGuard_closed_iff, Hcore in Hcall.
  discriminate Hcall.
Qed.

Lemma strong_evidence_score (wa : WhatsApp.Activity) (fb : Facebook.Activity)
  (key : string) :
  waResultOk wa -> fbResultOk fb ->
  hasStrongMessagingEvidence (mkStats key wa fb) = true ->
  4 <= WhatsApp.activityScore wa \/ 4 <= Facebook.activityScore fb.
Proof.
  destruct wa as [text waMedia voice video waScore dir].
  destruct fb as [msg media bg insta reels score call].
  unfold waResultOk, fbResultOk, hasStrongMessagingEvidence.
  cbn [whatsappActivity facebookActivity
       WhatsApp.isTextMessage WhatsApp.isMediaTransfer WhatsApp.isVoiceCall
       WhatsApp.activityScore WhatsApp.callDirection
       Facebook.isMessaging Facebook.isMediaTransfer Facebook.isBackgroundRefresh
       Facebook.isReelsScrolling Facebook.activityScore Facebook.isCall].
  intros (_ & _ & _ & _ & Hmedia & Hflag & _) (_ & _ & _ & Hmsg) Hstrong.
  repeat (apply orb_true_iff in Hstrong as [Hstrong | Hstrong]).
  - apply andb_true_iff in Hstrong as [-> _]. right. now apply Hmsg.
  - apply andb_true_iff in Hstrong as [-> _]. left. apply Hflag. now left.
  - subst waMedia. left. apply Hflag. left. now apply Hmedia.
  - apply Z.ltb_lt in Hstrong. right. lia.
  - apply Z.ltb_lt in Hstrong. left. lia.
Qed.

Section ReportProperties.
Variable host : Host.

(** X29. On every host, the flags of the records of
    [calculateTimeWindowStats] agree across the detectors: a record
    whose WhatsApp classification has the text, media or call flag has
    [isRealChat]; and a record with [isReelsMasking] has a WhatsApp or a
    Facebook score of at least 4, and some record of the same result is
    a Reels window without the messaging flag whose key and the
    record's key are dates, as the host reads them, more than one and at
    most ten minutes apart. *)
Theorem pipeline_flags_agree (entries : list LogRow.t) (r : Report.t) :
  In r (calculateTimeWindowStats host entries) ->
  let s := Report.stat r in
  (WhatsApp.isTextMessage (Stats.whatsappActivity s) = true \/
   WhatsApp.isMediaTransfer (Stats.whatsappActivity s) = true \/
   WhatsApp.isVoiceCall (Stats.whatsappActivity s) = true ->
   Stats.isRealChat s = true) /\
  (Report.isReelsMasking r = true ->
   (4 <= WhatsApp.activityScore (Stats.whatsappActivity s) \/
    4 <= Facebook.activityScore (Stats.facebookActivity s)) /\
   exists r' t t',
     In r' (calculateTimeWindowStats host entries) /\
     Facebook.isReelsScrolling (Stats.facebookActivity (Report.stat r')) = true /\
     Facebook.isMessaging (Stats.facebookActivity (Report.stat r')) = false /\
     windowDate host (Stats.timeWindow s) = Some t /\
     windowDate host (Stats.timeWindow (Report.stat r')) = Some t' /\
     60000 < Z.abs (t - t') <= 600000).
Proof.
  intros Hr. cbv zeta.
  destruct (In_calculateTimeWindowStats host _ _ Hr) as [c [Hc Hstat]].
  split.
  - rewrite Hstat. unfold baseStatsOf. cbv zeta.
    cbn [Stats.whatsappActivity Stats.isRealChat].
    intros Hflag.
    destruct (collectStats_statsOf entries) as (_ & Hcounts & _).
    destruct (Hcounts c Hc) as [(_ & _ & _ & _ & _ & Hdomains & _) _].
    destruct (whatsapp_flag_tables
                (map LogRow.entry (windowEntriesOf entries (Counts.timeWindow c)))
                (Counts.domains c)) as [Hcore Hmsg].
    + intros d Hd. apply in_map_iff in Hd as [e [<- He]].
      apply in_map_iff in He as [row [<- Hrow]].
      apply Hdomains. now exists row.
    + exact Hflag.
    + now apply detectRealChat_whatsapp.
  - intros Hflag.
    set (base := map (baseStatsOf entries) (collectStats entries)).
    assert (Hview : In (reportView r) (detectReelsMasking host (map statsView base))).
    { rewrite <- reportView_detectReelsMaskingFull. now apply in_map. }
    unfold detectReelsMasking in Hview. cbv zeta in Hview.
    apply in_map_iff in Hview as [[i stat] [Hmask _]]. cbn [fst snd] in Hmask.
    pose proof (maskWindow_sound host (map statsView base)
                  (sortByWindow host (map statsView base)) i stat
                  (fun s Hs => Permutation_in _
                                 (sortByWindow_Permutation host (map statsView base))
                                 Hs)) as [_ Hon].
    cbv zeta in Hon. rewrite Hmask in Hon.
    destruct (Hon Hflag)
      as (Hstrong & _ & other & t & t' & Hother & Hreels & Ht & Ht' & Hgap).
    cbn [reportView baseStats] in Hstrong, Ht.
    split.
    + rewrite Hstat in Hstrong |- *. unfold baseStatsOf in Hstrong |- *.
      cbv zeta in Hstrong |- *.
      cbn [Stats.whatsappActivity Stats.facebookActivity statsView
           Stats.timeWindow] in Hstrong |- *.
      apply (strong_evidence_score _ _ _ (waClassify_ok _)
               (proj1 (fbClassify_ok _)) Hstrong).
    + apply in_map_iff in Hother as [s' [<- Hs']].
      destruct (stat_in_reports host base s' Hs') as [r' [Hr' Hstat']].
      exists r', t, t'.
      split; [exact Hr'|]. rewrite Hstat'.
      cbn [statsView facebookActivity timeWindow] in Hreels, Ht'.
      split; [exact Hreels|].
      split; [|split; [exact Ht | split; [exact Ht' | exact Hgap]]].
      apply in_map_iff in Hs' as [c' [<- _]].
      unfold baseStatsOf in Hreels |- *. cbv zeta in Hreels |- *.
      cbn [Stats.facebookActivity] in Hreels |- *.
      exact (proj1 (fbClassify_reels _ Hreels)).
Qed.

(** X30. The tags that [generateTags] gives a record of
    [calculateTimeWindowStats] are consistent: 'Reels' comes with
    'Facebook' and without 'Messaging' and 'Video Call'; 'Voice Call'
    comes with 'Incoming' and 'WhatsApp' and the record has a severity;
    'Media Transfer' and either direction tag come with 'WhatsApp';
    'Messaging' and 'Video Call' come with 'Facebook'; and the two
    direction tags never occur together. *)
Theorem tags_consistent (entries : list LogRow.t) (r : Report.t) :
  In r (calculateTimeWindowStats host entries) ->
  let tags := generateTags r in
  (In "Reels" tags ->
   In "Facebook" tags /\ ~ In "Messaging" tags /\ ~ In "Video Call" tags) /\
  (In "Voice Call" tags ->
   In "Incoming" tags /\ In "WhatsApp" tags /\ getSeverityLevel r <> None) /\
  (In "Media Transfer" tags -> In "WhatsApp" tags) /\
  (In "Incoming" tags \/ In "Outgoing" tags -> In "WhatsApp" tags) /\
  (In "Messaging" tags \/ In "Video Call" tags -> In "Facebook" tags) /\
  ~ (In "Incoming" tags /\ In "Outgoing" tags).
Proof.
  intros Hr. cbv zeta.
  rewrite !In_generateTags by reflexivity.
  unfold hasTag, conditionalTags, getSeverityLevel. cbv zeta.
  cbn [existsb fst snd String.eqb Ascii.eqb Bool.eqb andb orb].
  rewrite !andb_false_r, !andb_true_r, !orb_false_r. cbn [orb].
  destruct (In_calculateTimeWindowStats host _ _ Hr) as [c [_ ->]].
  unfold baseStatsOf. cbv zeta.
  cbn [Stats.whatsappActivity Stats.facebookActivity Stats.relationshipConcerns].
  set (window := map LogRow.entry (windowEntriesOf entries (Counts.timeWindow c))).
  unfold detectWhatsAppActivity, detectFacebookActivity.
  pose proof (waClassify_ok (sortByTime window)) as Hwa.
  pose proof (proj1 (fbClassify_ok (sortByTime window))) as Hfb.
  pose proof (fbClassify_reels (sortByTime window)) as Hreels.
  pose proof (fbClassify_call_score (sortByTime window)) as Hcall.
  revert Hwa Hfb Hreels Hcall.
  generalize (waClassify (sortByTime window)).
  generalize (fbClassify (sortByTime window)).
  generalize (detectRelationshipConcerns (Counts.domains c)).
  intros concerns [msg media bg insta reels score call]
         [text waMedia voice video waScore dir].
  unfold waResultOk, fbResultOk.
  cbn [WhatsApp.isTextMessage WhatsApp.isMediaTransfer WhatsApp.isVoiceCall
       WhatsApp.activityScore WhatsApp.callDirection
       Facebook.isMessaging Facebook.isMediaTransfer Facebook.isBackgroundRefresh
       Facebook.isReelsScrolling Facebook.activityScore Facebook.isCall].
  intros (Hrange & Hdir & Hvoice & Hnodir & Hmedia & Hflag & _)
         (Hfrange & _ & _ & Hmsg) Hreels Hcall.
  assert (Hpos : forall z, 1 <= z -> (0 <? z) = true)
    by (intros z Hz; apply Z.ltb_lt; lia).
  assert (Hhigh : forall z, 8 <= z -> (6 <? z) = true)
    by (intros z Hz; apply Z.ltb_lt; lia).
  split; [|split; [|split; [|split; [|split]]]].
  - intros ->. destruct (Hreels eq_refl) as (-> & -> & ->).
    split; [reflexivity | split; discriminate].
  - intros ->. destruct (Hvoice eq_refl) as [-> H8].
    rewrite (Hpos waScore) by lia. rewrite (Hhigh waScore H8).
    split; [reflexivity | split; [reflexivity|]].
    rewrite !orb_true_r.
    destruct (_ || _); [discriminate|]. destruct (_ || _); discriminate.
  - intros ->. apply Hpos. specialize (Hflag (or_introl (Hmedia eq_refl))). lia.
  - intros Hd. apply Hpos.
    destruct voice; [specialize (Hflag (or_intror eq_refl)); lia|].
    destruct waMedia; [specialize (Hflag (or_introl (Hmedia eq_refl))); lia|].
    rewrite (Hnodir eq_refl eq_refl) in Hd. cbn in Hd.
    destruct Hd as [Hd | Hd]; discriminate Hd.
  - intros [-> | ->]; apply Hpos; [specialize (Hmsg eq_refl); lia | now apply Hcall].
  - intros [H1 H2]. destruct (String.eqb dir "incoming"), (String.eqb dir "");
      cbn in H1, H2; discriminate.
Qed.
End ReportProperties.

Lemma pipeline_flags_agree_witness :
  let rows := [LogRow.mk (mkEntry "1-courier.push.apple.com" 0) "2024-01-15 10:00"
                 false "Other" "phone";
               LogRow.mk (mkEntry "g.whatsapp.net" 2000) "2024-01-15 10:00" false
                 "WhatsApp Domain Access" "phone"] in
  exists r, In r (calculateTimeWindowStats utcHost rows) /\
            WhatsApp.isVoiceCall (Stats.whatsappActivity (Report.stat r)) = true /\
            Stats.isRealChat (Report.stat r) = true.
Proof.
  cbv zeta.
  set (rows := [LogRow.mk (mkEntry "1-courier.push.apple.com" 0) "2024-01-15 10:00"
                  false "Other" "phone";
                LogRow.mk (mkEntry "g.whatsapp.net" 2000) "2024-01-15 10:00" false
                  "WhatsApp Domain Access" "phone"]).
  assert (Hin : In (nth 0 (calculateTimeWindowStats utcHost rows)
                      (Report.mk (baseStatsOf [] (newCounts "")) false ""))
                   (calculateTimeWindowStats utcHost rows)).
  { apply nth_In. vm_compute. lia. }
  eexists. split; [exact Hin|].
  assert (Hvoice : WhatsApp.isVoiceCall
                     (Stats.whatsappActivity
                        (Report.stat
                           (nth 0 (calculateTimeWindowStats utcHost rows)
                              (Report.mk (baseStatsOf [] (newCounts "")) false ""))))
                   = true).
  { vm_compute. reflexivity. }
  split; [exact Hvoice|].
  pose proof (pipeline_flags_agree utcHost rows _ Hin) as H. cbv zeta in H.
  apply (proj1 H). right. right. exact Hvoice.
Defined.

Lemma tags_consistent_witness :
  let rows := [LogRow.mk (mkEntry "1-courier.push.apple.com" 0) "2024-01-15 10:00" false
                 "Other" "phone";
               LogRow.mk (mkEntry "g.whatsapp.net" 2000) "2024-01-15 10:00" false
                 "WhatsApp Domain Access" "phone"] in
  exists r, In r (calculateTimeWindowStats utcHost rows) /\
            In "Voice Call" (generateTags r) /\ In "Incoming" (generateTags r).
Proof.
  cbv zeta.
  set (rows := [LogRow.mk (mkEntry "1-courier.push.apple.com" 0) "2024-01-15 10:00" false
                  "Other" "phone";
                LogRow.mk (mkEntry "g.whatsapp.net" 2000) "2024-01-15 10:00" false
                  "WhatsApp Domain Access" "phone"]).
  assert (Hin : In (nth 0 (calculateTimeWindowStats utcHost rows)
                      (Report.mk (baseStatsOf [] (newCounts "")) false ""))
                   (calculateTimeWindowStats utcHost rows)).
  { apply nth_In. vm_compute. lia. }
  eexists. split; [exact Hin|].
  assert (Hvoice : In "Voice Call"
                     (generateTags
                        (nth 0 (calculateTimeWindowStats utcHost rows)
                           (Report.mk (baseStatsOf [] (newCounts "")) false "")))).
  { vm_compute. auto 10. }
  split; [exact Hvoice|].
  pose proof (tags_consistent utcHost rows _ Hin) as H. cbv zeta in H.
  exact (proj1 (proj1 (proj2 H) Hvoice)).
Defined.
